(** * WARS-Birdhouse: the station's message processor

    A shallow embedding of [fw/station/MessageProcessor.cpp]: the receive
    classifier [_process], [transmitIfPossible], [getUniqueId] and
    [resetCounters], over explicit state.

    The object state of the C++ class, the collaborators it holds by
    reference (clock, buffers, routing table, instrumentation,
    configuration, outbound packet manager) and the global [logger] are one
    record, threaded through a state monad whose failure case stands for an
    access outside an array.

    Headers of the repository that are not among the sources ([packets.h],
    [MessageProcessor.h], [RoutingTable.h], [OutboundPacketManager.h],
    [CircularBuffer.h]) are either taken as parameters (class [Decls]) or
    modelled from the design document; each such definition says so. *)

From Stdlib Require Import ZArith Lia Bool List.
From stdpp Require Import base tactics option list strings.

Open Scope Z_scope.

(** ** Machine integers *)

Definition wrap16 (x : Z) : Z := x mod 65536.
Definition wrap32 (x : Z) : Z := x mod 4294967296.

(** Modelled from the spec: the type of [_idCounter] is declared in
    [MessageProcessor.h], which is absent; section 4.4 makes the counter 16
    bits wide. *)
Definition wrapIdCounter (x : Z) : Z := wrap16 x.

(** ** Packet model *)

(** Modelled from the spec: [packets.h] is absent.  The [type] byte of the
    header carries a discriminant plus an ACK bit and an ACK-required bit;
    the embedding keeps the three components decoded.  Discriminants the
    processor does not know are [TYPE_OTHER]. *)
Inductive MsgType : Type :=
  | TYPE_PING_REQ
  | TYPE_PING_RESP
  | TYPE_GETSED_REQ
  | TYPE_GETSED_RESP
  | TYPE_RESET
  | TYPE_RESET_COUNTERS
  | TYPE_TEXT
  | TYPE_SETROUTE
  | TYPE_GETROUTE_REQ
  | TYPE_GETROUTE_RESP
  | TYPE_OTHER (code : Z).

#[global] Instance MsgType_eq_dec : EqDecision MsgType.
Proof. solve_decision. Defined.

Definition nodeaddr_t : Type := Z.
Definition CallSign : Type := string.

(** Modelled from the spec: the fields of [Header] (section 3 of the design
    document); [isAck] and [isAckRequired] are the two bits of the type
    byte. *)
Record Header : Type := mkHeader {
  version : Z;
  type : MsgType;
  isAck : bool;
  isAckRequired : bool;
  id : Z;
  sourceAddr : nodeaddr_t;
  destAddr : nodeaddr_t;
  originalSourceAddr : nodeaddr_t;
  finalDestAddr : nodeaddr_t;
  sourceCall : CallSign;
  originalSourceCall : CallSign
}.

Definition getPacketVersion (h : Header) : Z := version h.
Definition getType (h : Header) : MsgType := type h.
Definition getId (h : Header) : Z := id h.
Definition getSourceAddr (h : Header) : nodeaddr_t := sourceAddr h.
Definition getDestAddr (h : Header) : nodeaddr_t := destAddr h.
Definition getOriginalSourceAddr (h : Header) : nodeaddr_t := originalSourceAddr h.
Definition getFinalDestAddr (h : Header) : nodeaddr_t := finalDestAddr h.
Definition getSourceCall (h : Header) : CallSign := sourceCall h.
Definition getOriginalSourceCall (h : Header) : CallSign := originalSourceCall h.

(** The setters of [Header] assign their field; [setId] takes the 16 bits of
    its argument. *)
Definition setId (v : Z) (h : Header) : Header :=
  mkHeader (version h) (type h) (isAck h) (isAckRequired h) (wrap16 v)
    (sourceAddr h) (destAddr h) (originalSourceAddr h) (finalDestAddr h)
    (sourceCall h) (originalSourceCall h).

Definition setDestAddr (v : nodeaddr_t) (h : Header) : Header :=
  mkHeader (version h) (type h) (isAck h) (isAckRequired h) (id h)
    (sourceAddr h) v (originalSourceAddr h) (finalDestAddr h)
    (sourceCall h) (originalSourceCall h).

Definition setSourceAddr (v : nodeaddr_t) (h : Header) : Header :=
  mkHeader (version h) (type h) (isAck h) (isAckRequired h) (id h)
    v (destAddr h) (originalSourceAddr h) (finalDestAddr h)
    (sourceCall h) (originalSourceCall h).

(** A packet is a header followed by payload bytes; how many of them are
    meaningful is the [packetLen] that travels next to the packet. *)
Record Packet : Type := mkPacket {
  header : Header;
  payload : list Z
}.

Definition withHeader (f : Header -> Header) (p : Packet) : Packet :=
  mkPacket (f (header p)) (payload p).

(** Modelled from the spec: the broadcast address, section 3. *)
Definition BROADCAST_ADDR : nodeaddr_t := 65535.

(** Modelled from the spec: the payload structures of [packets.h], section
    3. *)
Record ResetReqPayload : Type := mkResetReq { reset_passcode : Z }.

Record SetRouteReqPayload : Type := mkSetRouteReq {
  passcode : Z;
  setroute_targetAddr : nodeaddr_t;
  setroute_nextHopAddr : nodeaddr_t
}.

Record GetRouteReqPayload : Type := mkGetRouteReq { getroute_targetAddr : nodeaddr_t }.

Record GetRouteRespPayload : Type := mkGetRouteResp {
  targetAddr : nodeaddr_t;
  nextHopAddr : nodeaddr_t;
  txPacketCount : Z;
  rxPacketCount : Z
}.

Record SadRespPayload : Type := mkSadResp {
  sad_version : Z;
  batteryMv : Z;
  panelMv : Z;
  uptimeSeconds : Z;
  time : Z;
  bootCount : Z;
  sleepCount : Z;
  lastHopRssi : Z;
  temp : Z;
  humidity : Z;
  deviceClass : Z;
  deviceRevision : Z;
  sad_rxPacketCount : Z;
  badRxPacketCount : Z;
  badRouteCount : Z
}.

(** ** Collaborator interfaces *)

(** Modelled from the spec: [Configuration.h] is absent.  Section 6 lists
    the methods of the abstract class; an object of it is a record of what
    they return. *)
Record Configuration : Type := mkConfiguration {
  getAddr : nodeaddr_t;
  getCall : CallSign;
  getLogLevel : Z;
  getCommandMode : Z;
  getBootCount : Z;
  getSleepCount : Z;
  checkPasscode : Z -> bool
}.

(** Modelled from the spec: [Instrumentation.h] is absent.  Section 6 lists
    the methods; an object is its readings and the number of calls of
    [restart()] so far. *)
Record Instrumentation : Type := mkInstrumentation {
  getSoftwareVersion : Z;
  getBatteryVoltage : Z;
  getPanelVoltage : Z;
  getTemperature : Z;
  getHumidity : Z;
  getDeviceClass : Z;
  getDeviceRevision : Z;
  restarts : nat
}.

Definition restart (i : Instrumentation) : Instrumentation :=
  mkInstrumentation (getSoftwareVersion i) (getBatteryVoltage i)
    (getPanelVoltage i) (getTemperature i) (getHumidity i)
    (getDeviceClass i) (getDeviceRevision i) (S (restarts i)).

(** Declarations of the absent headers that the design document does not
    pin down: sizes and constants of [packets.h], the capacity of the
    duplicate ring and its age window ([MessageProcessor.h]), the sentinel
    [RoutingTable::NO_ROUTE], and the helpers of [Header] and of the payload
    structures whose bodies are not given. *)
Class Decls : Type := {
  PACKET_VERSION : Z;
  sizeofHeader : Z;
  sizeofPacket : Z;
  sizeofResetReqPayload : Z;
  sizeofSadRespPayload : Z;
  sizeofSetRouteReqPayload : Z;
  sizeofGetRouteReqPayload : Z;
  sizeofGetRouteRespPayload : Z;
  NO_ROUTE : nodeaddr_t;
  _packetReportSlots : nat;
  dedupWindowMs : Z;
  typeByte : Header -> Z;
  isResponseRequired : Header -> bool;
  setupResponseFor : Header -> Configuration -> MsgType -> Z -> nodeaddr_t -> Header;
  readResetReq : list Z -> ResetReqPayload;
  readSetRouteReq : list Z -> SetRouteReqPayload;
  readGetRouteReq : list Z -> GetRouteReqPayload;
  readGetRouteResp : list Z -> GetRouteRespPayload;
  readSadResp : list Z -> SadRespPayload;
  writeSadResp : SadRespPayload -> list Z;
  writeGetRouteResp : GetRouteRespPayload -> list Z
}.

(** ** Circular buffer *)

(** Modelled from the spec: [CircularBuffer.h] is absent.  Section 4.1: a
    fixed-capacity FIFO of records (sidechannel, payload); [push] refuses a
    record that does not fit together with its length prefix and never
    writes part of one. *)
Record BufferRecord : Type := mkBufferRecord {
  rec_side : Z;
  rec_packet : Packet;
  rec_len : Z
}.

Record CircularBuffer : Type := mkCircularBuffer {
  cb_capacity : Z;
  cb_sideLen : Z;
  cb_prefixLen : Z;
  cb_records : list BufferRecord
}.

(** Modelled from the spec: the bytes in use, each record with its length
    prefix and its sidechannel. *)
Definition cb_used (b : CircularBuffer) : Z :=
  fold_right (fun r acc => cb_prefixLen b + cb_sideLen b + rec_len r + acc) 0
    (cb_records b).

(** Modelled from the spec: [CircularBuffer::push], section 4.1. *)
Definition push (side : Z) (p : Packet) (len : Z) (b : CircularBuffer)
  : bool * CircularBuffer :=
  if cb_used b + cb_prefixLen b + cb_sideLen b + len <=? cb_capacity b
  then (true, mkCircularBuffer (cb_capacity b) (cb_sideLen b) (cb_prefixLen b)
                (cb_records b ++ [mkBufferRecord side p len]))
  else (false, b).

(** ** Routing table *)

(** Modelled from the spec: [RoutingTable.h] and [RoutingTableImpl.h] are
    absent.  Section 4.2: a dense table over the addresses below 64. *)
Definition RoutingTable : Type := list nodeaddr_t.

(** Modelled from the spec: [RoutingTable::nextHop], section 4.2; the test
    double [TestRoutingTable] that [tests/unit-test-2.cpp] keeps commented
    out reads the same. *)
Definition nextHop {D : Decls} (t : RoutingTable) (finalDestAddr : nodeaddr_t)
  : nodeaddr_t :=
  if finalDestAddr =? 0 then 0
  else if 65520 <=? finalDestAddr then finalDestAddr
  else if 64 <=? finalDestAddr then NO_ROUTE
  else default NO_ROUTE (t !! Z.to_nat finalDestAddr).

(** Modelled from the spec: [RoutingTable::setRoute] stores the entry
    (section 4.2), as the assignment [_table[target] = nextHop] of
    [TestRoutingTable] does.  Neither checks the target: [None] when the
    write leaves the table. *)
Definition setRoute (target nh : nodeaddr_t) (t : RoutingTable)
  : option RoutingTable :=
  if (0 <=? target) && (target <? Z.of_nat (length t))
  then Some (<[Z.to_nat target := nh]> t)
  else None.

(** Modelled from the spec: [RoutingTable::clearRoutes], section 4.2. *)
Definition clearRoutes {D : Decls} : RoutingTable := replicate 64 NO_ROUTE.

(** ** Outbound packet manager *)

(** Modelled from the spec: [OutboundPacketManager.h] is absent.  Section
    4.3: a fixed array of slots, each free or pending. *)
Record PendingSlot : Type := mkPendingSlot {
  slot_packet : Packet;
  slot_packetLen : Z;
  firstSendTime : Z;
  lastAttemptTime : Z;
  attempts : Z
}.

Definition OutboundPacketManager : Type := list (option PendingSlot).

Definition isFree (s : option PendingSlot) : bool :=
  match s with None => true | Some _ => false end.

Fixpoint firstFree (slots : OutboundPacketManager) : option nat :=
  match slots with
  | [] => None
  | s :: rest => if isFree s then Some 0%nat else S <$> firstFree rest
  end.

(** Modelled from the spec: [scheduleTransmitIfPossible], section 4.3.
    Fails when no slot is free.  On success the packet has gone to the TX
    buffer at once, and only a packet that asks for an ACK stays in its
    slot; the document leaves open what happens when the TX buffer has no
    room for this first attempt, and a refusal by the buffer counts as
    failure here, so that success means the packet has been emitted. *)
Definition scheduleTransmitIfPossible (now : Z) (p : Packet) (len : Z)
    (opm : OutboundPacketManager) (tx : CircularBuffer)
  : bool * OutboundPacketManager * CircularBuffer :=
  match firstFree opm with
  | None => (false, opm, tx)
  | Some i =>
      let '(ok, tx') := push 0 p len tx in
      if ok then
        if isAckRequired (header p)
        then (true, <[i := Some (mkPendingSlot p len now now 1)]> opm, tx')
        else (true, opm, tx')
      else (false, opm, tx)
  end.

Definition ackMatches (ack : Packet) (s : option PendingSlot) : bool :=
  match s with
  | None => false
  | Some ps =>
      (id (header (slot_packet ps)) =? id (header ack))
      && (destAddr (header (slot_packet ps)) =? sourceAddr (header ack))
  end.

(** Modelled from the spec: [processAck], section 4.3, frees the pending
    slot that the ACK answers; an ACK that answers none changes nothing. *)
Fixpoint processAck (ack : Packet) (opm : OutboundPacketManager)
  : OutboundPacketManager :=
  match opm with
  | [] => []
  | s :: rest =>
      if ackMatches ack s then None :: rest else s :: processAck ack rest
  end.

(** Modelled from the spec: [getPendingCount], section 4.3. *)
Definition getPendingCount (opm : OutboundPacketManager) : nat :=
  length (filter (fun s => isFree s = false) opm).

(** ** Duplicate reports *)

Record PacketReport : Type := mkPacketReport {
  node : nodeaddr_t;
  report_id : Z;
  stamp : Z
}.

(** Modelled from the spec: [PacketReport::isDuplicate] of
    [MessageProcessor.h] is absent.  A report matches a packet with the same
    (originalSourceAddr, id) as long as it is not older than the window. *)
Definition isDuplicate {D : Decls} (r : PacketReport) (p : Packet) (now : Z) : bool :=
  (node r =? originalSourceAddr (header p))
  && (report_id r =? id (header p))
  && (wrap32 (now - stamp r) <=? dedupWindowMs).

(** ** ACK construction *)

(** Modelled from the spec: [Header::setupAckFor] of [packets.h] is absent.
    Section 3: an ACK has the ACK bit set, the ACK-required bit clear, the
    id of the request, the request's sourceAddr as destAddr and the node's
    own address as sourceAddr.  The fields the document leaves open are
    filled as for a hop-local reply of this node. *)
Definition setupAckFor {D : Decls} (rx : Header) (cfg : Configuration) : Header :=
  mkHeader PACKET_VERSION (type rx) true false (id rx)
    (getAddr cfg) (sourceAddr rx) (getAddr cfg) (sourceAddr rx)
    (getCall cfg) (getCall cfg).

(** ** Logger *)

(** What the [Stream] has received, call by call. *)
Inductive LogItem : Type :=
  | LStr (s : string)
  | LNum (n : Z)
  | LText (chars : list Z)
  | LEndl.

(** The double quote of the JSON lines. *)
Definition q : string := String (Ascii.ascii_of_nat 34) EmptyString.

Definition msg_bad_message : string := "ERR: Bad message".
Definition msg_no_route : string := "ERR: No route".
Definition msg_no_auth : string := "ERR: Unauthorized".

(** ** State of the message processor *)

(** The members of [MessageProcessor], what its references point at, and the
    global [logger].  [_clock] is the value [Clock::time()] returns for the
    duration of one call. *)
Record World : Type := mkWorld {
  _clock : Z;
  _rxBuffer : CircularBuffer;
  _txBuffer : CircularBuffer;
  _routingTable : RoutingTable;
  _instrumentation : Instrumentation;
  _config : Configuration;
  _opm : OutboundPacketManager;
  _idCounter : Z;
  _startTime : Z;
  _rxPacketCounter : Z;
  _badRxPacketCounter : Z;
  _badRouteCounter : Z;
  _lastRxTime : Z;
  _packetReport : list PacketReport;
  _packetReportPtr : nat;
  logger : list LogItem
}.

Definition set_clock (v : Z) (w : World) : World :=
  mkWorld v (_rxBuffer w) (_txBuffer w) (_routingTable w) (_instrumentation w)
    (_config w) (_opm w) (_idCounter w) (_startTime w) (_rxPacketCounter w)
    (_badRxPacketCounter w) (_badRouteCounter w) (_lastRxTime w)
    (_packetReport w) (_packetReportPtr w) (logger w).

Definition set_rxBuffer (v : CircularBuffer) (w : World) : World :=
  mkWorld (_clock w) v (_txBuffer w) (_routingTable w) (_instrumentation w)
    (_config w) (_opm w) (_idCounter w) (_startTime w) (_rxPacketCounter w)
    (_badRxPacketCounter w) (_badRouteCounter w) (_lastRxTime w)
    (_packetReport w) (_packetReportPtr w) (logger w).

Definition set_opm (o : OutboundPacketManager) (tx : CircularBuffer) (w : World)
  : World :=
  mkWorld (_clock w) (_rxBuffer w) tx (_routingTable w) (_instrumentation w)
    (_config w) o (_idCounter w) (_startTime w) (_rxPacketCounter w)
    (_badRxPacketCounter w) (_badRouteCounter w) (_lastRxTime w)
    (_packetReport w) (_packetReportPtr w) (logger w).

Definition set_routingTable (v : RoutingTable) (w : World) : World :=
  mkWorld (_clock w) (_rxBuffer w) (_txBuffer w) v (_instrumentation w)
    (_config w) (_opm w) (_idCounter w) (_startTime w) (_rxPacketCounter w)
    (_badRxPacketCounter w) (_badRouteCounter w) (_lastRxTime w)
    (_packetReport w) (_packetReportPtr w) (logger w).

Definition set_instrumentation (v : Instrumentation) (w : World) : World :=
  mkWorld (_clock w) (_rxBuffer w) (_txBuffer w) (_routingTable w) v
    (_config w) (_opm w) (_idCounter w) (_startTime w) (_rxPacketCounter w)
    (_badRxPacketCounter w) (_badRouteCounter w) (_lastRxTime w)
    (_packetReport w) (_packetReportPtr w) (logger w).

Definition set_idCounter (v : Z) (w : World) : World :=
  mkWorld (_clock w) (_rxBuffer w) (_txBuffer w) (_routingTable w)
    (_instrumentation w) (_config w) (_opm w) v (_startTime w)
    (_rxPacketCounter w) (_badRxPacketCounter w) (_badRouteCounter w)
    (_lastRxTime w) (_packetReport w) (_packetReportPtr w) (logger w).

Definition set_rxPacketCounter (v : Z) (w : World) : World :=
  mkWorld (_clock w) (_rxBuffer w) (_txBuffer w) (_routingTable w)
    (_instrumentation w) (_config w) (_opm w) (_idCounter w) (_startTime w)
    v (_badRxPacketCounter w) (_badRouteCounter w)
    (_lastRxTime w) (_packetReport w) (_packetReportPtr w) (logger w).

Definition set_badRxPacketCounter (v : Z) (w : World) : World :=
  mkWorld (_clock w) (_rxBuffer w) (_txBuffer w) (_routingTable w)
    (_instrumentation w) (_config w) (_opm w) (_idCounter w) (_startTime w)
    (_rxPacketCounter w) v (_badRouteCounter w)
    (_lastRxTime w) (_packetReport w) (_packetReportPtr w) (logger w).

Definition set_badRouteCounter (v : Z) (w : World) : World :=
  mkWorld (_clock w) (_rxBuffer w) (_txBuffer w) (_routingTable w)
    (_instrumentation w) (_config w) (_opm w) (_idCounter w) (_startTime w)
    (_rxPacketCounter w) (_badRxPacketCounter w) v
    (_lastRxTime w) (_packetReport w) (_packetReportPtr w) (logger w).

Definition set_lastRxTime (v : Z) (w : World) : World :=
  mkWorld (_clock w) (_rxBuffer w) (_txBuffer w) (_routingTable w)
    (_instrumentation w) (_config w) (_opm w) (_idCounter w) (_startTime w)
    (_rxPacketCounter w) (_badRxPacketCounter w) (_badRouteCounter w)
    v (_packetReport w) (_packetReportPtr w) (logger w).

Definition set_packetReport (r : list PacketReport) (ptr : nat) (w : World)
  : World :=
  mkWorld (_clock w) (_rxBuffer w) (_txBuffer w) (_routingTable w)
    (_instrumentation w) (_config w) (_opm w) (_idCounter w) (_startTime w)
    (_rxPacketCounter w) (_badRxPacketCounter w) (_badRouteCounter w)
    (_lastRxTime w) r ptr (logger w).

Definition set_logger (v : list LogItem) (w : World) : World :=
  mkWorld (_clock w) (_rxBuffer w) (_txBuffer w) (_routingTable w)
    (_instrumentation w) (_config w) (_opm w) (_idCounter w) (_startTime w)
    (_rxPacketCounter w) (_badRxPacketCounter w) (_badRouteCounter w)
    (_lastRxTime w) (_packetReport w) (_packetReportPtr w) v.

(** ** The monad of the processor *)

(** A computation reads and updates the world; [None] is an access outside
    an array, after which C++ promises nothing. *)
Definition M (A : Type) : Type := World -> option (A * World).

#[global] Instance M_ret : MRet M := fun A a w => Some (a, w).
#[global] Instance M_bind : MBind M := fun A B f m w =>
  match m w with
  | Some (a, w') => f a w'
  | None => None
  end.

Definition gets {A : Type} (f : World -> A) : M A := fun w => Some (f w, w).
Definition modify (f : World -> World) : M unit := fun w => Some (tt, f w).
Definition outOfBounds {A : Type} : M A := fun _ => None.
Definition skip : M unit := mret tt.

(** [logger.print] and [logger.println] in their overloads. *)
Definition emit (items : list LogItem) : M unit :=
  modify (fun w => set_logger (logger w ++ items) w).

Definition print (s : string) : M unit := emit [LStr s].
Definition printNum (n : Z) : M unit := emit [LNum n].
Definition println (s : string) : M unit := emit [LStr s; LEndl].
Definition printlnNum (n : Z) : M unit := emit [LNum n; LEndl].
Definition printlnEmpty : M unit := emit [LEndl].
Definition printTo (c : CallSign) : M unit := emit [LStr c].

(** The characters [logger.print] sends for a character buffer: those
    before the first NUL. *)
Fixpoint cstring (bytes : list Z) : list Z :=
  match bytes with
  | [] => []
  | b :: rest => if b =? 0 then [] else b :: cstring rest
  end.

Definition printBuffer (bytes : list Z) : M unit := emit [LText (cstring bytes)].
Definition printlnBuffer (bytes : list Z) : M unit :=
  emit [LText (cstring bytes); LEndl].

(** The local [char scratch[128]] of the TEXT handler: [memcpy] of
    [textLen] bytes, then [scratch[textLen] = 0].  [None] when one of the
    two writes leaves the array. *)
Definition scratchSize : Z := 128.

Definition fillScratch (bytes : list Z) (textLen : Z) : option (list Z) :=
  if textLen <=? scratchSize then
    if textLen <? scratchSize
    then Some (take (Z.to_nat textLen) bytes ++ [0])
    else None
  else None.

Section MessageProcessor.

Context {D : Decls}.

(** [return _idCounter++;] *)
Definition getUniqueId : M Z := fun w =>
  Some (_idCounter w, set_idCounter (wrapIdCounter (_idCounter w + 1)) w).

Definition transmitIfPossible (packet : Packet) (packetLen : Z) : M bool :=
  fun w =>
    if getDestAddr (header packet) =? getAddr (_config w) then
      let fakeRssi := 0 in
      let '(ok, rx) := push fakeRssi packet packetLen (_rxBuffer w) in
      Some (ok, set_rxBuffer rx w)
    else
      let '(ok, opm, tx) :=
        scheduleTransmitIfPossible (_clock w) packet packetLen
          (_opm w) (_txBuffer w) in
      Some (ok, set_opm opm tx w).

Definition log_packet (packet : Packet) (rssi : Z) : M unit :=
  let h := header packet in
  print "INF: Got type: " ;;
  printNum (typeByte h) ;;
  print ", id: " ;;
  printNum (id h) ;;
  print ", from: " ;;
  printNum (sourceAddr h) ;;
  print ", fromCall: " ;;
  printTo (getSourceCall h) ;;
  print ", to: " ;;
  printNum (destAddr h) ;;
  print ", originalSource: " ;;
  printNum (originalSourceAddr h) ;;
  print ", originalSourceCall: " ;;
  printTo (getOriginalSourceCall h) ;;
  print ", finalDest: " ;;
  printNum (finalDestAddr h) ;;
  print ", RSSI: " ;;
  printNum rssi ;;
  printlnEmpty.

(** The three diagnostic counters are 16 bits wide, as their getters
    return them. *)
Definition resetCounters : M unit :=
  modify (set_rxPacketCounter 0) ;;
  modify (set_badRxPacketCounter 0) ;;
  modify (set_badRouteCounter 0).

Definition bumpRxPacketCounter : M unit :=
  modify (fun w => set_rxPacketCounter (wrap16 (_rxPacketCounter w + 1)) w).
Definition bumpBadRxPacketCounter : M unit :=
  modify (fun w => set_badRxPacketCounter (wrap16 (_badRxPacketCounter w + 1)) w).
Definition bumpBadRouteCounter : M unit :=
  modify (fun w => set_badRouteCounter (wrap16 (_badRouteCounter w + 1)) w).

Definition when (b : bool) (m : M unit) : M unit := if b then m else skip.

(** Lines 199-229 of [_process]: a packet whose final destination is
    another node. *)
Definition _process_forward (packet : Packet) (packetLen : Z) : M unit :=
  rt ← gets _routingTable;
  cfg ← gets _config;
  let nh := nextHop rt (getFinalDestAddr (header packet)) in
  if negb (nh =? NO_ROUTE) then
    uid ← getUniqueId;
    let outPacket :=
      withHeader (setSourceAddr (getAddr cfg))
        (withHeader (setDestAddr nh)
          (withHeader (setId uid) packet)) in
    good ← transmitIfPossible outPacket packetLen;
    if negb good then println "ERR: Full, no forward"
    else
      when (0 <? getLogLevel cfg)
        (print "INF: Forward to " ;; printNum nh ;; printlnEmpty)
  else
    bumpBadRouteCounter ;;
    println msg_no_route.

(** The RESET / RESET_COUNTERS handler, lines 300-320. *)
Definition handleReset (packet : Packet) (packetLen : Z) : M unit :=
  cfg ← gets _config;
  if packetLen <? sizeofHeader + sizeofResetReqPayload then
    println msg_bad_message
  else
    let payload := readResetReq (payload packet) in
    if negb (checkPasscode cfg (reset_passcode payload)) then
      println msg_no_auth
    else if bool_decide (getType (header packet) = TYPE_RESET) then
      modify (fun w => set_instrumentation (restart (_instrumentation w)) w)
    else if bool_decide (getType (header packet) = TYPE_RESET_COUNTERS) then
      println "INF: Reset counters" ;;
      resetCounters
    else skip.

(** The second TYPE_RESET arm of the chain, lines 370-373. *)
Definition secondReset : M unit :=
  println "INF: Resetting" ;;
  modify (fun w => set_instrumentation (restart (_instrumentation w)) w).

(** Lines 233-489 of [_process]: a packet for this node, dispatched on its
    type.  The chain of [else if] is kept in the order of the source; the
    body of its second TYPE_RESET arm is the argument [arm]. *)
Definition _process_local_with (arm : M unit) (rssi : Z) (packet : Packet)
    (packetLen : Z) : M unit :=
  let h := header packet in
  rt ← gets _routingTable;
  cfg ← gets _config;
  let firstHop := nextHop rt (getOriginalSourceAddr h) in
  if isResponseRequired h && (firstHop =? NO_ROUTE) then
    bumpBadRouteCounter ;;
    print "ERR: No route to " ;;
    printNum (getOriginalSourceAddr h) ;;
    printlnEmpty
  else if bool_decide (getType h = TYPE_PING_REQ) then
    uid ← getUniqueId;
    let resp := mkPacket (setupResponseFor h cfg TYPE_PING_RESP uid firstHop) [] in
    good ← transmitIfPossible resp sizeofHeader;
    when (negb good) (println "ERR: Full, no resp")
  else if bool_decide (getType h = TYPE_GETSED_REQ) then
    uid ← getUniqueId;
    now ← gets _clock;
    ins ← gets _instrumentation;
    w ← gets (fun w => w);
    let respPayload :=
      mkSadResp (getSoftwareVersion ins) (getBatteryVoltage ins)
        (getPanelVoltage ins) (wrap32 (now - _startTime w) / 1000) now
        (getBootCount cfg) (getSleepCount cfg) rssi
        (getTemperature ins) (getHumidity ins)
        (getDeviceClass ins) (getDeviceRevision ins)
        (_rxPacketCounter w) (_badRxPacketCounter w) (_badRouteCounter w) in
    let resp :=
      mkPacket (setupResponseFor h cfg TYPE_GETSED_RESP uid firstHop)
        (writeSadResp respPayload) in
    good ← transmitIfPossible resp (sizeofHeader + sizeofSadRespPayload);
    when (negb good) (println "ERR: Full, no resp")
  else if bool_decide (getType h = TYPE_RESET)
          || bool_decide (getType h = TYPE_RESET_COUNTERS) then
    handleReset packet packetLen
  else if bool_decide (getType h = TYPE_GETSED_RESP) then
    if packetLen <? sizeofHeader + sizeofSadRespPayload then
      println msg_bad_message
    else
      let respPayload := readSadResp (payload packet) in
      print ("GETSED_RESP: { " +:+ q +:+ "node" +:+ q +:+ ": ") ;;
      printNum (getOriginalSourceAddr h) ;;
      print (", " +:+ q +:+ "version" +:+ q +:+ ": ") ;;
      printNum (sad_version respPayload) ;;
      print (", " +:+ q +:+ "batteryMv" +:+ q +:+ ": ") ;;
      printNum (batteryMv respPayload) ;;
      print (", " +:+ q +:+ "panelMv" +:+ q +:+ ": ") ;;
      printNum (panelMv respPayload) ;;
      print (", " +:+ q +:+ "uptimeSeconds" +:+ q +:+ ": ") ;;
      printNum (uptimeSeconds respPayload) ;;
      print (", " +:+ q +:+ "bootCount" +:+ q +:+ ": ") ;;
      printNum (bootCount respPayload) ;;
      print (", " +:+ q +:+ "sleepCount" +:+ q +:+ ": ") ;;
      printNum (sleepCount respPayload) ;;
      print (", " +:+ q +:+ "rxPacketCount" +:+ q +:+ ": ") ;;
      printNum (sad_rxPacketCount respPayload) ;;
      print (", " +:+ q +:+ "badRxPacketCount" +:+ q +:+ ": ") ;;
      printNum (badRxPacketCount respPayload) ;;
      print (", " +:+ q +:+ "badRouteCount" +:+ q +:+ ": ") ;;
      printNum (badRouteCount respPayload) ;;
      print (", " +:+ q +:+ "lastHopRssi" +:+ q +:+ ": ") ;;
      printNum (lastHopRssi respPayload) ;;
      println "}"
  else if bool_decide (getType h = TYPE_PING_RESP) then
    print ("PING_RESP: { " +:+ q +:+ "node" +:+ q +:+ ": ") ;;
    printNum (getOriginalSourceAddr h) ;;
    print (", " +:+ q +:+ "call" +:+ q +:+ ": " +:+ q) ;;
    printTo (getOriginalSourceCall h) ;;
    print (q +:+ " }") ;;
    printlnEmpty
  else if bool_decide (getType h = TYPE_RESET) then
    arm
  else if bool_decide (getType h = TYPE_TEXT) then
    let textLen := packetLen - sizeofHeader in
    match fillScratch (payload packet) textLen with
    | None => outOfBounds
    | Some scratch =>
        if getCommandMode cfg =? 1 then
          print ("TEXT: { " +:+ q +:+ "call" +:+ q +:+ ": " +:+ q) ;;
          printTo (getOriginalSourceCall h) ;;
          print (q +:+ ", " +:+ q +:+ "node" +:+ q +:+ ": ") ;;
          printNum (getOriginalSourceAddr h) ;;
          print (q +:+ ", " +:+ q +:+ "text" +:+ q +:+ ": " +:+ q) ;;
          printBuffer scratch ;;
          println (q +:+ " } ")
        else
          print "MSG: [" ;;
          printTo (getOriginalSourceCall h) ;;
          print "," ;;
          printNum (getOriginalSourceAddr h) ;;
          print "] " ;;
          printlnBuffer scratch
    end
  else if bool_decide (getType h = TYPE_SETROUTE) then
    if packetLen <? sizeofHeader + sizeofSetRouteReqPayload then
      println msg_bad_message
    else
      let payload := readSetRouteReq (payload packet) in
      if negb (checkPasscode cfg (passcode payload)) then
        println msg_no_auth
      else
        match setRoute (setroute_targetAddr payload)
                (setroute_nextHopAddr payload) rt with
        | None => outOfBounds
        | Some table =>
            modify (set_routingTable table) ;;
            print "INF: Set route " ;;
            printNum (setroute_targetAddr payload) ;;
            print "->" ;;
            printNum (setroute_nextHopAddr payload) ;;
            printlnEmpty
        end
  else if bool_decide (getType h = TYPE_GETROUTE_REQ) then
    if packetLen <? sizeofHeader + sizeofGetRouteReqPayload then
      println msg_bad_message
    else
      let payload := readGetRouteReq (payload packet) in
      let nh := nextHop rt (getroute_targetAddr payload) in
      uid ← getUniqueId;
      let respPayload := mkGetRouteResp (getroute_targetAddr payload) nh 0 0 in
      let resp :=
        mkPacket (setupResponseFor h cfg TYPE_GETROUTE_RESP uid firstHop)
          (writeGetRouteResp respPayload) in
      good ← transmitIfPossible resp (sizeofHeader + sizeofGetRouteRespPayload);
      when (negb good) (println "ERR: Full, no resp")
  else if bool_decide (getType h = TYPE_GETROUTE_RESP) then
    if packetLen <? sizeofHeader + sizeofGetRouteRespPayload then
      println msg_bad_message
    else
      let payload := readGetRouteResp (payload packet) in
      print "GETROUTE_RESP: { " ;;
      print (q +:+ "origSourceAddr" +:+ q +:+ ":") ;;
      printNum (getOriginalSourceAddr h) ;;
      print (", " +:+ q +:+ "targetAddr" +:+ q +:+ ":") ;;
      printNum (targetAddr payload) ;;
      print (", " +:+ q +:+ "nextHopAddr" +:+ q +:+ ":") ;;
      printNum (nextHopAddr payload) ;;
      println " }"
  else
    println "ERR: Unknown message".

(** Lines 171-178: the ACK for a packet that asks for one. *)
Definition acknowledge (packet : Packet) : M unit :=
  cfg ← gets _config;
  when (isAckRequired (header packet))
    (let ack := mkPacket (setupAckFor (header packet) cfg) [] in
     good ← transmitIfPossible ack sizeofHeader;
     when (negb good) (println "ERR: Full, no ACK")).

(** Lines 193-196: the report written at [_packetReportPtr]. *)
Definition recordReport (packet : Packet) (w : World) : World :=
  set_packetReport
    (<[_packetReportPtr w :=
         mkPacketReport (originalSourceAddr (header packet))
           (id (header packet)) (_clock w)]> (_packetReport w))
    ((_packetReportPtr w + 1) mod _packetReportSlots)%nat
    w.

(** The loop of lines 182-190 over the [_packetReportSlots] reports. *)
Definition seenRecently (packet : Packet) (w : World) : bool :=
  existsb (fun r => isDuplicate r packet (_clock w))
    (take _packetReportSlots (_packetReport w)).

(** Lines 180-490: duplicate check, report, then forward or local
    handling. *)
Definition _process_checked (arm : M unit) (rssi : Z) (packet : Packet)
    (packetLen : Z) : M unit :=
  cfg ← gets _config;
  dup ← gets (seenRecently packet);
  if (dup : bool) then
    when (0 <? getLogLevel cfg)
      (print "INF: Ignored duplicate from " ;;
       printlnNum (originalSourceAddr (header packet)))
  else
    modify (recordReport packet) ;;
    if negb (getFinalDestAddr (header packet) =? getAddr cfg)
    then _process_forward packet packetLen
    else _process_local_with arm rssi packet packetLen.

Definition _process_with (arm : M unit) (rssi : Z) (packet : Packet)
    (packetLen : Z) : M unit :=
  let h := header packet in
  if packetLen <? sizeofHeader then
    bumpBadRxPacketCounter ;;
    println msg_bad_message
  else if negb (getPacketVersion h =? PACKET_VERSION) then
    bumpBadRxPacketCounter ;;
    println msg_bad_message
  else
    cfg ← gets _config;
    if negb (getDestAddr h =? BROADCAST_ADDR)
       && negb (getDestAddr h =? getAddr cfg) then
      when (0 <? getLogLevel cfg)
        (print "INF: Ignored packet for " ;;
         printlnNum (getDestAddr h))
    else
      bumpRxPacketCounter ;;
      modify (fun w => set_lastRxTime (_clock w) w) ;;
      when (0 <? getLogLevel cfg) (log_packet packet rssi) ;;
      if isAck h then
        modify (fun w => set_opm (processAck packet (_opm w)) (_txBuffer w) w)
      else
        acknowledge packet ;;
        _process_checked arm rssi packet packetLen.

(** [MessageProcessor::_process]. *)
Definition _process (rssi : Z) (packet : Packet) (packetLen : Z) : M unit :=
  _process_with secondReset rssi packet packetLen.

Definition _process_local (rssi : Z) (packet : Packet) (packetLen : Z) : M unit :=
  _process_local_with secondReset rssi packet packetLen.

(** A frame as the radio delivers it: the clock reading at which it is
    processed, the RSSI sidechannel, the packet and its length. *)
Record Frame : Type := mkFrame {
  f_time : Z;
  f_rssi : Z;
  f_packet : Packet;
  f_len : Z
}.

(** [_process] on each frame in turn, the clock standing at the frame's
    time. *)
Fixpoint processFrames (frames : list Frame) (w : World) : option World :=
  match frames with
  | [] => Some w
  | f :: rest =>
      match _process (f_rssi f) (f_packet f) (f_len f) (set_clock (f_time f) w) with
      | Some (_, w') => processFrames rest w'
      | None => None
      end
  end.

(** The packets [_process] passes its three checks: long enough, of this
    protocol version, and for this node or for everyone. *)
Definition accepted (cfg : Configuration) (packet : Packet) (packetLen : Z) : bool :=
  negb (packetLen <? sizeofHeader)
  && (getPacketVersion (header packet) =? PACKET_VERSION)
  && ((getDestAddr (header packet) =? BROADCAST_ADDR)
      || (getDestAddr (header packet) =? getAddr cfg)).

(** The state after lines 152-157: the packet is counted, the time of the
    last reception noted, the packet logged. *)
Definition noteReception (rssi : Z) (packet : Packet) : M unit :=
  cfg ← gets _config;
  bumpRxPacketCounter ;;
  modify (fun w => set_lastRxTime (_clock w) w) ;;
  when (0 <? getLogLevel cfg) (log_packet packet rssi).

(** The world [noteReception] leaves: the reception counter, the reception
    time and the logger have moved. *)
Definition noted (rssi : Z) (p : Packet) (w : World) : World :=
  set_logger
    (logger w ++
       if 0 <? getLogLevel (_config w) then
         [LStr "INF: Got type: "; LNum (typeByte (header p));
          LStr ", id: "; LNum (id (header p));
          LStr ", from: "; LNum (sourceAddr (header p));
          LStr ", fromCall: "; LStr (sourceCall (header p));
          LStr ", to: "; LNum (destAddr (header p));
          LStr ", originalSource: "; LNum (originalSourceAddr (header p));
          LStr ", originalSourceCall: "; LStr (originalSourceCall (header p));
          LStr ", finalDest: "; LNum (finalDestAddr (header p));
          LStr ", RSSI: "; LNum rssi; LEndl]
       else [])
    (set_lastRxTime (_clock w)
       (set_rxPacketCounter (wrap16 (_rxPacketCounter w + 1)) w)).

(** The three handlers behind a passcode, met with a wrong one. *)
Definition wrongPasscode (cfg : Configuration) (p : Packet) (len : Z) : Prop :=
  ((getType (header p) = TYPE_RESET \/ getType (header p) = TYPE_RESET_COUNTERS)
   /\ sizeofHeader + sizeofResetReqPayload <= len
   /\ checkPasscode cfg (reset_passcode (readResetReq (payload p))) = false)
  \/ (getType (header p) = TYPE_SETROUTE
      /\ sizeofHeader + sizeofSetRouteReqPayload <= len
      /\ checkPasscode cfg (passcode (readSetRouteReq (payload p))) = false).

(** The condition under which [_process] gets past the duplicate check of
    lines 182-190 for a frame, that is, reports the packet and enters the
    forwarding or the local block. *)
Definition reachesDispatch (f : Frame) (w : World) : bool :=
  let w' := set_clock (f_time f) w in
  accepted (_config w') (f_packet f) (f_len f)
  && negb (isAck (header (f_packet f)))
  && negb (seenRecently (f_packet f) w').

(** The number of reports that a run of [processFrames] writes to the
    duplicate ring (lines 193-196): one for each frame that gets past the
    duplicate check. *)
Fixpoint reportsWritten (frames : list Frame) (w : World) : nat :=
  match frames with
  | [] => 0
  | f :: rest =>
      match _process (f_rssi f) (f_packet f) (f_len f) (set_clock (f_time f) w) with
      | Some (_, w') =>
          ((if reachesDispatch f w then 1 else 0) + reportsWritten rest w')%nat
      | None => 0%nat
      end
  end.

End MessageProcessor.

(** ** The reference node *)

(** A concrete set of declarations and the node of the unit test (address
    1, call KC1FSZ), on which the statements below are exercised. *)
Module Reference.

Definition le16 (bytes : list Z) (off : nat) : Z :=
  nth off bytes 0 + 256 * nth (S off) bytes 0.

Definition le32 (bytes : list Z) (off : nat) : Z :=
  le16 bytes off + 65536 * le16 bytes (2 + off).

Definition bytes16 (v : Z) : list Z := [v mod 256; (v / 256) mod 256].
Definition bytes32 (v : Z) : list Z := bytes16 (v mod 65536) ++ bytes16 (v / 65536).

Definition typeCode (t : MsgType) : Z :=
  match t with
  | TYPE_PING_REQ => 1
  | TYPE_PING_RESP => 2
  | TYPE_GETSED_REQ => 3
  | TYPE_GETSED_RESP => 4
  | TYPE_RESET => 5
  | TYPE_RESET_COUNTERS => 6
  | TYPE_TEXT => 7
  | TYPE_SETROUTE => 8
  | TYPE_GETROUTE_REQ => 9
  | TYPE_GETROUTE_RESP => 10
  | TYPE_OTHER c => c
  end.

(** Modelled from the spec: the declarations of [packets.h],
    [MessageProcessor.h] and [RoutingTable.h] for the reference hardware.
    The header is 28 bytes by its field list, a packet 256 bytes, multi-byte
    integers little-endian, the duplicate ring 8 slots; a response is owed
    to the three request types that the handler table answers and travels
    to the first hop back towards the origin.  The document does not give
    the version constant, the numeric type codes, the sentinel or the
    window; the values chosen here stand for them. *)
#[local] Instance decls : Decls := {|
  PACKET_VERSION := 2;
  sizeofHeader := 28;
  sizeofPacket := 256;
  sizeofResetReqPayload := 4;
  sizeofSadRespPayload := 34;
  sizeofSetRouteReqPayload := 8;
  sizeofGetRouteReqPayload := 2;
  sizeofGetRouteRespPayload := 8;
  NO_ROUTE := 0;
  _packetReportSlots := 8;
  dedupWindowMs := 30000;
  typeByte := fun h =>
    typeCode (type h) + (if isAck h then 128 else 0)
    + (if isAckRequired h then 64 else 0);
  isResponseRequired := fun h =>
    match type h with
    | TYPE_PING_REQ | TYPE_GETSED_REQ | TYPE_GETROUTE_REQ => true
    | _ => false
    end;
  setupResponseFor := fun rx cfg ty uid firstHop =>
    mkHeader 2 ty false false (wrap16 uid) (getAddr cfg) firstHop
      (getAddr cfg) (originalSourceAddr rx) (getCall cfg) (getCall cfg);
  readResetReq := fun b => mkResetReq (le32 b 0);
  readSetRouteReq := fun b => mkSetRouteReq (le32 b 0) (le16 b 4) (le16 b 6);
  readGetRouteReq := fun b => mkGetRouteReq (le16 b 0);
  readGetRouteResp := fun b =>
    mkGetRouteResp (le16 b 0) (le16 b 2) (le16 b 4) (le16 b 6);
  readSadResp := fun b =>
    mkSadResp (le16 b 0) (le16 b 2) (le16 b 4) (le32 b 6) (le32 b 10)
      (le16 b 14) (le16 b 16) (le16 b 18) (le16 b 20) (le16 b 22)
      (le16 b 24) (le16 b 26) (le16 b 28) (le16 b 30) (le16 b 32);
  writeSadResp := fun r =>
    bytes16 (sad_version r) ++ bytes16 (batteryMv r) ++ bytes16 (panelMv r)
    ++ bytes32 (uptimeSeconds r) ++ bytes32 (time r)
    ++ bytes16 (bootCount r) ++ bytes16 (sleepCount r)
    ++ bytes16 (lastHopRssi r) ++ bytes16 (temp r) ++ bytes16 (humidity r)
    ++ bytes16 (deviceClass r) ++ bytes16 (deviceRevision r)
    ++ bytes16 (sad_rxPacketCount r) ++ bytes16 (badRxPacketCount r)
    ++ bytes16 (badRouteCount r);
  writeGetRouteResp := fun r =>
    bytes16 (targetAddr r) ++ bytes16 (nextHopAddr r)
    ++ bytes16 (txPacketCount r) ++ bytes16 (rxPacketCount r)
|}.

(** [TestConfiguration(1, "KC1FSZ")]; the passcode is a value of the
    test's choosing. *)
Definition testConfig : Configuration :=
  mkConfiguration 1 "KC1FSZ" 0 0 1 1 (fun code => code =? 1234).

Definition testInstrumentation : Instrumentation :=
  mkInstrumentation 1 3800 4000 23 87 2 1 0.

Definition emptyBuffer (sideLen : Z) : CircularBuffer :=
  mkCircularBuffer 4096 sideLen 2 [].

Definition testRoutingTable : RoutingTable :=
  <[7%nat := 3]> (<[3%nat := 3]> clearRoutes).

(** The processor as its constructor leaves it, with the two routes of the
    unit test and the clock at ten seconds. *)
Definition node1 : World :=
  mkWorld 10000 (emptyBuffer 2) (emptyBuffer 0) testRoutingTable
    testInstrumentation testConfig (replicate 8 None)
    1 10000 0 0 0 10000
    (replicate 8 (mkPacketReport 0 0 0)) 0 [].

Definition testHeader (ty : MsgType) (ackReq : bool) (pid src dst osrc fdst : Z)
  : Header :=
  mkHeader 2 ty false ackReq pid src dst osrc fdst "W1AW" "W1AW".

(** Fills every slot of the outbound manager with a pending packet. *)
Definition busySlot : option PendingSlot :=
  Some (mkPendingSlot (mkPacket (testHeader TYPE_TEXT true 900 1 3 1 7) [])
          28 10000 10000 1).

(** A frame of another protocol version, addressed to node 5. *)
Definition strayPacket : Packet :=
  mkPacket (mkHeader 3 TYPE_PING_REQ false false 77 2 5 2 5 "W1AW" "W1AW") [].

(** A frame of this protocol version, addressed to node 5. *)
Definition overheardPacket : Packet :=
  mkPacket (testHeader TYPE_PING_REQ true 77 2 5 2 5) [].

(** A header-only packet of the given type from node 3 for node 1. *)
Definition bareRequest (ty : MsgType) : Packet :=
  mkPacket (testHeader ty false 500 3 1 3 1) [].

(** The six types whose handlers ask for a payload. *)
Definition payloadTypes : list MsgType :=
  [TYPE_RESET; TYPE_RESET_COUNTERS; TYPE_GETSED_RESP; TYPE_SETROUTE;
   TYPE_GETROUTE_REQ; TYPE_GETROUTE_RESP].

(** A TEXT packet from node 3 for node 1 carrying [n] letters A. *)
Definition textPacket (n : nat) : Packet :=
  mkPacket (testHeader TYPE_TEXT false 501 3 1 3 1) (replicate n 65).

(** A PING_RESP from node 2 for node 1 that asks for an ACK. *)
Definition pong : Packet :=
  mkPacket (testHeader TYPE_PING_RESP true 100 2 1 2 1) [].

(** A TEXT packet from node 2 that node 1 is to pass on towards node 7. *)
Definition relayed : Packet :=
  mkPacket (testHeader TYPE_TEXT true 100 2 1 2 7) [72; 105].

(** A RESET from node 3 for node 1 carrying the passcode [code]. *)
Definition resetRequest (code : Z) : Packet :=
  mkPacket (testHeader TYPE_RESET false 502 3 1 3 1) (bytes32 code).

(** A TEXT packet from node 2 for node 7 that asks for no ACK, as a frame
    at time [t]. *)
Definition echo (t : Z) : Frame :=
  mkFrame t 0 (mkPacket (testHeader TYPE_TEXT false 100 2 1 2 7) [72; 105]) 30.

(** A PING_RESP from node 2 for node 1 with id [200 + i], as a frame. *)
Definition ping (i : Z) : Frame :=
  mkFrame (10000 + i) 0
    (mkPacket (testHeader TYPE_PING_RESP false (200 + i) 2 1 2 1) []) 28.

Definition eightPings : list Frame := map ping [1; 2; 3; 4; 5; 6; 7; 8].

(** Node 1 with two frames waiting in its RX buffer: one for node 5 and a
    PING_RESP for itself. *)
Definition node1_inbox : World :=
  set_rxBuffer
    (mkCircularBuffer 4096 2 2
       [mkBufferRecord (-70) overheardPacket 28; mkBufferRecord (-80) pong 28])
    node1.

(** An outbound manager whose pump does nothing. *)
Definition idlePump (now : Z) (o : OutboundPacketManager) (tx : CircularBuffer)
  : OutboundPacketManager * CircularBuffer := (o, tx).

(** The ACK of node 3 for the packet that waits in the slots of
    [node1_busy]. *)
Definition ackFrom3 : Packet :=
  mkPacket (mkHeader 2 TYPE_TEXT true false 900 3 1 3 1 "W1AW" "W1AW") [].

(** That ACK as a frame, and eight of them: frames that write no report. *)
Definition ackFrame (i : Z) : Frame := mkFrame (10000 + i) 0 ackFrom3 28.

Definition eightAcks : list Frame := map ackFrame [1; 2; 3; 4; 5; 6; 7; 8].

(** Requests from node 3, to which node 1 has a route, and a ping from node
    9, to which it has none. *)
Definition request (ty : MsgType) (bytes : list Z) : Packet :=
  mkPacket (testHeader ty false 600 3 1 3 1) bytes.

Definition pingFrom9 : Packet :=
  mkPacket (testHeader TYPE_PING_REQ false 601 2 1 9 1) [].


Definition node1_busy : World :=
  set_opm (replicate 8 busySlot) (_txBuffer node1) node1.

End Reference.

(** What a dropped frame must leave alone: the counters, the time of the
    last reception, the duplicate ring, the routing table, the slots of the
    outbound manager, and both buffers (no ACK, no forward, no response). *)
Definition untouched (w w' : World) : Prop :=
  _rxPacketCounter w' = _rxPacketCounter w
  /\ _badRxPacketCounter w' = _badRxPacketCounter w
  /\ _badRouteCounter w' = _badRouteCounter w
  /\ _lastRxTime w' = _lastRxTime w
  /\ _packetReport w' = _packetReport w
  /\ _packetReportPtr w' = _packetReportPtr w
  /\ _routingTable w' = _routingTable w
  /\ _opm w' = _opm w
  /\ _txBuffer w' = _txBuffer w
  /\ _rxBuffer w' = _rxBuffer w.

(** The packets waiting in the node's queues: the TX buffer, the RX buffer
    (loopback) and the pending slots of the outbound manager. *)
Definition queuedPackets (w : World) : list Packet :=
  map rec_packet (cb_records (_txBuffer w))
  ++ map rec_packet (cb_records (_rxBuffer w))
  ++ omap (fmap slot_packet) (_opm w).

(** The records of the two buffers, oldest first. *)
Definition txRecords (w : World) : list BufferRecord := cb_records (_txBuffer w).
Definition rxRecords (w : World) : list BufferRecord := cb_records (_rxBuffer w).

(** The FIFO that [transmitIfPossible] chooses for a packet: the RX buffer
    for one addressed to the node itself, the TX buffer otherwise. *)
Definition queueFor (cfg : Configuration) (p : Packet) (w : World)
  : list BufferRecord :=
  if getDestAddr (header p) =? getAddr cfg then rxRecords w else txRecords w.

(** The duplicate ring with its write pointer. *)
Definition ringView (w : World) : list PacketReport * nat :=
  (_packetReport w, _packetReportPtr w).

(** ** Frames *)

(** A computation that leaves a view [f] of the world as it found it. *)
Definition preserves {X A : Type} (f : World -> X) (m : M A) : Prop :=
  forall w a w', m w = Some (a, w') -> f w' = f w.

(** A computation that at most appends to a list-valued view [f]. *)
Definition appends {B A : Type} (f : World -> list B) (m : M A) : Prop :=
  forall w a w', m w = Some (a, w') -> exists l, f w' = f w ++ l.

(** Views that do not look at the logger, the identifier counter, or the
    queues. *)
Definition ignores_logger {X : Type} (f : World -> X) : Prop :=
  forall v w, f (set_logger v w) = f w.
Definition ignores_idCounter {X : Type} (f : World -> X) : Prop :=
  forall v w, f (set_idCounter v w) = f w.
Definition ignores_queues {X : Type} (f : World -> X) : Prop :=
  (forall v w, f (set_rxBuffer v w) = f w)
  /\ (forall o t w, f (set_opm o t w) = f w).

(** The condition under which [_process] hands a packet to its local block
    (line 233): accepted, no ACK, not seen recently, and for this node. *)
Definition handledLocally {D : Decls} (p : Packet) (len : Z) (w : World) : bool :=
  accepted (_config w) p len
  && negb (isAck (header p))
  && negb (seenRecently p w)
  && (getFinalDestAddr (header p) =? getAddr (_config w)).

(** A return route is at hand if one is owed (lines 242-243). *)
Definition routeBackMissing {D : Decls} (p : Packet) (w : World) : bool :=
  isResponseRequired (header p)
  && (nextHop (_routingTable w) (getOriginalSourceAddr (header p)) =? NO_ROUTE).

(** The time of the last reception next to the clock. *)
Definition timesView (w : World) : Z * Z := (_lastRxTime w, _clock w).

(** ** The pump *)

(** Modelled from the spec: [CircularBuffer::popIfNotEmpty], section 4.1:
    nothing when the buffer is empty, otherwise the oldest record, which
    leaves the buffer. *)
Definition popIfNotEmpty (b : CircularBuffer)
  : option (BufferRecord * CircularBuffer) :=
  match cb_records b with
  | [] => None
  | r :: rest =>
      Some (r, mkCircularBuffer (cb_capacity b) (cb_sideLen b) (cb_prefixLen b) rest)
  end.

(** How a call of [pump] ends: it returns, it has written outside an array,
    or it is still in its loop when the fuel of the model is spent. *)
Inductive Outcome : Type :=
  | Returned (w : World)
  | Faulted
  | Spinning.

Section Pump.

Context {D : Decls}.

(** [OutboundPacketManager::pump] is not under the sources; it is taken as
    it comes: from the clock, the slots and the TX buffer to the slots and
    the TX buffer. *)
Variable opmPump :
  Z -> OutboundPacketManager -> CircularBuffer
  -> OutboundPacketManager * CircularBuffer.

(** The loop of lines 63-73: [_process] on every frame of the RX buffer
    until [popIfNotEmpty] finds it empty. *)
Fixpoint drainRx (fuel : nat) (w : World) : Outcome :=
  match fuel with
  | O => Spinning
  | S fuel' =>
      match popIfNotEmpty (_rxBuffer w) with
      | None => Returned w
      | Some (r, rx) =>
          match _process (rec_side r) (rec_packet r) (rec_len r)
                  (set_rxBuffer rx w) with
          | Some (_, w') => drainRx fuel' w'
          | None => Faulted
          end
      end
  end.

(** [MessageProcessor::pump]. *)
Definition pump (fuel : nat) (w : World) : Outcome :=
  match drainRx fuel w with
  | Returned w' =>
      let '(o, tx) := opmPump (_clock w') (_opm w') (_txBuffer w') in
      Returned (set_opm o tx w')
  | Faulted => Faulted
  | Spinning => Spinning
  end.

End Pump.

(** ** Getters *)

Definition getBadRouteCounter (w : World) : Z := _badRouteCounter w.
Definition getBadRxPacketCounter (w : World) : Z := _badRxPacketCounter w.

(** [(_clock.time() - _lastRxTime) / 1000L] on 32-bit unsigned times. *)
Definition getSecondsSinceLastRx (w : World) : Z :=
  wrap32 (_clock w - _lastRxTime w) / 1000.

(** [TestClock::advanceSeconds] of the unit test: [_time += seconds * 1000]
    on 32-bit unsigned values. *)
Definition advanceSeconds (seconds : Z) (t : Z) : Z :=
  wrap32 (t + wrap32 (seconds * 1000)).

(** The values of [n] calls of [getUniqueId] in a row, and the world they
    leave. *)
Fixpoint uniqueIds (n : nat) (w : World) : list Z * World :=
  match n with
  | O => ([], w)
  | S k =>
      match getUniqueId w with
      | Some (i, w') => let '(l, w'') := uniqueIds k w' in (i :: l, w'')
      | None => ([], w)
      end
  end.

(** ** What a packet sets in motion *)

(** The routing table next to the identifier counter. *)
Definition settingsView (w : World) : RoutingTable * Z :=
  (_routingTable w, _idCounter w).

(** The condition under which [_process] reports a packet and hands it to
    the forwarding or to the local block (lines 126-196): accepted, no
    ACK, not seen recently. *)
Definition dispatched {D : Decls} (p : Packet) (len : Z) (w : World) : bool :=
  accepted (_config w) p len
  && negb (isAck (header p))
  && negb (seenRecently p w).

(** The local block builds an answer (lines 252-261, 264-297, 428-462). *)
Definition answers {D : Decls} (p : Packet) (len : Z) (w : World) : bool :=
  negb (routeBackMissing p w)
  && (bool_decide (getType (header p) = TYPE_PING_REQ)
      || bool_decide (getType (header p) = TYPE_GETSED_REQ)
      || (bool_decide (getType (header p) = TYPE_GETROUTE_REQ)
          && negb (len <? sizeofHeader + sizeofGetRouteReqPayload))).

(** The forwarding block has a next hop for the packet (lines 201-204). *)
Definition relays {D : Decls} (p : Packet) (w : World) : bool :=
  negb (nextHop (_routingTable w) (getFinalDestAddr (header p)) =? NO_ROUTE).

(** [_process] builds a packet of its own for the one it was given: the
    forwarded copy or an answer.  (The ACK is built from the request alone
    and is not counted here.) *)
Definition buildsPacket {D : Decls} (p : Packet) (len : Z) (w : World) : bool :=
  dispatched p len w
  && (if getFinalDestAddr (header p) =? getAddr (_config w)
      then answers p len w
      else relays p w).

(** The types whose handlers only write to the logger: what another node
    answered (lines 323-367, 465-485), a TEXT (lines 376-400), and a type
    the chain does not know (lines 486-488). *)
Definition displayed (t : MsgType) : bool :=
  match t with
  | TYPE_GETSED_RESP | TYPE_PING_RESP | TYPE_TEXT | TYPE_GETROUTE_RESP
  | TYPE_OTHER _ => true
  | _ => false
  end.

(** A computation that, when it returns, has written to the logger and
    done nothing else. *)
Definition logsOnly {A : Type} (m : M A) : Prop :=
  forall w a w', m w = Some (a, w') ->
    exists items, w' = set_logger (logger w ++ items) w.

(** ** A route that leads back to the node *)






(** ** The diagnostic counters *)

(** The three counters that [resetCounters] clears. *)
Definition countersView (w : World) : Z * Z * Z :=
  (_rxPacketCounter w, _badRxPacketCounter w, _badRouteCounter w).

(** A frame that fails the checks of lines 126-137. *)
Definition malformed {D : Decls} (p : Packet) (len : Z) : bool :=
  (len <? sizeofHeader) || negb (getPacketVersion (header p) =? PACKET_VERSION).

(** A dispatched packet for which no route is at hand: none towards its
    final destination (line 225), or none back to its origin although an
    answer is owed (lines 242-249). *)
Definition deadEnd {D : Decls} (p : Packet) (len : Z) (w : World) : bool :=
  dispatched p len w
  && (if getFinalDestAddr (header p) =? getAddr (_config w)
      then routeBackMissing p w
      else negb (relays p w)).

(** The local block reaches [resetCounters] (lines 300-320). *)
Definition resetsCounters {D : Decls} (p : Packet) (len : Z) (w : World) : bool :=
  negb (routeBackMissing p w)
  && bool_decide (getType (header p) = TYPE_RESET_COUNTERS)
  && negb (len <? sizeofHeader + sizeofResetReqPayload)
  && checkPasscode (_config w) (reset_passcode (readResetReq (payload p))).

(** * Properties *)

(** ** Running the monad *)

Lemma bind_Some {A B : Type} (m : M A) (k : A -> M B) (w w1 : World) (a : A) :
  m w = Some (a, w1) -> (m ≫= k) w = k a w1.
Proof. intros E. unfold mbind, M_bind. now rewrite E. Qed.

Lemma bind_inv {A B : Type} (m : M A) (k : A -> M B) (w w' : World) (b : B) :
  (m ≫= k) w = Some (b, w') ->
  exists a w1, m w = Some (a, w1) /\ k a w1 = Some (b, w').
Proof.
  unfold mbind, M_bind. destruct (m w) as [[a w1]|]; [|discriminate].
  intros E. now exists a, w1.
Qed.

Section FrameRules.

Context {X : Type} (f : World -> X).

Lemma preserves_ret {A : Type} (a : A) : preserves f (mret a).
Proof. intros w b w' E. unfold mret, M_ret in E. now inversion E. Qed.

Lemma preserves_skip : preserves f skip.
Proof. apply preserves_ret. Qed.

Lemma preserves_gets {A : Type} (g : World -> A) : preserves f (gets g).
Proof. intros w b w' E. unfold gets in E. now inversion E. Qed.

Lemma preserves_modify (g : World -> World) :
  (forall w, f (g w) = f w) -> preserves f (modify g).
Proof. intros Hg w b w' E. unfold modify in E. inversion E. apply Hg. Qed.

Lemma preserves_outOfBounds {A : Type} : preserves f (@outOfBounds A).
Proof. intros w b w' E. discriminate. Qed.

Lemma preserves_bind {A B : Type} (m : M A) (k : A -> M B) :
  preserves f m -> (forall a, preserves f (k a)) -> preserves f (m ≫= k).
Proof.
  intros Hm Hk w b w' E.
  destruct (bind_inv _ _ _ _ _ E) as (a & w1 & E1 & E2).
  rewrite (Hk _ _ _ _ E2). exact (Hm _ _ _ E1).
Qed.

Lemma preserves_apply {A : Type} (m : M A) (w w' : World) (a : A) :
  preserves f m -> m w = Some (a, w') -> f w' = f w.
Proof. intros Hm E. exact (Hm _ _ _ E). Qed.

Lemma preserves_if {A : Type} (c : bool) (m1 m2 : M A) :
  preserves f m1 -> preserves f m2 -> preserves f (if c then m1 else m2).
Proof. now destruct c. Qed.

Lemma preserves_when (c : bool) (m : M unit) :
  preserves f m -> preserves f (when c m).
Proof. intros Hm. unfold when. apply preserves_if; [exact Hm | apply preserves_skip]. Qed.

Lemma preserves_emit (items : list LogItem) :
  ignores_logger f -> preserves f (emit items).
Proof. intros Hl. apply preserves_modify. intros w. apply Hl. Qed.

Lemma preserves_getUniqueId : ignores_idCounter f -> preserves f getUniqueId.
Proof. intros Hi w a w' E. unfold getUniqueId in E. inversion E. apply Hi. Qed.

Lemma preserves_transmitIfPossible (p : Packet) (len : Z) :
  ignores_queues f -> preserves f (transmitIfPossible p len).
Proof.
  intros [Hrx Hopm] w a w' E. unfold transmitIfPossible in E.
  destruct (getDestAddr (header p) =? getAddr (_config w)).
  - destruct (push 0 p len (_rxBuffer w)) as [ok rx]. inversion E. apply Hrx.
  - destruct (scheduleTransmitIfPossible _ _ _ _ _) as [[ok o] t].
    inversion E. apply Hopm.
Qed.

End FrameRules.

(** The same rules for a view that may grow at its end. *)
Section AppendRules.

Context {B : Type} (f : World -> list B).

Lemma appends_ret {A : Type} (a : A) : appends f (mret a).
Proof.
  intros w b w' E. unfold mret, M_ret in E. inversion E.
  exists []. now rewrite app_nil_r.
Qed.

Lemma appends_gets {A : Type} (g : World -> A) : appends f (gets g).
Proof.
  intros w b w' E. unfold gets in E. inversion E.
  exists []. now rewrite app_nil_r.
Qed.

Lemma appends_modify (g : World -> World) :
  (forall w, f (g w) = f w) -> appends f (modify g).
Proof.
  intros Hg w b w' E. unfold modify in E. inversion E.
  exists []. now rewrite app_nil_r, Hg.
Qed.

Lemma appends_outOfBounds {A : Type} : appends f (@outOfBounds A).
Proof. intros w b w' E. discriminate. Qed.

Lemma appends_bind {A C : Type} (m : M A) (k : A -> M C) :
  appends f m -> (forall a, appends f (k a)) -> appends f (m ≫= k).
Proof.
  intros Hm Hk w b w' E.
  destruct (bind_inv _ _ _ _ _ E) as (a & w1 & E1 & E2).
  destruct (Hm _ _ _ E1) as [l1 H1]. destruct (Hk _ _ _ _ E2) as [l2 H2].
  exists (l1 ++ l2). now rewrite H2, H1, app_assoc.
Qed.

Lemma appends_when (c : bool) (m : M unit) :
  appends f m -> appends f (when c m).
Proof. intros Hm. unfold when. destruct c; [exact Hm | apply appends_ret]. Qed.

Lemma appends_getUniqueId : ignores_idCounter f -> appends f getUniqueId.
Proof.
  intros Hi w a w' E. unfold getUniqueId in E. inversion E.
  exists []. now rewrite app_nil_r, Hi.
Qed.

End AppendRules.

Lemma appends_tx_transmitIfPossible (p : Packet) (len : Z) :
  appends txRecords (transmitIfPossible p len).
Proof.
  intros w a w' E. unfold transmitIfPossible in E. unfold txRecords.
  destruct (getDestAddr (header p) =? getAddr (_config w)).
  - destruct (push 0 p len (_rxBuffer w)) as [ok rx]. inversion E.
    exists []. now rewrite app_nil_r.
  - unfold scheduleTransmitIfPossible in E.
    destruct (firstFree (_opm w)) as [i|].
    2: { inversion E. exists []. now rewrite app_nil_r. }
    unfold push in E.
    destruct (cb_used _ + _ + _ + len <=? _).
    + exists [mkBufferRecord 0 p len].
      destruct (isAckRequired (header p)); inversion E; reflexivity.
    + inversion E. exists []. now rewrite app_nil_r.
Qed.

Lemma appends_rx_transmitIfPossible (p : Packet) (len : Z) :
  appends rxRecords (transmitIfPossible p len).
Proof.
  intros w a w' E. unfold transmitIfPossible in E. unfold rxRecords.
  destruct (getDestAddr (header p) =? getAddr (_config w)).
  - unfold push in E.
    destruct (cb_used _ + _ + _ + len <=? _); inversion E.
    + now exists [mkBufferRecord 0 p len].
    + exists []. now rewrite app_nil_r.
  - destruct (scheduleTransmitIfPossible _ _ _ _ _) as [[ok o] t].
    inversion E. exists []. now rewrite app_nil_r.
Qed.

Ltac view_side :=
  unfold ignores_logger, ignores_idCounter, ignores_queues;
  solve [ intros; reflexivity
        | split; intros; reflexivity ].

Ltac frame_step :=
  lazymatch goal with
  | |- preserves _ (mret _) => apply preserves_ret
  | |- preserves _ skip => apply preserves_skip
  | |- preserves _ (gets _) => apply preserves_gets
  | |- preserves _ outOfBounds => apply preserves_outOfBounds
  | |- preserves _ (emit _) => apply preserves_emit; view_side
  | |- preserves _ getUniqueId => apply preserves_getUniqueId; view_side
  | |- preserves _ (transmitIfPossible _ _) =>
      apply preserves_transmitIfPossible; view_side
  | |- preserves _ (modify _) => apply preserves_modify; view_side
  | |- preserves _ (when _ _) => apply preserves_when
  | |- preserves _ (mbind _ _) => apply preserves_bind; [| intros ?]
  | |- preserves _ (match ?c with _ => _ end) => destruct c
  end.

Ltac frame :=
  unfold print, printNum, println, printlnNum, printlnEmpty, printTo,
    printBuffer, printlnBuffer, resetCounters, bumpRxPacketCounter,
    bumpBadRxPacketCounter, bumpBadRouteCounter;
  cbv beta iota zeta;
  repeat frame_step.

Ltac grow_step :=
  lazymatch goal with
  | |- appends _ (mret _) => apply appends_ret
  | |- appends _ skip => apply appends_ret
  | |- appends _ (gets _) => apply appends_gets
  | |- appends _ outOfBounds => apply appends_outOfBounds
  | |- appends _ (emit _) => apply appends_modify; intros; reflexivity
  | |- appends _ getUniqueId => apply appends_getUniqueId; view_side
  | |- appends txRecords (transmitIfPossible _ _) =>
      apply appends_tx_transmitIfPossible
  | |- appends rxRecords (transmitIfPossible _ _) =>
      apply appends_rx_transmitIfPossible
  | |- appends _ (modify _) => apply appends_modify; intros; reflexivity
  | |- appends _ (when _ _) => apply appends_when
  | |- appends _ (mbind _ _) => apply appends_bind; [| intros ?]
  | |- appends _ (match ?c with _ => _ end) => destruct c
  end.

Ltac grow :=
  unfold print, printNum, println, printlnNum, printlnEmpty, printTo,
    printBuffer, printlnBuffer, resetCounters, bumpRxPacketCounter,
    bumpBadRxPacketCounter, bumpBadRouteCounter;
  cbv beta iota zeta;
  repeat grow_step.

(** ** The identifier counter *)

(** C7.  [getUniqueId] hands out the counter and advances it by one within
    16 bits: two calls in a row return [c] and then [c + 1], except that
    65535 is followed by 0; the value always fits in 16 bits, and nothing
    but the counter changes. *)
Theorem getUniqueId_counts (w : World) :
  0 <= _idCounter w < 65536 ->
  exists w1 w2 next,
    getUniqueId w = Some (_idCounter w, w1)
    /\ getUniqueId w1 = Some (next, w2)
    /\ (_idCounter w < 65535 -> next = _idCounter w + 1)
    /\ (_idCounter w = 65535 -> next = 0)
    /\ 0 <= next < 65536
    /\ w1 = set_idCounter next w.
Proof.
  intros Hrange.
  exists (set_idCounter (wrap16 (_idCounter w + 1)) w).
  eexists. exists (wrap16 (_idCounter w + 1)).
  split; [reflexivity|]. split; [reflexivity|].
  unfold wrap16. repeat split.
  - intros Hlt. apply Z.mod_small. lia.
  - intros ->. reflexivity.
  - apply Z.mod_pos_bound. lia.
  - apply Z.mod_pos_bound. lia.
Qed.

Lemma getUniqueId_counts_witness :
  exists w1 w2 next,
    getUniqueId (set_idCounter 65535 Reference.node1) = Some (65535, w1)
    /\ getUniqueId w1 = Some (next, w2)
    /\ next = 0.
Proof.
  destruct (getUniqueId_counts (set_idCounter 65535 Reference.node1))
    as (w1 & w2 & next & E1 & E2 & _ & Hwrap & _).
  - simpl. lia.
  - exists w1, w2, next. repeat split; [exact E1 | exact E2 | now apply Hwrap].
Defined.

(** ** Resetting the counters *)

(** C10.  [resetCounters] returns with the three diagnostic counters at
    zero and every other part of the state as it was. *)
Theorem resetCounters_frame (w : World) :
  exists w',
    resetCounters w = Some (tt, w')
    /\ _rxPacketCounter w' = 0
    /\ _badRxPacketCounter w' = 0
    /\ _badRouteCounter w' = 0
    /\ _idCounter w' = _idCounter w
    /\ _startTime w' = _startTime w
    /\ _lastRxTime w' = _lastRxTime w
    /\ _packetReport w' = _packetReport w
    /\ _packetReportPtr w' = _packetReportPtr w
    /\ _routingTable w' = _routingTable w
    /\ _opm w' = _opm w
    /\ _txBuffer w' = _txBuffer w
    /\ _rxBuffer w' = _rxBuffer w
    /\ _instrumentation w' = _instrumentation w
    /\ _config w' = _config w
    /\ _clock w' = _clock w
    /\ logger w' = logger w.
Proof.
  eexists. split.
  - unfold resetCounters, modify, mbind, M_bind. reflexivity.
  - cbn. repeat split.
Qed.

(** ** The stages of [_process] *)

Ltac step :=
  unfold mbind, M_bind, mret, M_ret, gets, modify, when, skip,
    bumpBadRxPacketCounter, bumpBadRouteCounter, bumpRxPacketCounter,
    println, print, printNum, printlnNum, printlnEmpty, printTo, emit.

Ltac run :=
  cbv beta iota zeta delta
    [mbind M_bind mret M_ret gets modify when skip outOfBounds
     bumpBadRxPacketCounter bumpBadRouteCounter bumpRxPacketCounter
     println print printNum printlnNum printlnEmpty printTo printBuffer
     printlnBuffer emit log_packet resetCounters
     set_clock set_rxBuffer set_opm set_routingTable set_instrumentation
     set_idCounter set_rxPacketCounter set_badRxPacketCounter
     set_badRouteCounter set_lastRxTime set_packetReport set_logger
     _clock _rxBuffer _txBuffer _routingTable _instrumentation _config _opm
     _idCounter _startTime _rxPacketCounter _badRxPacketCounter
     _badRouteCounter _lastRxTime _packetReport _packetReportPtr logger].

Section Stages.

Context {D : Decls}.

Lemma accepted_inv (cfg : Configuration) (p : Packet) (len : Z) :
  accepted cfg p len = true ->
  (len <? sizeofHeader) = false
  /\ (getPacketVersion (header p) =? PACKET_VERSION) = true
  /\ negb (getDestAddr (header p) =? BROADCAST_ADDR)
     && negb (getDestAddr (header p) =? getAddr cfg) = false.
Proof.
  unfold accepted. intros Hacc.
  apply andb_prop in Hacc as [Hacc Hdest].
  apply andb_prop in Hacc as [Hlen Hver].
  repeat split.
  - now apply negb_true_iff.
  - exact Hver.
  - rewrite <- negb_orb. now rewrite Hdest.
Qed.

(** A frame shorter than a header or of another protocol version is
    counted in [_badRxPacketCounter] and reported. *)
Lemma _process_malformed (arm : M unit) (rssi : Z) (p : Packet) (len : Z) (w : World) :
  len < sizeofHeader \/ getPacketVersion (header p) <> PACKET_VERSION ->
  _process_with arm rssi p len w
  = Some (tt, set_logger (logger w ++ [LStr msg_bad_message; LEndl])
                (set_badRxPacketCounter (wrap16 (_badRxPacketCounter w + 1)) w)).
Proof.
  intros Hbad. unfold _process_with.
  destruct (len <? sizeofHeader) eqn:Elen; [reflexivity|].
  destruct Hbad as [Hlen | Hver].
  - apply Z.ltb_ge in Elen. lia.
  - apply Z.eqb_neq in Hver. rewrite Hver. reflexivity.
Qed.

(** An accepted packet is first noted; an ACK then goes to the outbound
    manager, anything else is acknowledged and checked. *)
Lemma _process_accepted (arm : M unit) (rssi : Z) (p : Packet) (len : Z) (w : World) :
  accepted (_config w) p len = true ->
  _process_with arm rssi p len w
  = (noteReception rssi p ;;
     if isAck (header p)
     then modify (fun w => set_opm (processAck p (_opm w)) (_txBuffer w) w)
     else acknowledge p ;; _process_checked arm rssi p len) w.
Proof.
  intros Hacc. destruct (accepted_inv _ _ _ Hacc) as (Hlen & Hver & Hdest).
  unfold _process_with, noteReception.
  rewrite Hlen, Hver. cbn [negb].
  unfold mbind at 1, M_bind at 1, gets at 1.
  rewrite Hdest.
  reflexivity.
Qed.

Lemma noteReception_eq (rssi : Z) (p : Packet) (w : World) :
  noteReception rssi p w = Some (tt, noted rssi p w).
Proof.
  destruct w. unfold noteReception, noted. run.
  match goal with |- context [0 <? ?l] => destruct (0 <? l) end.
  - repeat rewrite <- app_assoc. reflexivity.
  - rewrite app_nil_r. reflexivity.
Qed.

End Stages.

(** ** Overheard frames *)

Section Overheard.

Context {D : Decls}.

(** C5, as amended.  A frame that is long enough and of this protocol
    version, whose destAddr is neither the broadcast address nor the node's
    own, is dropped: nothing is queued, and no counter, time stamp, report,
    route or slot changes; at a log level above zero one line is written. *)
Theorem overheard_dropped (w : World) (rssi : Z) (p : Packet) (len : Z) :
  sizeofHeader <= len ->
  getPacketVersion (header p) = PACKET_VERSION ->
  getDestAddr (header p) <> BROADCAST_ADDR ->
  getDestAddr (header p) <> getAddr (_config w) ->
  exists w',
    _process rssi p len w = Some (tt, w')
    /\ untouched w w'
    /\ _idCounter w' = _idCounter w
    /\ _instrumentation w' = _instrumentation w
    /\ logger w' =
       logger w ++
         (if 0 <? getLogLevel (_config w)
          then [LStr "INF: Ignored packet for "; LNum (getDestAddr (header p)); LEndl]
          else []).
Proof.
  intros Hlen Hver Hbc Hself.
  unfold _process, _process_with.
  apply Z.ltb_ge in Hlen. rewrite Hlen.
  apply Z.eqb_eq in Hver. rewrite Hver. cbn [negb].
  apply Z.eqb_neq in Hbc. apply Z.eqb_neq in Hself.
  unfold mbind at 1, M_bind at 1, gets at 1.
  rewrite Hbc, Hself. cbn [negb andb].
  destruct w. run.
  match goal with |- context [0 <? ?l] => destruct (0 <? l) end.
  - eexists. split; [reflexivity|]. unfold untouched. cbn.
    rewrite <- app_assoc. tauto.
  - eexists. split; [reflexivity|]. unfold untouched. cbn.
    rewrite app_nil_r. tauto.
Qed.

End Overheard.

Lemma overheard_dropped_witness :
  exists w',
    _process (D := Reference.decls) 0 Reference.overheardPacket 28 Reference.node1
    = Some (tt, w')
    /\ untouched Reference.node1 w'.
Proof.
  destruct (overheard_dropped (D := Reference.decls) Reference.node1 0
              Reference.overheardPacket 28)
    as (w' & Hrun & Hsame & _).
  - simpl. lia.
  - reflexivity.
  - vm_compute. discriminate.
  - vm_compute. discriminate.
  - exists w'. split; [exact Hrun | exact Hsame].
Defined.

(** C5 as stated fails: a frame for another node that is also of another
    protocol version is counted in [_badRxPacketCounter]. *)
Lemma overheard_stray_counted :
  ~ (forall (w : World) (rssi : Z) (p : Packet) (len : Z),
       getDestAddr (header p) <> BROADCAST_ADDR ->
       getDestAddr (header p) <> getAddr (_config w) ->
       exists w',
         _process (D := Reference.decls) rssi p len w = Some (tt, w')
         /\ untouched w w').
Proof.
  intros Hall.
  destruct (Hall Reference.node1 0 Reference.strayPacket 28)
    as (w' & Hrun & Hsame).
  - vm_compute. discriminate.
  - vm_compute. discriminate.
  - vm_compute in Hrun. inversion Hrun; subst w'.
    destruct Hsame as (_ & Hbad & _). vm_compute in Hbad. discriminate.
Qed.

(** ** What a successful transmit leaves in the queues *)

Lemma push_accepted (side : Z) (p : Packet) (len : Z) (b b' : CircularBuffer) :
  push side p len b = (true, b') ->
  cb_records b' = cb_records b ++ [mkBufferRecord side p len].
Proof.
  unfold push.
  destruct (cb_used b + cb_prefixLen b + cb_sideLen b + len <=? cb_capacity b);
    intros E; inversion E; reflexivity.
Qed.

Lemma transmitIfPossible_queued (p : Packet) (len : Z) (w w' : World) :
  transmitIfPossible p len w = Some (true, w') ->
  In p (queuedPackets w').
Proof.
  unfold transmitIfPossible, queuedPackets.
  destruct (getDestAddr (header p) =? getAddr (_config w)).
  - destruct (push 0 p len (_rxBuffer w)) as [ok rx] eqn:Epush.
    intros E. inversion E; subst ok w'. cbn.
    rewrite (push_accepted _ _ _ _ _ Epush), map_app.
    apply in_or_app. right. apply in_or_app. left.
    apply in_or_app. right. now left.
  - unfold scheduleTransmitIfPossible.
    destruct (firstFree (_opm w)) as [i|]; [|discriminate].
    destruct (push 0 p len (_txBuffer w)) as [ok tx] eqn:Epush.
    destruct ok; [|discriminate].
    assert (Htx : In p (map rec_packet (cb_records tx))).
    { rewrite (push_accepted _ _ _ _ _ Epush), map_app.
      apply in_or_app. right. now left. }
    destruct (isAckRequired (header p)); intros E; inversion E; subst w'; cbn;
      apply in_or_app; now left.
Qed.

Lemma transmitIfPossible_accepted (p : Packet) (len : Z) (w w' : World) :
  transmitIfPossible p len w = Some (true, w') ->
  queueFor (_config w) p w' = queueFor (_config w) p w ++ [mkBufferRecord 0 p len].
Proof.
  unfold transmitIfPossible, queueFor, rxRecords, txRecords.
  destruct (getDestAddr (header p) =? getAddr (_config w)).
  - destruct (push 0 p len (_rxBuffer w)) as [ok rx] eqn:Epush.
    intros E. inversion E; subst ok w'. exact (push_accepted _ _ _ _ _ Epush).
  - unfold scheduleTransmitIfPossible.
    destruct (firstFree (_opm w)) as [i|]; [|discriminate].
    destruct (push 0 p len (_txBuffer w)) as [ok tx] eqn:Epush.
    destruct ok; [|discriminate].
    destruct (isAckRequired (header p)); intros E; inversion E; subst w';
      exact (push_accepted _ _ _ _ _ Epush).
Qed.

(** ** Acknowledging and checking *)

Section Pipeline.

Context {D : Decls}.

Lemma transmitIfPossible_total (p : Packet) (len : Z) (w : World) :
  exists good w', transmitIfPossible p len w = Some (good, w').
Proof.
  unfold transmitIfPossible.
  destruct (getDestAddr (header p) =? getAddr (_config w)).
  - destruct (push 0 p len (_rxBuffer w)) as [ok rx]. eauto.
  - destruct (scheduleTransmitIfPossible _ _ _ _ _) as [[ok o] t]. eauto.
Qed.

Lemma acknowledge_total (p : Packet) (w : World) :
  exists w', acknowledge p w = Some (tt, w').
Proof.
  unfold acknowledge. step.
  destruct (isAckRequired (header p)); [|eauto].
  destruct (transmitIfPossible_total
              (mkPacket (setupAckFor (header p) (_config w)) []) sizeofHeader w)
    as (good & w' & E).
  rewrite E. destruct good; cbn; eauto.
Qed.

Lemma preserves_acknowledge {X : Type} (f : World -> X) (p : Packet) :
  ignores_logger f -> ignores_queues f -> preserves f (acknowledge p).
Proof.
  intros Hl Hq. unfold acknowledge. frame.
  - now apply preserves_transmitIfPossible.
  - now apply preserves_emit.
Qed.

(** An accepted packet that is no ACK: note it, acknowledge it, check it. *)
Lemma _process_data (arm : M unit) (rssi : Z) (p : Packet) (len : Z) (w : World) :
  accepted (_config w) p len = true ->
  isAck (header p) = false ->
  _process_with arm rssi p len w
  = (acknowledge p ;; _process_checked arm rssi p len) (noted rssi p w).
Proof.
  intros Hacc Hack. rewrite (_process_accepted _ _ _ _ _ Hacc).
  rewrite (bind_Some _ _ _ _ _ (noteReception_eq rssi p w)).
  now rewrite Hack.
Qed.

(** The duplicate check looks at the clock and the ring only. *)
Lemma seenRecently_ext (p : Packet) (w w' : World) :
  _clock w' = _clock w ->
  _packetReport w' = _packetReport w ->
  seenRecently p w' = seenRecently p w.
Proof. intros Hc Hr. unfold seenRecently. now rewrite Hc, Hr. Qed.

Lemma seenRecently_after_ack (rssi : Z) (p : Packet) (w w0 : World) :
  acknowledge p (noted rssi p w) = Some (tt, w0) ->
  seenRecently p w0 = seenRecently p w.
Proof.
  intros E. apply seenRecently_ext.
  - now rewrite (preserves_acknowledge _clock p ltac:(view_side) ltac:(view_side) _ _ _ E).
  - now rewrite (preserves_acknowledge _packetReport p ltac:(view_side) ltac:(view_side) _ _ _ E).
Qed.

Lemma _process_checked_duplicate (arm : M unit) (rssi : Z) (p : Packet) (len : Z)
    (w : World) :
  seenRecently p w = true ->
  _process_checked arm rssi p len w
  = Some (tt, set_logger
                (logger w ++
                   if 0 <? getLogLevel (_config w)
                   then [LStr "INF: Ignored duplicate from ";
                         LNum (originalSourceAddr (header p)); LEndl]
                   else [])
                w).
Proof.
  intros Hdup. unfold _process_checked. step. rewrite Hdup.
  destruct w. run.
  match goal with |- context [0 <? ?l] => destruct (0 <? l) end.
  - now rewrite <- app_assoc.
  - now rewrite app_nil_r.
Qed.

Lemma _process_checked_fresh (arm : M unit) (rssi : Z) (p : Packet) (len : Z)
    (w : World) :
  seenRecently p w = false ->
  _process_checked arm rssi p len w
  = (if negb (getFinalDestAddr (header p) =? getAddr (_config w))
     then _process_forward p len
     else _process_local_with arm rssi p len) (recordReport p w).
Proof.
  intros Hdup. unfold _process_checked. step. now rewrite Hdup.
Qed.

(** Checking, forwarding and local handling only add to the two buffers. *)
Lemma appends_tx_checked (rssi : Z) (p : Packet) (len : Z) :
  appends txRecords (_process_checked secondReset rssi p len).
Proof.
  unfold _process_checked, _process_forward, _process_local_with, handleReset,
    secondReset.
  grow.
Qed.

Lemma appends_rx_checked (rssi : Z) (p : Packet) (len : Z) :
  appends rxRecords (_process_checked secondReset rssi p len).
Proof.
  unfold _process_checked, _process_forward, _process_local_with, handleReset,
    secondReset.
  grow.
Qed.

End Pipeline.

(** ** Malformed frames *)

(** C4.  On the reference node a packet of each type that needs a payload,
    sent with the header alone, passes the three checks of [_process], is
    reported as "ERR: Bad message" by its handler, and leaves
    [_badRxPacketCounter] where it was, whereas a frame shorter than a
    header moves the counter. *)
Theorem short_payload_not_counted :
  Forall
    (fun ty =>
       accepted (D := Reference.decls) Reference.testConfig
         (Reference.bareRequest ty) 28 = true
       /\ exists w',
            _process (D := Reference.decls) 0 (Reference.bareRequest ty) 28
              Reference.node1 = Some (tt, w')
            /\ logger w' = [LStr msg_bad_message; LEndl]
            /\ _badRxPacketCounter w' = _badRxPacketCounter Reference.node1)
    Reference.payloadTypes
  /\ exists w',
       _process (D := Reference.decls) 0 (Reference.bareRequest TYPE_RESET) 27
         Reference.node1 = Some (tt, w')
       /\ logger w' = [LStr msg_bad_message; LEndl]
       /\ _badRxPacketCounter w' = _badRxPacketCounter Reference.node1 + 1.
Proof.
  split.
  - unfold Reference.payloadTypes.
    repeat (constructor;
            [split; [reflexivity
                    | eexists; split; [vm_compute; reflexivity | split; reflexivity]] |]).
    constructor.
  - eexists. split; [vm_compute; reflexivity | split; reflexivity].
Qed.

(** ** The scratch buffer of the TEXT handler *)

(** C8.  On the reference node a TEXT packet with 127 bytes of text is
    handled, while one with 128 bytes (156 bytes in all) or one of the full
    256 bytes makes the handler write outside [scratch]. *)
Theorem text_scratch_overflow :
  accepted (D := Reference.decls) Reference.testConfig
    (Reference.textPacket 128) 156 = true
  /\ 156 <= sizeofPacket (Decls := Reference.decls)
  /\ _process (D := Reference.decls) 0 (Reference.textPacket 128) 156
       Reference.node1 = None
  /\ _process (D := Reference.decls) 0 (Reference.textPacket 228) 256
       Reference.node1 = None
  /\ exists w',
       _process (D := Reference.decls) 0 (Reference.textPacket 127) 155
         Reference.node1 = Some (tt, w').
Proof.
  split; [reflexivity|].
  split; [vm_compute; discriminate|].
  split; [vm_compute; reflexivity|].
  split; [vm_compute; reflexivity|].
  eexists. vm_compute. reflexivity.
Qed.

(** ** The ACK comes first *)

Section Acknowledge.

Context {D : Decls}.

(** C1, as amended.  For an accepted packet that is no ACK and asks for
    one, the frame built by [setupAckFor] (id of the packet, destAddr its
    sourceAddr) is handed to [transmitIfPossible] right after the reception
    is noted.  When that succeeds the frame is in a queue, and at the end
    of [_process] it stands in its FIFO behind what was there before and
    ahead of everything the call has added since.  The duplicate check, and
    with it every forward or response, runs on the world that handing over
    the ACK leaves, with "ERR: Full, no ACK" logged when the frame was
    refused.  A duplicate is dropped in that same world, so it has had its
    ACK handed over as well. *)
Theorem ack_before_check (w : World) (rssi : Z) (p : Packet) (len : Z) :
  accepted (_config w) p len = true ->
  isAck (header p) = false ->
  isAckRequired (header p) = true ->
  let ack := mkPacket (setupAckFor (header p) (_config w)) [] in
  id (header ack) = id (header p)
  /\ destAddr (header ack) = sourceAddr (header p)
  /\ isAck (header ack) = true
  /\ exists good w1,
       transmitIfPossible ack sizeofHeader (noted rssi p w) = Some (good, w1)
       /\ (good = true -> In ack (queuedPackets w1))
       /\ (good = true ->
           forall w',
             _process rssi p len w = Some (tt, w') ->
             exists later,
               queueFor (_config w) ack w'
               = queueFor (_config w) ack w
                 ++ mkBufferRecord 0 ack sizeofHeader :: later)
       /\ let w2 :=
            if good then w1
            else set_logger (logger w1 ++ [LStr "ERR: Full, no ACK"; LEndl]) w1 in
          _process rssi p len w = _process_checked secondReset rssi p len w2
          /\ (seenRecently p w = true ->
              _process rssi p len w
              = Some (tt, set_logger
                            (logger w2 ++
                               if 0 <? getLogLevel (_config w)
                               then [LStr "INF: Ignored duplicate from ";
                                     LNum (originalSourceAddr (header p)); LEndl]
                               else [])
                            w2)).
Proof.
  intros Hacc Hack Hreq ack.
  split; [reflexivity|]. split; [reflexivity|]. split; [reflexivity|].
  destruct (transmitIfPossible_total ack sizeofHeader (noted rssi p w))
    as (good & w1 & Etx).
  exists good, w1. split; [exact Etx|].
  split; [intros ->; exact (transmitIfPossible_queued _ _ _ _ Etx)|].
  assert (Hq : ignores_queues _clock /\ ignores_queues _packetReport
               /\ ignores_queues _config) by (repeat split).
  destruct Hq as (Hqc & Hqr & Hqg).
  pose proof (preserves_transmitIfPossible _clock ack sizeofHeader Hqc _ _ _ Etx) as Hclock.
  pose proof (preserves_transmitIfPossible _packetReport ack sizeofHeader Hqr _ _ _ Etx) as Hring.
  pose proof (preserves_transmitIfPossible _config ack sizeofHeader Hqg _ _ _ Etx) as Hcfg.
  assert (Hrun : forall arm,
             _process_with arm rssi p len w
             = _process_checked arm rssi p len
                 (if good then w1
                  else set_logger (logger w1 ++ [LStr "ERR: Full, no ACK"; LEndl]) w1)).
  { intros arm. rewrite (_process_data _ _ _ _ _ Hacc Hack).
    unfold acknowledge. unfold mbind at 1, M_bind at 1, gets at 1.
    rewrite Hreq. unfold when at 1. unfold mbind at 1, M_bind at 1.
    unfold mbind at 1, M_bind at 1.
    change (_config (noted rssi p w)) with (_config w). fold ack.
    rewrite Etx. destruct good; reflexivity. }
  split.
  { intros -> w' E. unfold _process in E. rewrite Hrun in E.
    pose proof (transmitIfPossible_accepted _ _ _ _ Etx) as Hq.
    change (_config (noted rssi p w)) with (_config w) in Hq.
    change (queueFor (_config w) ack (noted rssi p w))
      with (queueFor (_config w) ack w) in Hq.
    assert (Hlater : exists l, queueFor (_config w) ack w'
                               = queueFor (_config w) ack w1 ++ l).
    { unfold queueFor.
      destruct (getDestAddr (header ack) =? getAddr (_config w)).
      - exact (appends_rx_checked _ _ _ _ _ _ E).
      - exact (appends_tx_checked _ _ _ _ _ _ E). }
    destruct Hlater as [later Hlater]. exists later.
    now rewrite Hlater, Hq, <- app_assoc. }
  cbv zeta. split; [apply Hrun|].
  intros Hdup. unfold _process. rewrite Hrun.
  rewrite _process_checked_duplicate.
  - destruct good.
    + now rewrite Hcfg.
    + change (_config (set_logger ?l w1)) with (_config w1). now rewrite Hcfg.
  - rewrite <- Hdup. apply seenRecently_ext.
    + destruct good; [exact Hclock|]. exact Hclock.
    + destruct good; [exact Hring|]. exact Hring.
Qed.

End Acknowledge.

Lemma ack_before_check_witness :
  exists good w1,
    transmitIfPossible
      (mkPacket (setupAckFor (D := Reference.decls) (header Reference.pong)
                   Reference.testConfig) [])
      28 (noted (D := Reference.decls) 0 Reference.pong Reference.node1)
    = Some (good, w1)
    /\ _process (D := Reference.decls) 0 Reference.pong 28 Reference.node1
       = _process_checked (D := Reference.decls) (secondReset) 0 Reference.pong 28
           (if good then w1
            else set_logger (logger w1 ++ [LStr "ERR: Full, no ACK"; LEndl]) w1).
Proof.
  destruct (ack_before_check (D := Reference.decls) Reference.node1 0
              Reference.pong 28 eq_refl eq_refl eq_refl)
    as (_ & _ & _ & good & w1 & Etx & _ & _ & Hrun & _).
  exists good, w1. split; [exact Etx | exact Hrun].
Defined.

(** C1 as stated fails: when every slot of the outbound manager is pending,
    the ACK for an accepted packet is refused, "ERR: Full, no ACK" is
    logged, and no ACK waits in any queue afterwards. *)
Lemma ack_refused_when_full :
  ~ (forall (w : World) (rssi : Z) (p : Packet) (len : Z),
       accepted (D := Reference.decls) (_config w) p len = true ->
       isAck (header p) = false ->
       isAckRequired (header p) = true ->
       exists w',
         _process (D := Reference.decls) rssi p len w = Some (tt, w')
         /\ In (mkPacket (setupAckFor (D := Reference.decls) (header p) (_config w)) [])
              (queuedPackets w')).
Proof.
  intros Hall.
  destruct (Hall Reference.node1_busy 0 Reference.pong 28 eq_refl eq_refl eq_refl)
    as (w' & Hrun & Hin).
  vm_compute in Hrun. inversion Hrun; subst w'. clear Hrun.
  vm_compute in Hin.
  repeat (destruct Hin as [Hin | Hin]; [discriminate Hin|]).
  exact Hin.
Qed.

(** ** Forwarding *)

Section Forward.

Context {D : Decls}.

(** What [acknowledge] after [noteReception] cannot have changed. *)
Lemma acknowledge_frame (rssi : Z) (p : Packet) (w w0 : World) :
  acknowledge p (noted rssi p w) = Some (tt, w0) ->
  _routingTable w0 = _routingTable w
  /\ _config w0 = _config w
  /\ _idCounter w0 = _idCounter w
  /\ _badRouteCounter w0 = _badRouteCounter w
  /\ _badRxPacketCounter w0 = _badRxPacketCounter w
  /\ _instrumentation w0 = _instrumentation w
  /\ _clock w0 = _clock w
  /\ _packetReport w0 = _packetReport w
  /\ _packetReportPtr w0 = _packetReportPtr w.
Proof.
  intros E.
  repeat split;
    match goal with
    | |- ?f w0 = _ =>
        exact (preserves_acknowledge f p ltac:(view_side) ltac:(view_side) _ _ _ E)
    end.
Qed.

(** An accepted, fresh packet for another node reaches the forwarding
    block in the world that the ACK and the report leave. *)
Lemma _process_to_forward (rssi : Z) (p : Packet) (len : Z) (w w0 : World) :
  accepted (_config w) p len = true ->
  isAck (header p) = false ->
  seenRecently p w = false ->
  getFinalDestAddr (header p) <> getAddr (_config w) ->
  acknowledge p (noted rssi p w) = Some (tt, w0) ->
  _process rssi p len w = _process_forward p len (recordReport p w0).
Proof.
  intros Hacc Hack Hfresh Hfd E0.
  destruct (acknowledge_frame _ _ _ _ E0) as (_ & Hcfg & _).
  unfold _process. rewrite (_process_data _ _ _ _ _ Hacc Hack).
  rewrite (bind_Some _ _ _ _ _ E0).
  rewrite _process_checked_fresh
    by (now rewrite (seenRecently_after_ack _ _ _ _ E0)).
  rewrite Hcfg. apply Z.eqb_neq in Hfd. now rewrite Hfd.
Qed.

(** C2.  An accepted, fresh packet whose final destination is another node:
    with a route, the packet handed to [transmitIfPossible] is the received
    one with the id replaced by the next unique id, destAddr by the next
    hop and sourceAddr by the node's own address, every other header field
    and the payload as received, the length is the received length, and
    the packet is in a queue when the call succeeds;
    without a route, [_badRouteCounter] moves by one, "ERR: No route" is
    logged and nothing is handed over. *)
Theorem forward_rewrites_hop_fields (w : World) (rssi : Z) (p : Packet) (len : Z) :
  accepted (_config w) p len = true ->
  isAck (header p) = false ->
  seenRecently p w = false ->
  getFinalDestAddr (header p) <> getAddr (_config w) ->
  exists w0,
    acknowledge p (noted rssi p w) = Some (tt, w0)
    /\ let w1 := recordReport p w0 in
       let h := header p in
       let nh := nextHop (_routingTable w) (getFinalDestAddr h) in
       let outPacket :=
         mkPacket
           (mkHeader (version h) (type h) (isAck h) (isAckRequired h)
              (wrap16 (_idCounter w)) (getAddr (_config w)) nh
              (originalSourceAddr h) (finalDestAddr h)
              (sourceCall h) (originalSourceCall h))
           (payload p) in
       (nh <> NO_ROUTE ->
        exists good w2,
          transmitIfPossible outPacket len
            (set_idCounter (wrapIdCounter (_idCounter w + 1)) w1) = Some (good, w2)
          /\ (good = true -> In outPacket (queuedPackets w2))
          /\ _process rssi p len w
             = Some (tt, set_logger
                           (logger w2 ++
                              if good
                              then if 0 <? getLogLevel (_config w)
                                   then [LStr "INF: Forward to "; LNum nh; LEndl]
                                   else []
                              else [LStr "ERR: Full, no forward"; LEndl])
                           w2))
       /\ (nh = NO_ROUTE ->
           _process rssi p len w
           = Some (tt, set_logger (logger w1 ++ [LStr msg_no_route; LEndl])
                         (set_badRouteCounter (wrap16 (_badRouteCounter w + 1)) w1))).
Proof.
  intros Hacc Hack Hfresh Hfd.
  destruct (acknowledge_total p (noted rssi p w)) as (w0 & E0).
  exists w0. split; [exact E0|]. cbv zeta.
  rewrite (_process_to_forward _ _ _ _ _ Hacc Hack Hfresh Hfd E0).
  destruct (acknowledge_frame _ _ _ _ E0)
    as (Hrt & Hcfg & Hid & Hbr & _).
  unfold _process_forward. cbv zeta.
  split; intros Hroute;
    unfold mbind at 1, M_bind at 1, gets at 1;
    unfold mbind at 1, M_bind at 1, gets at 1;
    change (_routingTable (recordReport p w0)) with (_routingTable w0);
    change (_config (recordReport p w0)) with (_config w0);
    rewrite Hrt, Hcfg.
  - apply Z.eqb_neq in Hroute. rewrite Hroute. cbn [negb].
    unfold mbind at 1, M_bind at 1, getUniqueId at 1.
    change (_idCounter (recordReport p w0)) with (_idCounter w0). rewrite Hid.
    match goal with
    | |- context [transmitIfPossible ?o len ?s] =>
        destruct (transmitIfPossible_total o len s) as (good & w2 & Etx)
    end.
    exists good, w2.
    unfold withHeader, setSourceAddr, setDestAddr, setId in *. cbn in Etx |- *.
    split; [exact Etx|].
    split; [intros ->; exact (transmitIfPossible_queued _ _ _ _ Etx)|].
    unfold mbind at 1, M_bind at 1. rewrite Etx.
    destruct w2. destruct good; cbn [negb].
    + unfold when. destruct (0 <? getLogLevel (_config w)); run.
      * now rewrite <- !app_assoc.
      * now rewrite app_nil_r.
    + reflexivity.
  - apply Z.eqb_eq in Hroute. rewrite Hroute. cbn [negb].
    rewrite <- Hbr. destruct w0. reflexivity.
Qed.

End Forward.

Lemma forward_rewrites_hop_fields_witness :
  exists good w1 w2,
    transmitIfPossible
      (mkPacket (mkHeader 2 TYPE_TEXT false true 1 1 3 2 7 "W1AW" "W1AW") [72; 105])
      30 w1 = Some (good, w2)
    /\ exists w',
         _process (D := Reference.decls) 0 Reference.relayed 30 Reference.node1
         = Some (tt, w').
Proof.
  destruct (forward_rewrites_hop_fields (D := Reference.decls) Reference.node1 0
              Reference.relayed 30 eq_refl eq_refl eq_refl)
    as (w0 & E0 & Hroute & _).
  - vm_compute. discriminate.
  - destruct Hroute as (good & w2 & Etx & _ & Hrun).
    + vm_compute. discriminate.
    + exists good. eexists. exists w2. split; [exact Etx|].
      eexists. exact Hrun.
Defined.

(** ** Local handling *)

Ltac decide_types :=
  repeat match goal with
    | |- context [bool_decide (?a = ?b)] =>
        first
          [ rewrite (bool_decide_eq_true_2 (a = b)) by reflexivity
          | rewrite (bool_decide_eq_false_2 (a = b)) by discriminate ]
    end.

Section Local.

Context {D : Decls}.

(** An accepted, fresh packet for this node reaches the local block in the
    world that the ACK and the report leave. *)
Lemma _process_to_local (arm : M unit) (rssi : Z) (p : Packet) (len : Z)
    (w w0 : World) :
  accepted (_config w) p len = true ->
  isAck (header p) = false ->
  seenRecently p w = false ->
  getFinalDestAddr (header p) = getAddr (_config w) ->
  acknowledge p (noted rssi p w) = Some (tt, w0) ->
  _process_with arm rssi p len w
  = _process_local_with arm rssi p len (recordReport p w0).
Proof.
  intros Hacc Hack Hfresh Hfd E0.
  destruct (acknowledge_frame _ _ _ _ E0) as (_ & Hcfg & _).
  rewrite (_process_data _ _ _ _ _ Hacc Hack).
  rewrite (bind_Some _ _ _ _ _ E0).
  rewrite _process_checked_fresh
    by (now rewrite (seenRecently_after_ack _ _ _ _ E0)).
  rewrite Hcfg. apply Z.eqb_eq in Hfd. now rewrite Hfd.
Qed.

Lemma _process_local_unauthorized (arm : M unit) (rssi : Z) (p : Packet)
    (len : Z) (w : World) :
  isResponseRequired (header p)
  && (nextHop (_routingTable w) (getOriginalSourceAddr (header p)) =? NO_ROUTE)
  = false ->
  wrongPasscode (_config w) p len ->
  _process_local_with arm rssi p len w
  = Some (tt, set_logger (logger w ++ [LStr msg_no_auth; LEndl]) w).
Proof.
  intros Hresp Hwrong. unfold _process_local_with. cbv zeta.
  unfold mbind at 1, M_bind at 1, gets at 1.
  unfold mbind at 1, M_bind at 1, gets at 1.
  rewrite Hresp.
  destruct Hwrong as [([Hty | Hty] & Hlen & Hcode) | (Hty & Hlen & Hcode)];
    rewrite Hty; decide_types; cbn [orb];
    try (unfold handleReset; unfold mbind at 1, M_bind at 1, gets at 1);
    apply Z.ltb_ge in Hlen; rewrite Hlen; rewrite Hcode; reflexivity.
Qed.

End Local.

Section Unauthorized.

Context {D : Decls}.

(** C6.  An accepted, fresh RESET, RESET_COUNTERS or SETROUTE packet for
    this node that is long enough and carries a passcode
    [config.checkPasscode] rejects: the handler writes "ERR: Unauthorized"
    and nothing else.  Over the whole of [_process], [restart()] has not
    been called, the routing table is as before, and the counters stand
    where the reception left them: [_rxPacketCounter] one further, the two
    error counters unchanged. *)
Theorem unauthorized_dropped (w : World) (rssi : Z) (p : Packet) (len : Z) :
  accepted (_config w) p len = true ->
  isAck (header p) = false ->
  seenRecently p w = false ->
  getFinalDestAddr (header p) = getAddr (_config w) ->
  isResponseRequired (header p)
  && (nextHop (_routingTable w) (getOriginalSourceAddr (header p)) =? NO_ROUTE)
  = false ->
  wrongPasscode (_config w) p len ->
  exists w0 w',
    acknowledge p (noted rssi p w) = Some (tt, w0)
    /\ _process rssi p len w = Some (tt, w')
    /\ w' = set_logger (logger w0 ++ [LStr msg_no_auth; LEndl]) (recordReport p w0)
    /\ _instrumentation w' = _instrumentation w
    /\ _routingTable w' = _routingTable w
    /\ _rxPacketCounter w' = wrap16 (_rxPacketCounter w + 1)
    /\ _badRxPacketCounter w' = _badRxPacketCounter w
    /\ _badRouteCounter w' = _badRouteCounter w
    /\ _idCounter w' = _idCounter w.
Proof.
  intros Hacc Hack Hfresh Hfd Hresp Hwrong.
  destruct (acknowledge_total p (noted rssi p w)) as (w0 & E0).
  pose proof (acknowledge_frame _ _ _ _ E0)
    as (Hrt & Hcfg & Hid & Hbr & Hbx & Hin & _).
  pose proof (preserves_acknowledge _rxPacketCounter p
                ltac:(view_side) ltac:(view_side) _ _ _ E0) as Hrx.
  exists w0. eexists. split; [exact E0|]. split.
  - unfold _process.
    rewrite (_process_to_local _ _ _ _ _ _ Hacc Hack Hfresh Hfd E0).
    apply _process_local_unauthorized.
    + change (_routingTable (recordReport p w0)) with (_routingTable w0).
      now rewrite Hrt.
    + change (_config (recordReport p w0)) with (_config w0).
      now rewrite Hcfg.
  - split; [reflexivity|].
    repeat split; assumption.
Qed.

End Unauthorized.

Lemma unauthorized_dropped_witness :
  exists w',
    _process (D := Reference.decls) 0 (Reference.resetRequest 4321) 32
      Reference.node1 = Some (tt, w')
    /\ _instrumentation w' = _instrumentation Reference.node1
    /\ _routingTable w' = _routingTable Reference.node1.
Proof.
  destruct (unauthorized_dropped (D := Reference.decls) Reference.node1 0
              (Reference.resetRequest 4321) 32
              eq_refl eq_refl eq_refl eq_refl eq_refl)
    as (w0 & w' & _ & Hrun & _ & Hins & Hrt & _).
  - left. split; [left; reflexivity|]. split; [vm_compute; discriminate|].
    reflexivity.
  - exists w'. split; [exact Hrun|]. split; [exact Hins | exact Hrt].
Defined.

(** ** The second TYPE_RESET arm *)

Section SecondReset.

Context {D : Decls}.

(** Whatever stands in the second TYPE_RESET arm, the local block does the
    same. *)
Lemma _process_local_arm (arm arm' : M unit) (rssi : Z) (p : Packet) (len : Z)
    (w : World) :
  _process_local_with arm rssi p len w = _process_local_with arm' rssi p len w.
Proof.
  unfold _process_local_with. cbv zeta.
  destruct (bool_decide (getType (header p) = TYPE_RESET)); reflexivity.
Qed.

Lemma _process_checked_arm (arm arm' : M unit) (rssi : Z) (p : Packet) (len : Z)
    (w : World) :
  _process_checked arm rssi p len w = _process_checked arm' rssi p len w.
Proof.
  unfold _process_checked. step.
  destruct (seenRecently p w); [reflexivity|].
  destruct (negb _); [reflexivity|].
  apply _process_local_arm.
Qed.

Lemma _process_arm (arm arm' : M unit) (rssi : Z) (p : Packet) (len : Z)
    (w : World) :
  _process_with arm rssi p len w = _process_with arm' rssi p len w.
Proof.
  destruct (accepted (_config w) p len) eqn:Hacc.
  - rewrite !(_process_accepted _ _ _ _ _ Hacc).
    rewrite !(bind_Some _ _ _ _ _ (noteReception_eq rssi p w)).
    destruct (isAck (header p)); [reflexivity|].
    unfold mbind, M_bind.
    destruct (acknowledge p (noted rssi p w)) as [[[] w0]|]; [|reflexivity].
    apply _process_checked_arm.
  - unfold _process_with. unfold accepted in Hacc.
    destruct (len <? sizeofHeader); [reflexivity|].
    destruct (getPacketVersion (header p) =? PACKET_VERSION);
      cbn [negb]; [|reflexivity].
    cbn [negb andb] in Hacc |- *. step.
    apply orb_false_elim in Hacc as [Hbc Hself].
    rewrite Hbc, Hself. reflexivity.
Qed.

(** The local block for a packet that is no RESET leaves the
    instrumentation alone. *)
Lemma preserves_local_not_reset (arm : M unit) (rssi : Z) (p : Packet) (len : Z) :
  getType (header p) <> TYPE_RESET ->
  preserves _instrumentation (_process_local_with arm rssi p len).
Proof.
  intros Hne. unfold _process_local_with, handleReset.
  rewrite (bool_decide_eq_false_2 _ Hne).
  frame.
Qed.

(** In the local block [restart()] is called for an authorized RESET only. *)
Lemma _process_local_restart (arm : M unit) (rssi : Z) (p : Packet) (len : Z)
    (w w' : World) :
  _process_local_with arm rssi p len w = Some (tt, w') ->
  _instrumentation w' <> _instrumentation w ->
  getType (header p) = TYPE_RESET
  /\ sizeofHeader + sizeofResetReqPayload <= len
  /\ checkPasscode (_config w) (reset_passcode (readResetReq (payload p))) = true.
Proof.
  intros E Hchg.
  destruct (decide (getType (header p) = TYPE_RESET)) as [Hty | Hne].
  2: { exfalso. apply Hchg.
       exact (preserves_local_not_reset arm rssi p len Hne _ _ _ E). }
  split; [exact Hty|].
  revert E. unfold _process_local_with. cbv zeta.
  unfold mbind at 1, M_bind at 1, gets at 1.
  unfold mbind at 1, M_bind at 1, gets at 1.
  destruct (isResponseRequired (header p) && _).
  { intros E. exfalso. apply Hchg.
    eapply preserves_apply; [|exact E]. frame. }
  rewrite Hty. decide_types. cbn [orb].
  unfold handleReset. unfold mbind at 1, M_bind at 1, gets at 1.
  destruct (len <? sizeofHeader + sizeofResetReqPayload) eqn:Hlen.
  { intros E. exfalso. apply Hchg. inversion E. reflexivity. }
  destruct (checkPasscode (_config w) _) eqn:Hcode.
  2: { intros E. exfalso. apply Hchg. inversion E. reflexivity. }
  intros _. apply Z.ltb_ge in Hlen. now split.
Qed.

(** Outside the local block [_process] leaves the instrumentation alone. *)
Lemma _process_reaches_local (arm : M unit) (rssi : Z) (p : Packet) (len : Z)
    (w w' : World) :
  _process_with arm rssi p len w = Some (tt, w') ->
  _instrumentation w' = _instrumentation w
  \/ exists w1,
       _config w1 = _config w
       /\ _instrumentation w1 = _instrumentation w
       /\ _process_local_with arm rssi p len w1 = Some (tt, w').
Proof.
  intros E.
  destruct (accepted (_config w) p len) eqn:Hacc.
  - destruct (isAck (header p)) eqn:Hack.
    + left. rewrite (_process_accepted _ _ _ _ _ Hacc) in E.
      rewrite (bind_Some _ _ _ _ _ (noteReception_eq rssi p w)), Hack in E.
      inversion E. reflexivity.
    + rewrite (_process_data _ _ _ _ _ Hacc Hack) in E.
      apply bind_inv in E as ([] & w0 & E0 & E1).
      destruct (acknowledge_frame _ _ _ _ E0) as (_ & Hcfg & _ & _ & _ & Hins & _).
      destruct (seenRecently p w0) eqn:Hdup.
      * left. rewrite (_process_checked_duplicate _ _ _ _ _ Hdup) in E1.
        inversion E1. exact Hins.
      * rewrite (_process_checked_fresh _ _ _ _ _ Hdup) in E1.
        destruct (negb _).
        -- left. rewrite <- Hins.
           change (_instrumentation w0) with (_instrumentation (recordReport p w0)).
           eapply preserves_apply; [|exact E1].
           unfold _process_forward. frame.
        -- right. exists (recordReport p w0). repeat split; assumption.
  - left. revert E. unfold _process_with. unfold accepted in Hacc.
    destruct (len <? sizeofHeader).
    { intros E. eapply preserves_apply; [|exact E]. frame. }
    destruct (getPacketVersion (header p) =? PACKET_VERSION); cbn [negb].
    2: { intros E. eapply preserves_apply; [|exact E]. frame. }
    cbn [negb andb] in Hacc.
    apply orb_false_elim in Hacc as [Hbc Hself].
    unfold mbind at 1, M_bind at 1, gets at 1. rewrite Hbc, Hself. cbn [negb andb].
    intros E. eapply preserves_apply; [|exact E]. frame.
Qed.

(** C9.  The second TYPE_RESET arm of the chain is dead: [_process] is the
    same function whatever that arm contains, a RESET packet having been
    taken by the arm of lines 300-320.  Hence when [_process] has called
    [restart()], the packet was a RESET, long enough for its payload, whose
    passcode [config.checkPasscode] accepted. *)
Theorem second_reset_arm_unreachable :
  (forall (arm : M unit) (rssi : Z) (p : Packet) (len : Z) (w : World),
     _process_with arm rssi p len w = _process rssi p len w)
  /\ (forall (rssi : Z) (p : Packet) (len : Z) (w w' : World),
        _process rssi p len w = Some (tt, w') ->
        restarts (_instrumentation w') <> restarts (_instrumentation w) ->
        getType (header p) = TYPE_RESET
        /\ sizeofHeader + sizeofResetReqPayload <= len
        /\ checkPasscode (_config w)
             (reset_passcode (readResetReq (payload p))) = true).
Proof.
  split.
  - intros arm rssi p len w. apply _process_arm.
  - intros rssi p len w w' E Hchg.
    destruct (_process_reaches_local _ _ _ _ _ _ E)
      as [Hsame | (w1 & Hcfg & Hins & Elocal)].
    + now rewrite Hsame in Hchg.
    + rewrite <- Hcfg.
      apply (_process_local_restart _ _ _ _ _ _ Elocal).
      rewrite Hins. intros Heq. now rewrite Heq in Hchg.
Qed.

End SecondReset.

Lemma second_reset_arm_unreachable_witness :
  exists w',
    _process (D := Reference.decls) 0 (Reference.resetRequest 1234) 32
      Reference.node1 = Some (tt, w')
    /\ restarts (_instrumentation w') = 1%nat
    /\ checkPasscode Reference.testConfig
         (reset_passcode
            (readResetReq (Decls := Reference.decls)
               (payload (Reference.resetRequest 1234)))) = true.
Proof.
  eexists. split; [vm_compute; reflexivity|]. split; [reflexivity|].
  refine (proj2 (proj2 (proj2 (second_reset_arm_unreachable (D := Reference.decls))
            0 (Reference.resetRequest 1234) 32 Reference.node1 _ _ _))).
  - vm_compute. reflexivity.
  - vm_compute. discriminate.
Defined.

(** ** The duplicate ring *)

Section Duplicates.

Context {D : Decls}.

Lemma preserves_ring_forward (p : Packet) (len : Z) :
  preserves ringView (_process_forward p len).
Proof. unfold _process_forward. frame. Qed.

Lemma preserves_ring_local (rssi : Z) (p : Packet) (len : Z) :
  preserves ringView (_process_local rssi p len).
Proof.
  unfold _process_local, _process_local_with, handleReset, secondReset. frame.
Qed.

(** [_process] writes the ring in one case only: an accepted packet that is
    no ACK and was not seen recently is reported at the write pointer. *)
Lemma _process_ring (rssi : Z) (p : Packet) (len : Z) (w w' : World) :
  _process rssi p len w = Some (tt, w') ->
  ringView w' =
    if accepted (_config w) p len && negb (isAck (header p))
       && negb (seenRecently p w)
    then ringView (recordReport p w)
    else ringView w.
Proof.
  intros E. unfold _process in E.
  destruct (accepted (_config w) p len) eqn:Hacc; cbn [andb].
  - destruct (isAck (header p)) eqn:Hack; cbn [negb andb].
    + rewrite (_process_accepted _ _ _ _ _ Hacc) in E.
      rewrite (bind_Some _ _ _ _ _ (noteReception_eq rssi p w)), Hack in E.
      inversion E. reflexivity.
    + rewrite (_process_data _ _ _ _ _ Hacc Hack) in E.
      apply bind_inv in E as ([] & w0 & E0 & E1).
      pose proof (seenRecently_after_ack _ _ _ _ E0) as Hseen.
      destruct (acknowledge_frame _ _ _ _ E0)
        as (_ & _ & _ & _ & _ & _ & Hclock & Hring & Hptr).
      rewrite <- Hseen.
      destruct (seenRecently p w0) eqn:Hdup; cbn [negb].
      * rewrite (_process_checked_duplicate _ _ _ _ _ Hdup) in E1.
        inversion E1. unfold ringView. cbn. now rewrite Hring, Hptr.
      * rewrite (_process_checked_fresh _ _ _ _ _ Hdup) in E1.
        assert (Hview : ringView w' = ringView (recordReport p w0)).
        { destruct (negb _).
          - exact (preserves_ring_forward _ _ _ _ _ E1).
          - exact (preserves_ring_local _ _ _ _ _ _ E1). }
        rewrite Hview. unfold ringView, recordReport. cbn.
        now rewrite Hring, Hptr, Hclock.
  - revert E. unfold _process_with. unfold accepted in Hacc.
    destruct (len <? sizeofHeader).
    { intros E. eapply preserves_apply; [|exact E]. frame. }
    destruct (getPacketVersion (header p) =? PACKET_VERSION); cbn [negb].
    2: { intros E. eapply preserves_apply; [|exact E]. frame. }
    cbn [negb andb] in Hacc.
    apply orb_false_elim in Hacc as [Hbc Hself].
    unfold mbind at 1, M_bind at 1, gets at 1. rewrite Hbc, Hself. cbn [negb andb].
    intros E. eapply preserves_apply; [|exact E]. frame.
Qed.

(** A frame that gets past the duplicate check is acknowledged, reported,
    and handed to the forwarding or to the local block. *)
Lemma reachesDispatch_runs (f : Frame) (w : World) :
  reachesDispatch f w = true ->
  exists w0,
    acknowledge (f_packet f)
      (noted (f_rssi f) (f_packet f) (set_clock (f_time f) w)) = Some (tt, w0)
    /\ _process (f_rssi f) (f_packet f) (f_len f) (set_clock (f_time f) w)
       = (if negb (getFinalDestAddr (header (f_packet f)) =? getAddr (_config w))
          then _process_forward (f_packet f) (f_len f)
          else _process_local (f_rssi f) (f_packet f) (f_len f))
           (recordReport (f_packet f) w0).
Proof.
  unfold reachesDispatch. cbv zeta. intros Hreach.
  apply andb_prop in Hreach as [Hreach Hfresh].
  apply andb_prop in Hreach as [Hacc Hack].
  apply negb_true_iff in Hfresh. apply negb_true_iff in Hack.
  destruct (acknowledge_total (f_packet f)
              (noted (f_rssi f) (f_packet f) (set_clock (f_time f) w)))
    as (w0 & E0).
  exists w0. split; [exact E0|].
  destruct (acknowledge_frame _ _ _ _ E0) as (_ & Hcfg & _).
  unfold _process. rewrite (_process_data _ _ _ _ _ Hacc Hack).
  rewrite (bind_Some _ _ _ _ _ E0).
  rewrite _process_checked_fresh
    by (now rewrite (seenRecently_after_ack _ _ _ _ E0)).
  now rewrite Hcfg.
Qed.

(** Stepping the write pointer [k + 1] places on from [i] does not come
    back to [i] before a full turn. *)
Lemma pointer_away (n i k : nat) :
  (i < n)%nat -> (1 + k < n)%nat -> ((i + 1 + k) mod n)%nat <> i.
Proof.
  intros Hi Hk Heq.
  pose proof (Nat.div_mod_eq (i + 1 + k) n) as Hdiv.
  rewrite Heq in Hdiv.
  destruct ((i + 1 + k) / n)%nat as [|q]; nia.
Qed.

(** A report written at [i] is still there as long as fewer reports than
    the ring has slots were written after it. *)
Lemma report_survives (r : PacketReport) (i : nat) (mids : list Frame) :
  forall (k : nat) (w1 w2 : World),
    (i < _packetReportSlots)%nat ->
    length (_packetReport w1) = _packetReportSlots ->
    _packetReport w1 !! i = Some r ->
    _packetReportPtr w1 = ((i + 1 + k) mod _packetReportSlots)%nat ->
    (k + reportsWritten mids w1 < _packetReportSlots)%nat ->
    processFrames mids w1 = Some w2 ->
    _packetReport w2 !! i = Some r
    /\ length (_packetReport w2) = _packetReportSlots.
Proof.
  induction mids as [|f rest IH]; intros k w1 w2 Hi Hlen Hat Hptr Hroom Hrun.
  - cbn in Hrun. inversion Hrun; subst w2. now split.
  - cbn [processFrames] in Hrun.
    destruct (_process (f_rssi f) (f_packet f) (f_len f) (set_clock (f_time f) w1))
      as [[[] w']|] eqn:Estep; [|discriminate].
    pose proof (_process_ring _ _ _ _ _ Estep) as Hview.
    cbn [reportsWritten] in Hroom. rewrite Estep in Hroom.
    unfold reachesDispatch in Hroom. cbv zeta in Hroom.
    destruct (accepted _ _ _ && negb _ && negb _).
    + unfold ringView, recordReport in Hview. cbn in Hview.
      injection Hview as Hring' Hptr'.
      apply (IH (S k) w' w2); try assumption.
      * rewrite Hring'. rewrite length_insert. exact Hlen.
      * rewrite Hring'. rewrite list_lookup_insert_ne; [exact Hat|].
        rewrite Hptr. apply pointer_away; lia.
      * rewrite Hptr', Hptr. rewrite Nat.Div0.add_mod_idemp_l.
        f_equal. lia.
      * lia.
    + unfold ringView in Hview. cbn in Hview.
      injection Hview as Hring' Hptr'.
      apply (IH k w' w2); try assumption.
      * now rewrite Hring'.
      * now rewrite Hring'.
      * now rewrite Hptr'.
Qed.

End Duplicates.

Section DuplicateWindow.

Context {D : Decls}.

(** C3, as amended.  Of two packets with the same (originalSourceAddr, id),
    the first of which got past the duplicate check, the second does not
    get past it when it comes within the age window and the report of the
    first has not been overwritten, that is, when the frames in between,
    however many they are, wrote fewer reports than the ring has slots:
    the first was reported at the write pointer, which moved on by one
    modulo the capacity; the report is still in the ring; the second is
    acknowledged if it asks for that and then dropped, before the
    forwarding and the local block. *)
Theorem duplicate_dropped_while_reported
    (w : World) (r1 r2 : Frame) (mids : list Frame) (w1 w2 : World) :
  length (_packetReport w) = _packetReportSlots ->
  (_packetReportPtr w < _packetReportSlots)%nat ->
  reachesDispatch r1 w = true ->
  processFrames [r1] w = Some w1 ->
  (reportsWritten mids w1 < _packetReportSlots)%nat ->
  processFrames mids w1 = Some w2 ->
  accepted (_config w2) (f_packet r2) (f_len r2) = true ->
  isAck (header (f_packet r2)) = false ->
  originalSourceAddr (header (f_packet r2))
  = originalSourceAddr (header (f_packet r1)) ->
  id (header (f_packet r2)) = id (header (f_packet r1)) ->
  wrap32 (f_time r2 - f_time r1) <= dedupWindowMs ->
  _packetReport w1 !! _packetReportPtr w
  = Some (mkPacketReport (originalSourceAddr (header (f_packet r1)))
            (id (header (f_packet r1))) (f_time r1))
  /\ _packetReportPtr w1 = ((_packetReportPtr w + 1) mod _packetReportSlots)%nat
  /\ reachesDispatch r2 w2 = false
  /\ exists w0,
       acknowledge (f_packet r2)
         (noted (f_rssi r2) (f_packet r2) (set_clock (f_time r2) w2))
       = Some (tt, w0)
       /\ _process (f_rssi r2) (f_packet r2) (f_len r2) (set_clock (f_time r2) w2)
          = Some (tt, set_logger
                        (logger w0 ++
                           if 0 <? getLogLevel (_config w2)
                           then [LStr "INF: Ignored duplicate from ";
                                 LNum (originalSourceAddr (header (f_packet r2)));
                                 LEndl]
                           else [])
                        w0).
Proof.
  intros Hlen Hptr Hreach Hfirst Hroom Hmids Hacc Hack Hsrc Hid Hage.
  set (rec := mkPacketReport (originalSourceAddr (header (f_packet r1)))
                (id (header (f_packet r1))) (f_time r1)).
  cbn [processFrames] in Hfirst.
  destruct (_process (f_rssi r1) (f_packet r1) (f_len r1) (set_clock (f_time r1) w))
    as [[[] w1']|] eqn:E1; [|discriminate].
  inversion Hfirst; subst w1'. clear Hfirst.
  pose proof (_process_ring _ _ _ _ _ E1) as Hview.
  unfold reachesDispatch in Hreach. cbv zeta in Hreach. rewrite Hreach in Hview.
  unfold ringView, recordReport in Hview. cbn in Hview.
  injection Hview as Hring1 Hptr1. fold rec in Hring1.
  assert (Hat : _packetReport w1 !! _packetReportPtr w = Some rec).
  { rewrite Hring1. apply list_lookup_insert_eq. now rewrite Hlen. }
  assert (Hlen1 : length (_packetReport w1) = _packetReportSlots).
  { rewrite Hring1. now rewrite length_insert. }
  destruct (report_survives rec (_packetReportPtr w) mids 0%nat w1 w2)
    as (Hat2 & Hlen2); try assumption.
  { now rewrite Nat.add_0_r. }
  assert (Hseen : seenRecently (f_packet r2) (set_clock (f_time r2) w2) = true).
  { unfold seenRecently.
    change (_packetReport (set_clock (f_time r2) w2)) with (_packetReport w2).
    change (_clock (set_clock (f_time r2) w2)) with (f_time r2).
    rewrite take_ge by (rewrite Hlen2; reflexivity).
    apply existsb_exists. exists rec. split.
    - apply list_elem_of_In. exact (list_elem_of_lookup_2 _ _ _ Hat2).
    - unfold isDuplicate, rec. cbn. rewrite Hsrc, Hid, !Z.eqb_refl. cbn.
      now apply Z.leb_le. }
  split; [exact Hat|]. split; [exact Hptr1|]. split.
  { unfold reachesDispatch. cbv zeta. rewrite Hseen. apply andb_false_r. }
  destruct (acknowledge_total (f_packet r2)
              (noted (f_rssi r2) (f_packet r2) (set_clock (f_time r2) w2)))
    as (w0 & E0).
  exists w0. split; [exact E0|].
  destruct (acknowledge_frame _ _ _ _ E0) as (_ & Hcfg & _).
  unfold _process. rewrite _process_data by assumption.
  rewrite (bind_Some _ _ _ _ _ E0).
  rewrite _process_checked_duplicate
    by (now rewrite (seenRecently_after_ack _ _ _ _ E0)).
  now rewrite Hcfg.
Qed.

End DuplicateWindow.

Lemma duplicate_dropped_while_reported_witness :
  exists w1 w2,
    processFrames (D := Reference.decls) [Reference.echo 10000] Reference.node1
    = Some w1
    /\ processFrames (D := Reference.decls)
         (take 7 Reference.eightPings ++ Reference.eightAcks) w1
       = Some w2
    /\ length (take 7 Reference.eightPings ++ Reference.eightAcks) = 15%nat
    /\ reportsWritten (D := Reference.decls)
         (take 7 Reference.eightPings ++ Reference.eightAcks) w1 = 7%nat
    /\ reachesDispatch (D := Reference.decls) (Reference.echo 10009) w2 = false.
Proof.
  eexists. eexists. split; [vm_compute; reflexivity|].
  split; [vm_compute; reflexivity|].
  split; [reflexivity|].
  split; [vm_compute; reflexivity|].
  refine (proj1 (proj2 (proj2
            (duplicate_dropped_while_reported (D := Reference.decls)
               Reference.node1 (Reference.echo 10000) (Reference.echo 10009)
               (take 7 Reference.eightPings ++ Reference.eightAcks)
               _ _ _ _ _ _ _ _ _ _ _ _ _)))).
  - reflexivity.
  - vm_compute. lia.
  - vm_compute. reflexivity.
  - vm_compute. reflexivity.
  - vm_compute. lia.
  - vm_compute. reflexivity.
  - vm_compute. reflexivity.
  - reflexivity.
  - reflexivity.
  - reflexivity.
  - vm_compute. discriminate.
Defined.

(** C3 as stated fails: once eight other packets have been reported, the
    ring has turned over the report of the first packet, and its repeat
    within the window is forwarded again. *)
Lemma duplicate_handled_after_full_turn :
  ~ (forall (w : World) (r1 r2 : Frame) (mids : list Frame) (w1 w2 : World),
       reachesDispatch (D := Reference.decls) r1 w = true ->
       processFrames (D := Reference.decls) [r1] w = Some w1 ->
       processFrames (D := Reference.decls) mids w1 = Some w2 ->
       accepted (D := Reference.decls) (_config w2) (f_packet r2) (f_len r2) = true ->
       isAck (header (f_packet r2)) = false ->
       originalSourceAddr (header (f_packet r2))
       = originalSourceAddr (header (f_packet r1)) ->
       id (header (f_packet r2)) = id (header (f_packet r1)) ->
       wrap32 (f_time r2 - f_time r1) <= dedupWindowMs (Decls := Reference.decls) ->
       reachesDispatch (D := Reference.decls) r2 w2 = false).
Proof.
  intros Hall.
  eassert (E1 : processFrames (D := Reference.decls) [Reference.echo 10000]
                  Reference.node1 = Some _) by (vm_compute; reflexivity).
  match type of E1 with
  | _ = Some ?w1 =>
      eassert (E2 : processFrames (D := Reference.decls) Reference.eightPings w1
                    = Some _) by (vm_compute; reflexivity)
  end.
  assert (Hreach : reachesDispatch (D := Reference.decls) (Reference.echo 10000)
                     Reference.node1 = true) by (vm_compute; reflexivity).
  assert (Hage : wrap32 (10009 - 10000) <= dedupWindowMs (Decls := Reference.decls))
    by (vm_compute; discriminate).
  pose proof (Hall _ (Reference.echo 10000) (Reference.echo 10009) _ _ _
                Hreach E1 E2 eq_refl eq_refl eq_refl eq_refl Hage) as Hdropped.
  vm_compute in Hdropped. discriminate Hdropped.
Qed.

(** The same run seen from the TX buffer: the packet of node 2 for node 7
    leaves the node twice, under two fresh ids. *)
Example echo_forwarded_twice :
  exists w',
    processFrames (D := Reference.decls)
      (Reference.echo 10000 :: Reference.eightPings ++ [Reference.echo 10009])
      Reference.node1 = Some w'
    /\ map (fun r => (id (header (rec_packet r)),
                      originalSourceAddr (header (rec_packet r)),
                      finalDestAddr (header (rec_packet r)),
                      payload (rec_packet r)))
         (cb_records (_txBuffer w'))
       = [(1, 2, 7, [72; 105]); (2, 2, 7, [72; 105])].
Proof. eexists. split; vm_compute; reflexivity. Qed.

(** * Further properties *)

(** ** Identifiers in sequence *)

Lemma uniqueIds_lookup (n : nat) :
  forall (w : World) (k : nat),
    0 <= _idCounter w < 65536 ->
    (k < n)%nat ->
    fst (uniqueIds n w) !! k = Some (wrap16 (_idCounter w + Z.of_nat k)).
Proof.
  induction n as [|n IH]; intros w k Hrange Hk; [lia|].
  cbn [uniqueIds]. unfold getUniqueId at 1.
  destruct (uniqueIds n (set_idCounter (wrapIdCounter (_idCounter w + 1)) w))
    as [l w''] eqn:Erest.
  destruct k as [|k]; cbn.
  - f_equal. unfold wrap16. rewrite Z.add_0_r. symmetry. apply Z.mod_small. lia.
  - change l with (fst (l, w'')). rewrite <- Erest.
    rewrite IH; [|cbn; unfold wrapIdCounter, wrap16; apply Z.mod_pos_bound; lia|lia].
    f_equal. cbn. unfold wrapIdCounter, wrap16.
    rewrite Zplus_mod_idemp_l. f_equal. lia.
Qed.

Lemma wrap16_apart (c i j : Z) :
  0 <= i < 65536 -> 0 <= j < 65536 ->
  wrap16 (c + i) = wrap16 (c + j) -> i = j.
Proof.
  unfold wrap16. intros Hi Hj Heq.
  pose proof (Z.div_mod (c + i) 65536 ltac:(lia)) as Ei.
  pose proof (Z.div_mod (c + j) 65536 ltac:(lia)) as Ej.
  rewrite Heq in Ei. lia.
Qed.

(** X1.  Calls of [getUniqueId] in a row count up from the counter modulo
    65536, so that any two of up to 65536 consecutive calls return
    different identifiers. *)
Theorem uniqueIds_distinct (w : World) (n i j : nat) :
  0 <= _idCounter w < 65536 ->
  Z.of_nat n <= 65536 ->
  (i < j < n)%nat ->
  exists a b,
    fst (uniqueIds n w) !! i = Some a
    /\ fst (uniqueIds n w) !! j = Some b
    /\ a = wrap16 (_idCounter w + Z.of_nat i)
    /\ b = wrap16 (_idCounter w + Z.of_nat j)
    /\ a <> b.
Proof.
  intros Hrange Hn Hij.
  exists (wrap16 (_idCounter w + Z.of_nat i)), (wrap16 (_idCounter w + Z.of_nat j)).
  split; [apply uniqueIds_lookup; [assumption | lia]|].
  split; [apply uniqueIds_lookup; [assumption | lia]|].
  split; [reflexivity|]. split; [reflexivity|].
  intros Heq. apply wrap16_apart in Heq; lia.
Qed.

Lemma uniqueIds_distinct_witness :
  exists a b,
    fst (uniqueIds 4 (set_idCounter 65534 Reference.node1)) !! 1%nat = Some a
    /\ fst (uniqueIds 4 (set_idCounter 65534 Reference.node1)) !! 3%nat = Some b
    /\ a = 65535 /\ b = 1.
Proof.
  destruct (uniqueIds_distinct (set_idCounter 65534 Reference.node1) 4 1 3)
    as (a & b & Ea & Eb & -> & -> & _).
  - cbn. lia.
  - lia.
  - lia.
  - eexists. eexists. split; [exact Ea|]. split; [exact Eb|]. split; reflexivity.
Defined.

(** ** Time since the last reception *)

(** X2.  [getSecondsSinceLastRx] is the full seconds between the last
    reception and now, also when the 32-bit millisecond clock has wrapped
    in between; with the clock of the unit test, [advanceSeconds s] after a
    reception makes it [s]. *)
Theorem getSecondsSinceLastRx_wraps (w : World) (d s : Z) :
  0 <= _lastRxTime w < 4294967296 ->
  (0 <= d < 4294967296 ->
   getSecondsSinceLastRx (set_clock (wrap32 (_lastRxTime w + d)) w) = d / 1000)
  /\ (0 <= s <= 4294967 ->
      getSecondsSinceLastRx (set_clock (advanceSeconds s (_lastRxTime w)) w) = s).
Proof.
  intros Hlast.
  assert (Hgap : forall d, 0 <= d < 4294967296 ->
            wrap32 (wrap32 (_lastRxTime w + d) - _lastRxTime w) = d).
  { intros e He. unfold wrap32. rewrite Zminus_mod_idemp_l.
    replace (_lastRxTime w + e - _lastRxTime w) with e by lia.
    apply Z.mod_small. lia. }
  split.
  - intros Hd. unfold getSecondsSinceLastRx.
    change (_clock (set_clock ?t w)) with t.
    change (_lastRxTime (set_clock ?t w)) with (_lastRxTime w).
    now rewrite Hgap.
  - intros Hs. unfold getSecondsSinceLastRx, advanceSeconds.
    change (_clock (set_clock ?t w)) with t.
    change (_lastRxTime (set_clock ?t w)) with (_lastRxTime w).
    assert (Hms : wrap32 (s * 1000) = s * 1000).
    { unfold wrap32. apply Z.mod_small. lia. }
    rewrite Hms, Hgap by lia. apply Z.div_mul. lia.
Qed.

Lemma getSecondsSinceLastRx_wraps_witness :
  getSecondsSinceLastRx
    (set_clock (advanceSeconds 90 4294960000)
       (set_lastRxTime 4294960000 Reference.node1)) = 90.
Proof.
  refine (proj2 (getSecondsSinceLastRx_wraps
                   (set_lastRxTime 4294960000 Reference.node1) 0 90 _) _).
  - cbn. lia.
  - lia.
Defined.

(** ** The loop of the pump *)

Section PumpReturns.

Context {D : Decls}.

Variable opmPump :
  Z -> OutboundPacketManager -> CircularBuffer
  -> OutboundPacketManager * CircularBuffer.

Lemma drainRx_empty (fuel : nat) :
  forall w w', drainRx fuel w = Returned w' -> rxRecords w' = [].
Proof.
  induction fuel as [|fuel IH]; intros w w' E; [discriminate|].
  cbn [drainRx] in E. unfold popIfNotEmpty in E.
  destruct (cb_records (_rxBuffer w)) as [|r rest] eqn:Erx.
  - inversion E; subst w'. exact Erx.
  - destruct (_process _ _ _ _) as [[[] w1]|]; [|discriminate].
    exact (IH _ _ E).
Qed.

(** X3.  [pump] returns only when the RX buffer is empty: whatever the
    frames were and whatever they put back into the buffer, none is left
    when the outbound manager is pumped and the call ends. *)
Theorem pump_returns_drained (fuel : nat) (w w' : World) :
  pump opmPump fuel w = Returned w' ->
  rxRecords w' = []
  /\ exists w1,
       drainRx fuel w = Returned w1
       /\ rxRecords w1 = []
       /\ (_opm w', _txBuffer w') = opmPump (_clock w1) (_opm w1) (_txBuffer w1).
Proof.
  unfold pump. intros E.
  destruct (drainRx fuel w) as [w1| |] eqn:Edrain; try discriminate.
  pose proof (drainRx_empty _ _ _ Edrain) as Hempty.
  destruct (opmPump (_clock w1) (_opm w1) (_txBuffer w1)) as [o tx] eqn:Epump.
  inversion E; subst w'. split; [exact Hempty|].
  exists w1. split; [reflexivity|]. split; [exact Hempty|].
  rewrite Epump. reflexivity.
Qed.

End PumpReturns.

Lemma pump_returns_drained_witness :
  exists w',
    pump (D := Reference.decls) Reference.idlePump 3 Reference.node1_inbox
    = Returned w'
    /\ rxRecords w' = [].
Proof.
  eexists. split; [vm_compute; reflexivity|].
  refine (proj1 (pump_returns_drained (D := Reference.decls) Reference.idlePump 3
                   Reference.node1_inbox _ _)).
  vm_compute. reflexivity.
Defined.

(** ** Frames that are not handled *)

Section NotHandled.

Context {D : Decls}.

(** X4.  A frame shorter than a header, or of another protocol version, is
    counted once in [_badRxPacketCounter] and reported as "ERR: Bad
    message"; nothing else happens: it is not counted as received, gets no
    ACK even if it asks for one, and leaves the ring and the queues alone. *)
Theorem malformed_counted (w : World) (rssi : Z) (p : Packet) (len : Z) :
  len < sizeofHeader \/ getPacketVersion (header p) <> PACKET_VERSION ->
  exists w',
    _process rssi p len w = Some (tt, w')
    /\ w' = set_logger (logger w ++ [LStr msg_bad_message; LEndl])
              (set_badRxPacketCounter (wrap16 (_badRxPacketCounter w + 1)) w)
    /\ getBadRxPacketCounter w' = wrap16 (getBadRxPacketCounter w + 1)
    /\ _rxPacketCounter w' = _rxPacketCounter w
    /\ _lastRxTime w' = _lastRxTime w
    /\ ringView w' = ringView w
    /\ queuedPackets w' = queuedPackets w.
Proof.
  intros Hbad. eexists. split.
  - unfold _process. exact (_process_malformed _ _ _ _ _ Hbad).
  - repeat split.
Qed.

(** X5.  An accepted frame with the ACK bit is counted as received and
    handed to [processAck]; it is itself never acknowledged, reported in
    the ring, forwarded or dispatched, whatever its other fields say. *)
Theorem ack_consumed (w : World) (rssi : Z) (p : Packet) (len : Z) :
  accepted (_config w) p len = true ->
  isAck (header p) = true ->
  exists w',
    _process rssi p len w = Some (tt, w')
    /\ w' = set_opm (processAck p (_opm w)) (_txBuffer w) (noted rssi p w)
    /\ _opm w' = processAck p (_opm w)
    /\ txRecords w' = txRecords w
    /\ rxRecords w' = rxRecords w
    /\ ringView w' = ringView w
    /\ _idCounter w' = _idCounter w
    /\ _routingTable w' = _routingTable w
    /\ _instrumentation w' = _instrumentation w
    /\ _rxPacketCounter w' = wrap16 (_rxPacketCounter w + 1).
Proof.
  intros Hacc Hack. eexists. split.
  - unfold _process. rewrite (_process_accepted _ _ _ _ _ Hacc).
    rewrite (bind_Some _ _ _ _ _ (noteReception_eq rssi p w)), Hack.
    reflexivity.
  - repeat split.
Qed.

End NotHandled.

Lemma malformed_counted_witness :
  exists w',
    _process (D := Reference.decls) 0 Reference.strayPacket 28 Reference.node1
    = Some (tt, w')
    /\ getBadRxPacketCounter w' = 1.
Proof.
  destruct (malformed_counted (D := Reference.decls) Reference.node1 0
              Reference.strayPacket 28)
    as (w' & Hrun & _ & Hbad & _).
  - right. vm_compute. discriminate.
  - exists w'. split; [exact Hrun | exact Hbad].
Defined.

Lemma ack_consumed_witness :
  exists w',
    _process (D := Reference.decls) 0 Reference.ackFrom3 28 Reference.node1_busy
    = Some (tt, w')
    /\ getPendingCount (_opm Reference.node1_busy) = 8%nat
    /\ getPendingCount (_opm w') = 7%nat.
Proof.
  destruct (ack_consumed (D := Reference.decls) Reference.node1_busy 0
              Reference.ackFrom3 28 eq_refl eq_refl)
    as (w' & Hrun & _ & Hopm & _).
  exists w'. split; [exact Hrun|]. split; [reflexivity|].
  rewrite Hopm. reflexivity.
Defined.

(** ** The time of the last reception *)

Section Reception.

Context {D : Decls}.

Lemma preserves_times_checked (rssi : Z) (p : Packet) (len : Z) :
  preserves timesView (_process_checked secondReset rssi p len).
Proof.
  unfold _process_checked, _process_forward, _process_local_with, handleReset,
    secondReset.
  frame.
Qed.

(** X6.  When [_process] has handled a frame, [_lastRxTime] is the clock if
    the frame was accepted (long enough, right version, for this node or
    for all), so that [getSecondsSinceLastRx] is zero, whatever became of
    the frame afterwards; a frame that was not accepted leaves
    [_lastRxTime] and [_rxPacketCounter] as they were. *)
Theorem reception_noted (w w' : World) (rssi : Z) (p : Packet) (len : Z) :
  _process rssi p len w = Some (tt, w') ->
  (accepted (_config w) p len = true ->
   _lastRxTime w' = _clock w /\ getSecondsSinceLastRx w' = 0)
  /\ (accepted (_config w) p len = false ->
      _lastRxTime w' = _lastRxTime w /\ _rxPacketCounter w' = _rxPacketCounter w).
Proof.
  intros E. split; intros Hacc.
  - assert (Htimes : timesView w' = timesView (noted rssi p w)).
    { unfold _process in E. rewrite (_process_accepted _ _ _ _ _ Hacc) in E.
      rewrite (bind_Some _ _ _ _ _ (noteReception_eq rssi p w)) in E.
      eapply preserves_apply; [|exact E].
      destruct (isAck (header p)).
      - frame.
      - apply preserves_bind; [|intros ?; apply preserves_times_checked].
        apply preserves_acknowledge; view_side. }
    injection Htimes as Hlast Hclock. split; [exact Hlast|].
    unfold getSecondsSinceLastRx. rewrite Hlast, Hclock, Z.sub_diag. reflexivity.
  - revert E. unfold _process, _process_with. unfold accepted in Hacc.
    destruct (len <? sizeofHeader).
    { intros E. split; (eapply preserves_apply; [|exact E]); frame. }
    destruct (getPacketVersion (header p) =? PACKET_VERSION); cbn [negb].
    2: { intros E. split; (eapply preserves_apply; [|exact E]); frame. }
    cbn [negb andb] in Hacc.
    apply orb_false_elim in Hacc as [Hbc Hself].
    unfold mbind at 1, M_bind at 1, gets at 1. rewrite Hbc, Hself. cbn [negb andb].
    intros E. split; (eapply preserves_apply; [|exact E]); frame.
Qed.

End Reception.

Lemma reception_noted_witness :
  exists w',
    _process (D := Reference.decls) 0 Reference.pong 28
      (set_clock 25000 Reference.node1) = Some (tt, w')
    /\ _lastRxTime w' = 25000
    /\ getSecondsSinceLastRx w' = 0.
Proof.
  eexists. split; [vm_compute; reflexivity|].
  refine (proj1 (reception_noted (D := Reference.decls)
                   (set_clock 25000 Reference.node1) _ 0 Reference.pong 28 _) _).
  - vm_compute. reflexivity.
  - reflexivity.
Defined.

(** ** Writes to the duplicate ring *)

Section RingWrites.

Context {D : Decls}.

(** X7.  [_process] writes the duplicate ring for one kind of frame only:
    an accepted packet without the ACK bit that was not seen recently is
    reported at the write pointer with the clock as its stamp, and the
    pointer moves on by one modulo the capacity.  Every other frame that
    [_process] handles (malformed, overheard, ACK, duplicate) leaves ring
    and pointer as they were; in particular a duplicate does not renew the
    stamp of the report it matches. *)
Theorem ring_written_for_fresh_data (w w' : World) (rssi : Z) (p : Packet) (len : Z) :
  _process rssi p len w = Some (tt, w') ->
  let fresh :=
    accepted (_config w) p len && negb (isAck (header p))
    && negb (seenRecently p w) in
  (fresh = true ->
   _packetReport w'
   = <[_packetReportPtr w :=
         mkPacketReport (originalSourceAddr (header p)) (id (header p)) (_clock w)]>
       (_packetReport w)
   /\ _packetReportPtr w' = ((_packetReportPtr w + 1) mod _packetReportSlots)%nat)
  /\ (fresh = false ->
      _packetReport w' = _packetReport w
      /\ _packetReportPtr w' = _packetReportPtr w).
Proof.
  intros E fresh. pose proof (_process_ring _ _ _ _ _ E) as Hview.
  fold fresh in Hview. unfold ringView, recordReport in Hview. cbn in Hview.
  split; intros Hfresh; rewrite Hfresh in Hview;
    injection Hview as Hring Hptr; now split.
Qed.

(** X8.  Over any sequence of frames the ring keeps its size and the write
    pointer stays inside it. *)
Theorem ring_shape_kept (frames : list Frame) :
  forall w w' : World,
    length (_packetReport w) = _packetReportSlots ->
    (_packetReportPtr w < _packetReportSlots)%nat ->
    processFrames frames w = Some w' ->
    length (_packetReport w') = _packetReportSlots
    /\ (_packetReportPtr w' < _packetReportSlots)%nat.
Proof.
  induction frames as [|f rest IH]; intros w w' Hlen Hptr Hrun.
  - cbn in Hrun. inversion Hrun; subst w'. now split.
  - cbn [processFrames] in Hrun.
    destruct (_process (f_rssi f) (f_packet f) (f_len f) (set_clock (f_time f) w))
      as [[[] w1]|] eqn:Estep; [|discriminate].
    pose proof (_process_ring _ _ _ _ _ Estep) as Hview.
    apply (IH w1 w' ); [| |exact Hrun];
      destruct (accepted _ _ _ && negb _ && negb _);
      unfold ringView, recordReport in Hview; cbn in Hview;
      injection Hview as Hring Hptr'.
    + rewrite Hring, length_insert. exact Hlen.
    + now rewrite Hring.
    + rewrite Hptr'. apply Nat.mod_upper_bound. lia.
    + now rewrite Hptr'.
Qed.

End RingWrites.

Lemma ring_written_for_fresh_data_witness :
  exists w',
    _process (D := Reference.decls) 0 Reference.pong 28 Reference.node1
    = Some (tt, w')
    /\ _packetReport w' !! 0%nat = Some (mkPacketReport 2 100 10000)
    /\ _packetReportPtr w' = 1%nat.
Proof.
  eexists. split; [vm_compute; reflexivity|].
  destruct (proj1 (ring_written_for_fresh_data (D := Reference.decls)
                     Reference.node1 _ 0 Reference.pong 28
                     ltac:(vm_compute; reflexivity)) eq_refl)
    as [Hring Hptr].
  split; [rewrite Hring; reflexivity | rewrite Hptr; reflexivity].
Defined.

Lemma ring_shape_kept_witness :
  exists w',
    processFrames (D := Reference.decls)
      (Reference.echo 10000 :: Reference.eightPings) Reference.node1 = Some w'
    /\ length (_packetReport w') = 8%nat
    /\ (_packetReportPtr w' < 8)%nat.
Proof.
  eexists. split; [vm_compute; reflexivity|].
  refine (ring_shape_kept (D := Reference.decls)
            (Reference.echo 10000 :: Reference.eightPings)
            Reference.node1 _ _ _ _).
  - reflexivity.
  - vm_compute. lia.
  - vm_compute. reflexivity.
Defined.

(** ** Requests and their answers *)

Section Requests.

Context {D : Decls}.

(** What the local block finds when it is entered: the world [w1] after the
    reception was noted, the ACK handed over and the packet reported. *)
Lemma local_entry (rssi : Z) (p : Packet) (len : Z) (w : World) :
  handledLocally p len w = true ->
  exists w0,
    acknowledge p (noted rssi p w) = Some (tt, w0)
    /\ (forall arm,
          _process_with arm rssi p len w
          = _process_local_with arm rssi p len (recordReport p w0))
    /\ _routingTable (recordReport p w0) = _routingTable w
    /\ _config (recordReport p w0) = _config w
    /\ _idCounter (recordReport p w0) = _idCounter w
    /\ _badRouteCounter (recordReport p w0) = _badRouteCounter w
    /\ _badRxPacketCounter (recordReport p w0) = _badRxPacketCounter w
    /\ _instrumentation (recordReport p w0) = _instrumentation w
    /\ _clock (recordReport p w0) = _clock w
    /\ _rxPacketCounter (recordReport p w0) = wrap16 (_rxPacketCounter w + 1)
    /\ _startTime (recordReport p w0) = _startTime w.
Proof.
  unfold handledLocally. intros Hloc.
  apply andb_prop in Hloc as [Hloc Hfd].
  apply andb_prop in Hloc as [Hloc Hfresh].
  apply andb_prop in Hloc as [Hacc Hack].
  apply negb_true_iff in Hfresh. apply negb_true_iff in Hack.
  apply Z.eqb_eq in Hfd.
  destruct (acknowledge_total p (noted rssi p w)) as (w0 & E0).
  destruct (acknowledge_frame _ _ _ _ E0)
    as (Hrt & Hcfg & Hid & Hbr & Hbx & Hins & Hclock & _).
  pose proof (preserves_acknowledge _rxPacketCounter p
                ltac:(view_side) ltac:(view_side) _ _ _ E0) as Hrx.
  pose proof (preserves_acknowledge _startTime p
                ltac:(view_side) ltac:(view_side) _ _ _ E0) as Hstart.
  exists w0. split; [exact E0|]. split.
  { intros arm. exact (_process_to_local _ _ _ _ _ _ Hacc Hack Hfresh Hfd E0). }
  repeat split; assumption.
Qed.

(** The tail that the three answering handlers share: take an identifier,
    hand the answer over, complain if it was refused. *)
Lemma answer_eq (resp : Z -> Packet) (n : Z) (w1 : World) :
  (uid ← getUniqueId;
   good ← transmitIfPossible (resp uid) n;
   when (negb good) (println "ERR: Full, no resp")) w1
  = match transmitIfPossible (resp (_idCounter w1)) n
            (set_idCounter (wrapIdCounter (_idCounter w1 + 1)) w1) with
    | Some (good, w2) =>
        Some (tt, if good then w2
                  else set_logger (logger w2 ++ [LStr "ERR: Full, no resp"; LEndl]) w2)
    | None => None
    end.
Proof.
  unfold mbind at 1, M_bind at 1, getUniqueId at 1.
  unfold mbind at 1, M_bind at 1.
  destruct (transmitIfPossible _ _ _) as [[[] w2]|]; reflexivity.
Qed.

(** X9.  A request that is owed an answer but whose origin has no route
    back is counted in [_badRouteCounter] and reported; no answer is
    built, no identifier is used up and nothing is queued for it. *)
Theorem no_route_back (w : World) (rssi : Z) (p : Packet) (len : Z) :
  handledLocally p len w = true ->
  routeBackMissing p w = true ->
  exists w0,
    acknowledge p (noted rssi p w) = Some (tt, w0)
    /\ let w1 := recordReport p w0 in
       _process rssi p len w
       = Some (tt, set_logger
                     (logger w1 ++
                        [LStr "ERR: No route to ";
                         LNum (getOriginalSourceAddr (header p)); LEndl])
                     (set_badRouteCounter (wrap16 (_badRouteCounter w + 1)) w1))
       /\ _idCounter w1 = _idCounter w
       /\ queuedPackets w1 = queuedPackets w0.
Proof.
  intros Hloc Hmiss.
  destruct (local_entry rssi p len w Hloc)
    as (w0 & E0 & Hrun & Hrt & Hcfg & Hid & Hbr & _).
  exists w0. split; [exact E0|]. cbv zeta.
  split; [|split; [exact Hid | reflexivity]].
  unfold _process. rewrite Hrun. unfold _process_local_with. cbv zeta.
  unfold mbind at 1, M_bind at 1, gets at 1.
  unfold mbind at 1, M_bind at 1, gets at 1.
  unfold routeBackMissing in Hmiss. rewrite Hrt, Hmiss, <- Hbr.
  destruct w0. run. now rewrite <- !app_assoc.
Qed.

(** X10.  A PING_REQ with a route back is answered with one packet: the
    header that [setupResponseFor] builds for TYPE_PING_RESP from the next
    unique identifier and the first hop towards the origin, sent with the
    length of a bare header.  The identifier counter moves on by one, and a
    refused answer is reported as "ERR: Full, no resp". *)
Theorem ping_answered (w : World) (rssi : Z) (p : Packet) (len : Z) :
  handledLocally p len w = true ->
  routeBackMissing p w = false ->
  getType (header p) = TYPE_PING_REQ ->
  exists w0 good w2,
    acknowledge p (noted rssi p w) = Some (tt, w0)
    /\ let firstHop :=
         nextHop (_routingTable w) (getOriginalSourceAddr (header p)) in
       let resp :=
         mkPacket
           (setupResponseFor (header p) (_config w) TYPE_PING_RESP
              (_idCounter w) firstHop) [] in
       transmitIfPossible resp sizeofHeader
         (set_idCounter (wrapIdCounter (_idCounter w + 1)) (recordReport p w0))
       = Some (good, w2)
       /\ (good = true -> In resp (queuedPackets w2))
       /\ _process rssi p len w
          = Some (tt, if good then w2
                      else set_logger
                             (logger w2 ++ [LStr "ERR: Full, no resp"; LEndl]) w2).
Proof.
  intros Hloc Hback Hty.
  destruct (local_entry rssi p len w Hloc)
    as (w0 & E0 & Hrun & Hrt & Hcfg & Hid & _).
  exists w0.
  unfold _process. rewrite Hrun. unfold _process_local_with. cbv zeta.
  unfold mbind at 1, M_bind at 1, gets at 1.
  unfold mbind at 1, M_bind at 1, gets at 1.
  unfold routeBackMissing in Hback. rewrite Hrt, Hcfg, Hback, Hty.
  decide_types.
  rewrite (answer_eq
             (fun uid => mkPacket
                (setupResponseFor (header p) (_config w) TYPE_PING_RESP uid
                   (nextHop (_routingTable w) (getOriginalSourceAddr (header p)))) [])).
  rewrite Hid.
  match goal with
  | |- context [transmitIfPossible ?o ?n ?s] =>
      destruct (transmitIfPossible_total o n s) as (good & w2 & Etx)
  end.
  exists good, w2. split; [exact E0|]. cbv zeta.
  split; [exact Etx|].
  split; [intros ->; exact (transmitIfPossible_queued _ _ _ _ Etx)|].
  now rewrite Etx.
Qed.

End Requests.

Section Snapshots.

Context {D : Decls}.

(** X11.  A GETSED_REQ with a route back is answered with the engineering
    data of the moment: the readings of the instrumentation, the uptime in
    full seconds since [_startTime], the clock, the boot and sleep counts
    of the configuration, the RSSI of this very request as [lastHopRssi],
    and the three diagnostic counters, [rxPacketCount] already counting the
    request itself. *)
Theorem sed_answered (w : World) (rssi : Z) (p : Packet) (len : Z) :
  handledLocally p len w = true ->
  routeBackMissing p w = false ->
  getType (header p) = TYPE_GETSED_REQ ->
  exists w0 good w2,
    acknowledge p (noted rssi p w) = Some (tt, w0)
    /\ let firstHop :=
         nextHop (_routingTable w) (getOriginalSourceAddr (header p)) in
       let ins := _instrumentation w in
       let cfg := _config w in
       let data :=
         mkSadResp (getSoftwareVersion ins) (getBatteryVoltage ins)
           (getPanelVoltage ins) (wrap32 (_clock w - _startTime w) / 1000)
           (_clock w) (getBootCount cfg) (getSleepCount cfg) rssi
           (getTemperature ins) (getHumidity ins)
           (getDeviceClass ins) (getDeviceRevision ins)
           (wrap16 (_rxPacketCounter w + 1)) (_badRxPacketCounter w)
           (_badRouteCounter w) in
       let resp :=
         mkPacket
           (setupResponseFor (header p) cfg TYPE_GETSED_RESP (_idCounter w) firstHop)
           (writeSadResp data) in
       transmitIfPossible resp (sizeofHeader + sizeofSadRespPayload)
         (set_idCounter (wrapIdCounter (_idCounter w + 1)) (recordReport p w0))
       = Some (good, w2)
       /\ (good = true -> In resp (queuedPackets w2))
       /\ _process rssi p len w
          = Some (tt, if good then w2
                      else set_logger
                             (logger w2 ++ [LStr "ERR: Full, no resp"; LEndl]) w2).
Proof.
  intros Hloc Hback Hty.
  destruct (local_entry rssi p len w Hloc)
    as (w0 & E0 & Hrun & Hrt & Hcfg & Hid & Hbr & Hbx & Hins & Hclock & Hrx & Hstart).
  exists w0.
  unfold _process. rewrite Hrun. unfold _process_local_with. cbv zeta.
  unfold mbind at 1, M_bind at 1, gets at 1.
  unfold mbind at 1, M_bind at 1, gets at 1.
  unfold routeBackMissing in Hback. rewrite Hrt, Hcfg, Hback, Hty.
  decide_types.
  unfold mbind at 1, M_bind at 1, getUniqueId at 1.
  unfold mbind at 1, M_bind at 1, gets at 1.
  unfold mbind at 1, M_bind at 1, gets at 1.
  unfold mbind at 1, M_bind at 1, gets at 1.
  change (_clock (set_idCounter ?v ?x)) with (_clock x).
  change (_instrumentation (set_idCounter ?v ?x)) with (_instrumentation x).
  change (_startTime (set_idCounter ?v ?x)) with (_startTime x).
  change (_rxPacketCounter (set_idCounter ?v ?x)) with (_rxPacketCounter x).
  change (_badRxPacketCounter (set_idCounter ?v ?x)) with (_badRxPacketCounter x).
  change (_badRouteCounter (set_idCounter ?v ?x)) with (_badRouteCounter x).
  rewrite Hid, Hbr, Hbx, Hins, Hclock, Hrx, Hstart.
  match goal with
  | |- context [transmitIfPossible ?o ?n ?s] =>
      destruct (transmitIfPossible_total o n s) as (good & w2 & Etx)
  end.
  exists good, w2. split; [exact E0|]. cbv zeta.
  split; [exact Etx|].
  split; [intros ->; exact (transmitIfPossible_queued _ _ _ _ Etx)|].
  unfold mbind at 1, M_bind at 1. rewrite Etx.
  destruct good; reflexivity.
Qed.

(** X12.  A GETROUTE_REQ that is long enough and has a route back is
    answered with the entry of the routing table for the address it asks
    about, next to that address, and with both packet counts zero. *)
Theorem route_answered (w : World) (rssi : Z) (p : Packet) (len : Z) :
  handledLocally p len w = true ->
  routeBackMissing p w = false ->
  getType (header p) = TYPE_GETROUTE_REQ ->
  sizeofHeader + sizeofGetRouteReqPayload <= len ->
  exists w0 good w2,
    acknowledge p (noted rssi p w) = Some (tt, w0)
    /\ let firstHop :=
         nextHop (_routingTable w) (getOriginalSourceAddr (header p)) in
       let asked := getroute_targetAddr (readGetRouteReq (payload p)) in
       let resp :=
         mkPacket
           (setupResponseFor (header p) (_config w) TYPE_GETROUTE_RESP
              (_idCounter w) firstHop)
           (writeGetRouteResp
              (mkGetRouteResp asked (nextHop (_routingTable w) asked) 0 0)) in
       transmitIfPossible resp (sizeofHeader + sizeofGetRouteRespPayload)
         (set_idCounter (wrapIdCounter (_idCounter w + 1)) (recordReport p w0))
       = Some (good, w2)
       /\ (good = true -> In resp (queuedPackets w2))
       /\ _process rssi p len w
          = Some (tt, if good then w2
                      else set_logger
                             (logger w2 ++ [LStr "ERR: Full, no resp"; LEndl]) w2).
Proof.
  intros Hloc Hback Hty Hlen.
  destruct (local_entry rssi p len w Hloc)
    as (w0 & E0 & Hrun & Hrt & Hcfg & Hid & _).
  exists w0.
  unfold _process. rewrite Hrun. unfold _process_local_with. cbv zeta.
  unfold mbind at 1, M_bind at 1, gets at 1.
  unfold mbind at 1, M_bind at 1, gets at 1.
  unfold routeBackMissing in Hback. rewrite Hrt, Hcfg, Hback, Hty.
  decide_types. cbn [orb].
  apply Z.ltb_ge in Hlen. rewrite Hlen.
  rewrite (answer_eq
             (fun uid => mkPacket
                (setupResponseFor (header p) (_config w) TYPE_GETROUTE_RESP uid
                   (nextHop (_routingTable w) (getOriginalSourceAddr (header p))))
                (writeGetRouteResp
                   (mkGetRouteResp
                      (getroute_targetAddr (readGetRouteReq (payload p)))
                      (nextHop (_routingTable w)
                         (getroute_targetAddr (readGetRouteReq (payload p))))
                      0 0)))).
  rewrite Hid.
  match goal with
  | |- context [transmitIfPossible ?o ?n ?s] =>
      destruct (transmitIfPossible_total o n s) as (good & w2 & Etx)
  end.
  exists good, w2. split; [exact E0|]. cbv zeta.
  split; [exact Etx|].
  split; [intros ->; exact (transmitIfPossible_queued _ _ _ _ Etx)|].
  now rewrite Etx.
Qed.

End Snapshots.

Lemma no_route_back_witness :
  exists w',
    _process (D := Reference.decls) 0 Reference.pingFrom9 28 Reference.node1
    = Some (tt, w')
    /\ getBadRouteCounter w' = 1
    /\ queuedPackets w' = [].
Proof.
  destruct (no_route_back (D := Reference.decls) Reference.node1 0
              Reference.pingFrom9 28 eq_refl eq_refl)
    as (w0 & E0 & Hrun & _).
  vm_compute in E0. inversion E0; subst w0. clear E0.
  eexists. split; [exact Hrun|]. split; reflexivity.
Defined.

Lemma ping_answered_witness :
  exists (good : bool) (w2 : World),
    _process (D := Reference.decls) 0 (Reference.request TYPE_PING_REQ []) 28
      Reference.node1
    = Some (tt, if good then w2
                else set_logger (logger w2 ++ [LStr "ERR: Full, no resp"; LEndl]) w2).
Proof.
  destruct (ping_answered (D := Reference.decls) Reference.node1 0
              (Reference.request TYPE_PING_REQ []) 28 eq_refl eq_refl eq_refl)
    as (w0 & good & w2 & _ & _ & _ & Hrun).
  exists good, w2. exact Hrun.
Defined.

Lemma sed_answered_witness :
  exists (good : bool) (w2 : World),
    _process (D := Reference.decls) (-70) (Reference.request TYPE_GETSED_REQ []) 28
      Reference.node1
    = Some (tt, if good then w2
                else set_logger (logger w2 ++ [LStr "ERR: Full, no resp"; LEndl]) w2).
Proof.
  destruct (sed_answered (D := Reference.decls) Reference.node1 (-70)
              (Reference.request TYPE_GETSED_REQ []) 28 eq_refl eq_refl eq_refl)
    as (w0 & good & w2 & _ & _ & _ & Hrun).
  exists good, w2. exact Hrun.
Defined.

Lemma route_answered_witness :
  exists (good : bool) (w2 : World),
    _process (D := Reference.decls) 0
      (Reference.request TYPE_GETROUTE_REQ (Reference.bytes16 7)) 30
      Reference.node1
    = Some (tt, if good then w2
                else set_logger (logger w2 ++ [LStr "ERR: Full, no resp"; LEndl]) w2).
Proof.
  destruct (route_answered (D := Reference.decls) Reference.node1 0
              (Reference.request TYPE_GETROUTE_REQ (Reference.bytes16 7)) 30
              eq_refl eq_refl eq_refl)
    as (w0 & good & w2 & _ & _ & _ & Hrun).
  - vm_compute. discriminate.
  - exists good, w2. exact Hrun.
Defined.

(** ** The routing table *)

Section Table.

Context {D : Decls}.

Lemma setRoute_inside (t : RoutingTable) (target nh : nodeaddr_t) :
  0 <= target < Z.of_nat (length t) ->
  setRoute target nh t = Some (<[Z.to_nat target := nh]> t).
Proof.
  intros Hrange. unfold setRoute.
  rewrite (proj2 (Z.leb_le _ _)) by lia.
  rewrite (proj2 (Z.ltb_lt _ _)) by lia.
  reflexivity.
Qed.

Lemma setRoute_Some (t t' : RoutingTable) (target nh : nodeaddr_t) :
  setRoute target nh t = Some t' ->
  0 <= target < Z.of_nat (length t) /\ t' = <[Z.to_nat target := nh]> t.
Proof.
  unfold setRoute.
  destruct (0 <=? target) eqn:Hlo; [|discriminate].
  destruct (target <? Z.of_nat (length t)) eqn:Hhi; [|discriminate].
  cbn [andb]. intros E. inversion E.
  apply Z.leb_le in Hlo. apply Z.ltb_lt in Hhi. now split.
Qed.

Lemma nextHop_setRoute_same (t t' : RoutingTable) (target nh : nodeaddr_t) :
  setRoute target nh t = Some t' ->
  0 < target < 64 ->
  nextHop t' target = nh.
Proof.
  intros Hset Hrange. apply setRoute_Some in Hset as [Hin ->].
  unfold nextHop.
  replace (target =? 0) with false by (symmetry; apply Z.eqb_neq; lia).
  replace (65520 <=? target) with false by (symmetry; apply Z.leb_gt; lia).
  replace (64 <=? target) with false by (symmetry; apply Z.leb_gt; lia).
  unfold RoutingTable in *.
  rewrite list_lookup_insert_eq; [reflexivity|]. lia.
Qed.

Lemma nextHop_setRoute_other (t t' : RoutingTable) (target nh a : nodeaddr_t) :
  setRoute target nh t = Some t' ->
  0 <= a ->
  a <> target ->
  nextHop t' a = nextHop t a.
Proof.
  intros Hset Ha Hne. apply setRoute_Some in Hset as [Hin ->].
  unfold nextHop.
  destruct (a =? 0) eqn:E0; [reflexivity|].
  destruct (65520 <=? a); [reflexivity|].
  destruct (64 <=? a); [reflexivity|].
  unfold RoutingTable, nodeaddr_t in *.
  rewrite list_lookup_insert_ne; [reflexivity|]. lia.
Qed.

End Table.

(** ** Commands under the passcode *)

Section Commands.

Context {D : Decls}.

(** X13.  A RESET or RESET_COUNTERS packet that is long enough and carries
    the passcode of the node is carried out by the first handler of the
    chain.  RESET restarts the instrumentation once and prints nothing;
    RESET_COUNTERS prints "INF: Reset counters" and leaves all three
    diagnostic counters at zero, the count of this very packet included.
    Neither is answered: nothing but the ACK is queued. *)
Theorem reset_carried_out (w : World) (rssi : Z) (p : Packet) (len : Z) :
  handledLocally p len w = true ->
  routeBackMissing p w = false ->
  sizeofHeader + sizeofResetReqPayload <= len ->
  checkPasscode (_config w) (reset_passcode (readResetReq (payload p))) = true ->
  exists w0,
    acknowledge p (noted rssi p w) = Some (tt, w0)
    /\ (getType (header p) = TYPE_RESET ->
        _process rssi p len w
        = Some (tt, set_instrumentation (restart (_instrumentation w))
                      (recordReport p w0)))
    /\ (getType (header p) = TYPE_RESET_COUNTERS ->
        exists w',
          _process rssi p len w = Some (tt, w')
          /\ getBadRxPacketCounter w' = 0
          /\ getBadRouteCounter w' = 0
          /\ _rxPacketCounter w' = 0
          /\ _instrumentation w' = _instrumentation w
          /\ queuedPackets w' = queuedPackets w0
          /\ logger w' = logger w0 ++ [LStr "INF: Reset counters"; LEndl]).
Proof.
  intros Hloc Hback Hlen Hpass.
  destruct (local_entry rssi p len w Hloc)
    as (w0 & E0 & Hrun & Hrt & Hcfg & Hid & _ & _ & Hins & _).
  exists w0. split; [exact E0|].
  assert (Hshort : (len <? sizeofHeader + sizeofResetReqPayload) = false)
    by (apply Z.ltb_ge; exact Hlen).
  unfold routeBackMissing in Hback.
  split; intros Hty.
  - unfold _process. rewrite Hrun. unfold _process_local_with. cbv zeta.
    unfold mbind at 1, M_bind at 1, gets at 1.
    unfold mbind at 1, M_bind at 1, gets at 1.
    rewrite Hrt, Hcfg, Hback, Hty. decide_types.
    cbn [orb]. cbv iota. unfold handleReset.
    unfold mbind at 1, M_bind at 1, gets at 1.
    rewrite Hcfg, Hshort, Hpass, Hty. decide_types.
    cbn [negb]. cbv iota. unfold modify. rewrite Hins. reflexivity.
  - eexists. split.
    + unfold _process. rewrite Hrun. unfold _process_local_with. cbv zeta.
      unfold mbind at 1, M_bind at 1, gets at 1.
      unfold mbind at 1, M_bind at 1, gets at 1.
      rewrite Hrt, Hcfg, Hback, Hty. decide_types.
      cbn [orb]. cbv iota. unfold handleReset.
      unfold mbind at 1, M_bind at 1, gets at 1.
      rewrite Hcfg, Hshort, Hpass, Hty. decide_types.
      cbn [negb]. cbv iota. reflexivity.
    + rewrite <- Hins. destruct w0. repeat split.
Qed.

(** X14.  A SETROUTE packet that is long enough, carries the passcode of
    the node and names a target inside the routing table stores the route
    of its payload and reports it as "INF: Set route target->hop"; nothing
    is sent back.  A target from 1 to 63 is from then on routed over the
    new hop, and the route of every other address is as before. *)
Theorem setroute_carried_out (w : World) (rssi : Z) (p : Packet) (len : Z) :
  handledLocally p len w = true ->
  routeBackMissing p w = false ->
  getType (header p) = TYPE_SETROUTE ->
  sizeofHeader + sizeofSetRouteReqPayload <= len ->
  checkPasscode (_config w) (passcode (readSetRouteReq (payload p))) = true ->
  let target := setroute_targetAddr (readSetRouteReq (payload p)) in
  let hop := setroute_nextHopAddr (readSetRouteReq (payload p)) in
  0 <= target < Z.of_nat (length (_routingTable w)) ->
  exists w0 w',
    acknowledge p (noted rssi p w) = Some (tt, w0)
    /\ _process rssi p len w = Some (tt, w')
    /\ _routingTable w' = <[Z.to_nat target := hop]> (_routingTable w)
    /\ logger w'
       = logger w0
         ++ [LStr "INF: Set route "; LNum target; LStr "->"; LNum hop; LEndl]
    /\ queuedPackets w' = queuedPackets w0
    /\ _idCounter w' = _idCounter w
    /\ (0 < target < 64 -> nextHop (_routingTable w') target = hop)
    /\ (forall a, 0 <= a -> a <> target ->
        nextHop (_routingTable w') a = nextHop (_routingTable w) a).
Proof.
  intros Hloc Hback Hty Hlen Hpass target hop Hin.
  destruct (local_entry rssi p len w Hloc)
    as (w0 & E0 & Hrun & Hrt & Hcfg & Hid & _).
  assert (Hshort : (len <? sizeofHeader + sizeofSetRouteReqPayload) = false)
    by (apply Z.ltb_ge; exact Hlen).
  pose proof (setRoute_inside (_routingTable w) target hop Hin) as Hset.
  unfold routeBackMissing in Hback.
  exists w0. eexists. split; [exact E0|]. split.
  { unfold _process. rewrite Hrun. unfold _process_local_with. cbv zeta.
    unfold mbind at 1, M_bind at 1, gets at 1.
    unfold mbind at 1, M_bind at 1, gets at 1.
    rewrite Hrt, Hcfg, Hback, Hty. decide_types.
    cbn [orb]. cbv iota. rewrite Hshort, Hpass.
    cbn [negb]. cbv iota. fold target hop. rewrite Hset. reflexivity. }
  rewrite <- Hid.
  split; [destruct w0; reflexivity|].
  split; [destruct w0; run; rewrite <- !app_assoc; reflexivity|].
  split; [destruct w0; reflexivity|].
  split; [destruct w0; reflexivity|].
  split.
  - intros Hrange. destruct w0. run. cbn.
    exact (nextHop_setRoute_same _ _ _ _ Hset Hrange).
  - intros a Ha Hne. destruct w0. run. cbn.
    exact (nextHop_setRoute_other _ _ _ _ _ Hset Ha Hne).
Qed.

End Commands.

Lemma reset_carried_out_witness :
  exists w',
    _process (D := Reference.decls) 0
      (Reference.request TYPE_RESET_COUNTERS (Reference.bytes32 1234)) 32
      Reference.node1
    = Some (tt, w')
    /\ _rxPacketCounter w' = 0.
Proof.
  assert (Hlen : sizeofHeader (Decls := Reference.decls)
                 + sizeofResetReqPayload (Decls := Reference.decls) <= 32)
    by (vm_compute; intros H; discriminate H).
  destruct (reset_carried_out (D := Reference.decls) Reference.node1 0
              (Reference.request TYPE_RESET_COUNTERS (Reference.bytes32 1234)) 32
              eq_refl eq_refl Hlen eq_refl)
    as (w0 & _ & _ & Hcounters).
  destruct (Hcounters eq_refl) as (w' & Hrun & _ & _ & Hrx & _).
  exists w'. split; [exact Hrun | exact Hrx].
Defined.

Lemma setroute_carried_out_witness :
  exists w',
    _process (D := Reference.decls) 0
      (Reference.request TYPE_SETROUTE
         (Reference.bytes32 1234 ++ Reference.bytes16 9 ++ Reference.bytes16 3))
      36 Reference.node1
    = Some (tt, w')
    /\ nextHop (D := Reference.decls) (_routingTable w') 9 = 3.
Proof.
  assert (Hlen : sizeofHeader (Decls := Reference.decls)
                 + sizeofSetRouteReqPayload (Decls := Reference.decls) <= 36)
    by (vm_compute; intros H; discriminate H).
  destruct (setroute_carried_out (D := Reference.decls) Reference.node1 0
              (Reference.request TYPE_SETROUTE
                 (Reference.bytes32 1234 ++ Reference.bytes16 9
                  ++ Reference.bytes16 3))
              36 eq_refl eq_refl eq_refl Hlen eq_refl)
    as (w0 & w' & _ & Hrun & _ & _ & _ & _ & Hroute & _).
  - vm_compute. split; [intros H; discriminate H | reflexivity].
  - exists w'. split; [exact Hrun|].
    apply Hroute. vm_compute. split; reflexivity.
Defined.

(** ** What a packet may change *)

Section Dispatch.

Context {D : Decls}.

(** The ways through [_process]: either the packet is not dispatched, and
    then the routing table and the identifier counter are as before, or it
    goes to the forwarding or to the local block after the ACK and the
    report. *)
Lemma _process_ways (rssi : Z) (p : Packet) (len : Z) (w w' : World) :
  _process rssi p len w = Some (tt, w') ->
  (dispatched p len w = false /\ settingsView w' = settingsView w)
  \/ (dispatched p len w = true
      /\ exists w0,
           acknowledge p (noted rssi p w) = Some (tt, w0)
           /\ (if getFinalDestAddr (header p) =? getAddr (_config w)
               then _process_local rssi p len
               else _process_forward p len) (recordReport p w0)
              = Some (tt, w')).
Proof.
  intros E. unfold _process in E. unfold dispatched.
  destruct (accepted (_config w) p len) eqn:Hacc; cbn [andb].
  - destruct (isAck (header p)) eqn:Hack; cbn [negb andb].
    + left. split; [reflexivity|].
      rewrite (_process_accepted _ _ _ _ _ Hacc) in E.
      rewrite (bind_Some _ _ _ _ _ (noteReception_eq rssi p w)), Hack in E.
      inversion E. reflexivity.
    + rewrite (_process_data _ _ _ _ _ Hacc Hack) in E.
      apply bind_inv in E as ([] & w0 & E0 & E1).
      pose proof (seenRecently_after_ack _ _ _ _ E0) as Hseen.
      destruct (acknowledge_frame _ _ _ _ E0) as (Hrt & Hcfg & Hid & _).
      rewrite <- Hseen.
      destruct (seenRecently p w0) eqn:Hdup; cbn [negb].
      * left. split; [reflexivity|].
        rewrite (_process_checked_duplicate _ _ _ _ _ Hdup) in E1.
        inversion E1. unfold settingsView. cbn. now rewrite Hrt, Hid.
      * right. split; [reflexivity|]. exists w0. split; [exact E0|].
        rewrite (_process_checked_fresh _ _ _ _ _ Hdup) in E1.
        rewrite Hcfg in E1.
        destruct (getFinalDestAddr (header p) =? getAddr (_config w));
          exact E1.
  - left. split; [reflexivity|].
    revert E. unfold _process_with. unfold accepted in Hacc.
    destruct (len <? sizeofHeader).
    { intros E. eapply preserves_apply; [|exact E]. frame. }
    destruct (getPacketVersion (header p) =? PACKET_VERSION); cbn [negb].
    2: { intros E. eapply preserves_apply; [|exact E]. frame. }
    cbn [negb andb] in Hacc.
    apply orb_false_elim in Hacc as [Hbc Hself].
    unfold mbind at 1, M_bind at 1, gets at 1. rewrite Hbc, Hself. cbn [negb andb].
    intros E. eapply preserves_apply; [|exact E]. frame.
Qed.

(** A computation that takes an identifier and then leaves the counter
    alone has moved it on by one. *)
Lemma takes_one {A : Type} (k : Z -> M A) (w w' : World) (a : A) :
  (forall uid, preserves _idCounter (k uid)) ->
  (getUniqueId ≫= k) w = Some (a, w') ->
  _idCounter w' = wrapIdCounter (_idCounter w + 1).
Proof.
  intros Hk E. apply bind_inv in E as (uid & w1 & E1 & E2).
  rewrite (Hk _ _ _ _ E2). unfold getUniqueId in E1. inversion E1.
  destruct w. reflexivity.
Qed.

Lemma forward_identifier (p : Packet) (len : Z) (w w' : World) :
  _process_forward p len w = Some (tt, w') ->
  _idCounter w'
  = if relays p w then wrapIdCounter (_idCounter w + 1) else _idCounter w.
Proof.
  unfold _process_forward, relays.
  unfold mbind at 1, M_bind at 1, gets at 1.
  unfold mbind at 1, M_bind at 1, gets at 1.
  destruct (negb (nextHop _ _ =? NO_ROUTE)); intros E.
  - eapply takes_one; [|exact E]. intros uid. frame.
  - eapply (preserves_apply _idCounter); [|exact E]. frame.
Qed.

Lemma local_identifier (arm : M unit) (rssi : Z) (p : Packet) (len : Z)
    (w w' : World) :
  _process_local_with arm rssi p len w = Some (tt, w') ->
  _idCounter w'
  = if answers p len w then wrapIdCounter (_idCounter w + 1) else _idCounter w.
Proof.
  unfold answers, routeBackMissing, _process_local_with. cbv zeta.
  unfold mbind at 1, M_bind at 1, gets at 1.
  unfold mbind at 1, M_bind at 1, gets at 1.
  destruct (isResponseRequired (header p) && _); cbn [negb andb].
  { intros E. eapply (preserves_apply _idCounter); [|exact E]. frame. }
  unfold handleReset, getType.
  destruct (type (header p)); decide_types; cbn [orb andb]; cbv iota;
    try (intros E; eapply takes_one; [|exact E]; intros uid; frame);
    try (intros E; eapply (preserves_apply _idCounter); [|exact E]; frame).
  destruct (len <? sizeofHeader + sizeofGetRouteReqPayload); cbn [negb]; intros E.
  - eapply (preserves_apply _idCounter); [|exact E]. frame.
  - eapply takes_one; [|exact E]. intros uid. frame.
Qed.

(** In the local block the routing table is written for an authorized
    SETROUTE only. *)
Lemma local_route_change (rssi : Z) (p : Packet) (len : Z) (w w' : World) :
  _process_local rssi p len w = Some (tt, w') ->
  _routingTable w' <> _routingTable w ->
  getType (header p) = TYPE_SETROUTE
  /\ sizeofHeader + sizeofSetRouteReqPayload <= len
  /\ checkPasscode (_config w) (passcode (readSetRouteReq (payload p))) = true
  /\ setRoute (setroute_targetAddr (readSetRouteReq (payload p)))
       (setroute_nextHopAddr (readSetRouteReq (payload p))) (_routingTable w)
     = Some (_routingTable w').
Proof.
  intros E Hchg.
  destruct (decide (getType (header p) = TYPE_SETROUTE)) as [Hty | Hne].
  2: { exfalso. apply Hchg. eapply (preserves_apply _routingTable); [|exact E].
       unfold _process_local, _process_local_with, handleReset, secondReset.
       rewrite (bool_decide_eq_false_2 _ Hne). frame. }
  split; [exact Hty|].
  revert E. unfold _process_local, _process_local_with. cbv zeta.
  unfold mbind at 1, M_bind at 1, gets at 1.
  unfold mbind at 1, M_bind at 1, gets at 1.
  destruct (isResponseRequired (header p) && _).
  { intros E. exfalso. apply Hchg.
    eapply (preserves_apply _routingTable); [|exact E]. frame. }
  rewrite Hty. decide_types. cbn [orb]. cbv iota.
  destruct (len <? sizeofHeader + sizeofSetRouteReqPayload) eqn:Hlen.
  { intros E. exfalso. apply Hchg. inversion E. reflexivity. }
  destruct (checkPasscode (_config w) _) eqn:Hcode; cbn [negb]; cbv iota.
  2: { intros E. exfalso. apply Hchg. inversion E. reflexivity. }
  intros E. apply Z.ltb_ge in Hlen. split; [exact Hlen|]. split; [reflexivity|].
  destruct (setRoute _ _ (_routingTable w)) as [table|]; [|discriminate].
  clear Hchg Hcode. revert E. destruct w. run. intros E. inversion E. reflexivity.
Qed.

(** X15.  Handling one packet uses up at most one identifier, and exactly
    when the node builds a packet of its own for it: the copy it forwards
    (a next hop being known) or the answer to a PING_REQ, a GETSED_REQ or a
    GETROUTE_REQ that is long enough (a route back being known).  The
    identifier is gone whether or not the queue then takes the packet; an
    ACK, a duplicate, a command or a display message takes none. *)
Theorem identifier_per_packet (rssi : Z) (p : Packet) (len : Z) (w w' : World) :
  _process rssi p len w = Some (tt, w') ->
  _idCounter w'
  = if buildsPacket p len w
    then wrapIdCounter (_idCounter w + 1)
    else _idCounter w.
Proof.
  intros E. unfold buildsPacket.
  destruct (_process_ways _ _ _ _ _ E) as [[Hno Hsame] | (Hyes & w0 & E0 & Erun)].
  - rewrite Hno. cbn [andb]. unfold settingsView in Hsame. congruence.
  - rewrite Hyes. cbn [andb].
    destruct (acknowledge_frame _ _ _ _ E0) as (Hrt & Hcfg & Hid & _).
    assert (Hrt' : _routingTable (recordReport p w0) = _routingTable w)
      by exact Hrt.
    assert (Hid' : _idCounter (recordReport p w0) = _idCounter w) by exact Hid.
    destruct (getFinalDestAddr (header p) =? getAddr (_config w)).
    + rewrite (local_identifier _ _ _ _ _ _ Erun), Hid'.
      unfold answers, routeBackMissing. now rewrite Hrt'.
    + rewrite (forward_identifier _ _ _ _ Erun), Hid'.
      unfold relays. now rewrite Hrt'.
Qed.

(** X16.  [_process] writes the routing table in one case only: a SETROUTE
    packet handled locally, long enough for its payload, with the passcode
    of the node.  The table is then what [setRoute] makes of the old one
    and the route of the payload. *)
Theorem routes_change_by_setroute_only (rssi : Z) (p : Packet) (len : Z)
    (w w' : World) :
  _process rssi p len w = Some (tt, w') ->
  _routingTable w' <> _routingTable w ->
  handledLocally p len w = true
  /\ getType (header p) = TYPE_SETROUTE
  /\ sizeofHeader + sizeofSetRouteReqPayload <= len
  /\ checkPasscode (_config w) (passcode (readSetRouteReq (payload p))) = true
  /\ setRoute (setroute_targetAddr (readSetRouteReq (payload p)))
       (setroute_nextHopAddr (readSetRouteReq (payload p))) (_routingTable w)
     = Some (_routingTable w').
Proof.
  intros E Hchg.
  destruct (_process_ways _ _ _ _ _ E) as [[Hno Hsame] | (Hyes & w0 & E0 & Erun)].
  { exfalso. apply Hchg. unfold settingsView in Hsame. congruence. }
  destruct (acknowledge_frame _ _ _ _ E0) as (Hrt & Hcfg & _).
  assert (Hrt' : _routingTable (recordReport p w0) = _routingTable w)
    by exact Hrt.
  assert (Hcfg' : _config (recordReport p w0) = _config w) by exact Hcfg.
  change (handledLocally p len w)
    with (dispatched p len w
          && (getFinalDestAddr (header p) =? getAddr (_config w))).
  rewrite Hyes. cbn [andb].
  destruct (getFinalDestAddr (header p) =? getAddr (_config w)).
  - split; [reflexivity|]. rewrite <- Hrt', <- Hcfg'.
    apply (local_route_change _ _ _ _ _ Erun). now rewrite Hrt'.
  - exfalso. apply Hchg. rewrite <- Hrt'.
    eapply (preserves_apply _routingTable); [|exact Erun].
    unfold _process_forward. frame.
Qed.

End Dispatch.

Lemma identifier_per_packet_witness :
  exists w',
    _process (D := Reference.decls) 0 Reference.relayed 30 Reference.node1
    = Some (tt, w')
    /\ buildsPacket (D := Reference.decls) Reference.relayed 30 Reference.node1
       = true
    /\ _idCounter w' = 2.
Proof.
  eexists. split; [vm_compute; reflexivity|]. split; [reflexivity|].
  refine (eq_trans
            (identifier_per_packet (D := Reference.decls) 0 Reference.relayed 30
               Reference.node1 _ _) _).
  - vm_compute. reflexivity.
  - vm_compute. reflexivity.
Defined.

Lemma routes_change_by_setroute_only_witness :
  exists w',
    _process (D := Reference.decls) 0
      (Reference.request TYPE_SETROUTE
         (Reference.bytes32 1234 ++ Reference.bytes16 9 ++ Reference.bytes16 3))
      36 Reference.node1
    = Some (tt, w')
    /\ _routingTable w' <> _routingTable Reference.node1
    /\ getType
         (header
            (Reference.request TYPE_SETROUTE
               (Reference.bytes32 1234 ++ Reference.bytes16 9
                ++ Reference.bytes16 3)))
       = TYPE_SETROUTE.
Proof.
  eexists. split; [vm_compute; reflexivity|].
  split; [vm_compute; discriminate|].
  refine (proj1 (proj2
            (routes_change_by_setroute_only (D := Reference.decls) 0
               (Reference.request TYPE_SETROUTE
                  (Reference.bytes32 1234 ++ Reference.bytes16 9
                   ++ Reference.bytes16 3))
               36 Reference.node1 _ _ _))).
  - vm_compute. reflexivity.
  - vm_compute. discriminate.
Defined.

(** ** Messages that are only shown *)

Section Display.

Context {D : Decls}.

Lemma logsOnly_emit (items : list LogItem) : logsOnly (emit items).
Proof. intros w a w' E. inversion E. now exists items. Qed.

Lemma logsOnly_outOfBounds {A : Type} : logsOnly (@outOfBounds A).
Proof. intros w a w' E. discriminate. Qed.

Lemma logsOnly_bind {A B : Type} (m : M A) (k : A -> M B) :
  logsOnly m -> (forall a, logsOnly (k a)) -> logsOnly (m ≫= k).
Proof.
  intros Hm Hk w b w' E.
  destruct (bind_inv _ _ _ _ _ E) as (a & w1 & E1 & E2).
  destruct (Hm _ _ _ E1) as (l1 & ->).
  destruct (Hk _ _ _ _ E2) as (l2 & ->).
  exists (l1 ++ l2). destruct w. run. now rewrite app_assoc.
Qed.

Ltac logs_step :=
  lazymatch goal with
  | |- logsOnly (emit _) => apply logsOnly_emit
  | |- logsOnly outOfBounds => apply logsOnly_outOfBounds
  | |- logsOnly (mbind _ _) => apply logsOnly_bind; [| intros ?]
  | |- logsOnly (match ?c with _ => _ end) => destruct c
  end.

Ltac logs :=
  unfold print, printNum, println, printlnNum, printlnEmpty, printTo,
    printBuffer, printlnBuffer;
  cbv beta iota zeta;
  repeat logs_step.

(** The handlers of the displayed types write to the logger only. *)
Lemma logsOnly_local (rssi : Z) (p : Packet) (len : Z) (w w' : World) :
  routeBackMissing p w = false ->
  displayed (getType (header p)) = true ->
  _process_local rssi p len w = Some (tt, w') ->
  exists items, w' = set_logger (logger w ++ items) w.
Proof.
  unfold routeBackMissing, _process_local, _process_local_with. cbv zeta.
  intros Hback Hty.
  unfold mbind at 1, M_bind at 1, gets at 1.
  unfold mbind at 1, M_bind at 1, gets at 1.
  rewrite Hback. revert Hty. unfold getType.
  destruct (type (header p)); cbn [displayed]; try discriminate; intros _;
    decide_types; cbn [orb]; cbv iota;
    match goal with
    | |- ?m w = _ -> _ =>
        intros E; cut (logsOnly m); [intros Hm; exact (Hm _ _ _ E) | logs]
    end.
Qed.

Lemma cstring_terminated (l : list Z) :
  Forall (fun b => b <> 0) l -> cstring (l ++ [0]) = l.
Proof.
  induction 1 as [|b l Hb _ IH]; [reflexivity|].
  cbn. rewrite (proj2 (Z.eqb_neq b 0) Hb), IH. reflexivity.
Qed.

(** X17.  A packet of a displayed type (GETSED_RESP, PING_RESP, TEXT,
    GETROUTE_RESP or a type the chain does not know) that is handled
    locally is shown and not acted on: past the ACK and the report,
    [_process] writes to the logger and changes nothing else, whatever the
    payload holds. *)
Theorem shown_not_acted_on (rssi : Z) (p : Packet) (len : Z) (w w' : World) :
  handledLocally p len w = true ->
  routeBackMissing p w = false ->
  displayed (getType (header p)) = true ->
  _process rssi p len w = Some (tt, w') ->
  exists w0 items,
    acknowledge p (noted rssi p w) = Some (tt, w0)
    /\ w' = set_logger (logger w0 ++ items) (recordReport p w0).
Proof.
  intros Hloc Hback Hty E.
  destruct (local_entry rssi p len w Hloc) as (w0 & E0 & Hrun & Hrt & _).
  unfold _process in E. rewrite Hrun in E.
  assert (Hback' : routeBackMissing p (recordReport p w0) = false).
  { unfold routeBackMissing in *. now rewrite Hrt. }
  destruct (logsOnly_local _ _ _ _ _ Hback' Hty E) as (items & ->).
  exists w0, items. split; [exact E0 | reflexivity].
Qed.

(** X18.  A TEXT packet handled locally whose text is shorter than the
    scratch array of 128 bytes is printed with the call sign and the
    address of its origin, in the form the command mode of the node asks
    for.  The text printed is what the payload holds up to its length,
    cut at the first NUL byte; a text without NUL bytes is printed in
    full. *)
Theorem text_shown (w : World) (rssi : Z) (p : Packet) (len : Z) :
  handledLocally p len w = true ->
  routeBackMissing p w = false ->
  getType (header p) = TYPE_TEXT ->
  len - sizeofHeader < scratchSize ->
  let bytes := take (Z.to_nat (len - sizeofHeader)) (payload p) in
  let text := cstring (bytes ++ [0]) in
  let call := getOriginalSourceCall (header p) in
  let node := getOriginalSourceAddr (header p) in
  exists w0,
    acknowledge p (noted rssi p w) = Some (tt, w0)
    /\ _process rssi p len w
       = Some (tt,
           set_logger
             (logger w0 ++
                if getCommandMode (_config w) =? 1
                then [LStr ("TEXT: { " +:+ q +:+ "call" +:+ q +:+ ": " +:+ q);
                      LStr call;
                      LStr (q +:+ ", " +:+ q +:+ "node" +:+ q +:+ ": ");
                      LNum node;
                      LStr (q +:+ ", " +:+ q +:+ "text" +:+ q +:+ ": " +:+ q);
                      LText text;
                      LStr (q +:+ " } "); LEndl]
                else [LStr "MSG: ["; LStr call; LStr ","; LNum node;
                      LStr "] "; LText text; LEndl])
             (recordReport p w0))
    /\ (Forall (fun b => b <> 0) bytes -> text = bytes).
Proof.
  intros Hloc Hback Hty Hlen bytes text call node.
  destruct (local_entry rssi p len w Hloc) as (w0 & E0 & Hrun & Hrt & Hcfg & _).
  exists w0. split; [exact E0|]. split; [|apply cstring_terminated].
  unfold _process. rewrite Hrun. unfold _process_local_with. cbv zeta.
  unfold mbind at 1, M_bind at 1, gets at 1.
  unfold mbind at 1, M_bind at 1, gets at 1.
  unfold routeBackMissing in Hback. rewrite Hrt, Hcfg, Hback, Hty.
  decide_types. cbn [orb]. cbv iota.
  unfold fillScratch.
  rewrite (proj2 (Z.leb_le _ _) (Z.lt_le_incl _ _ Hlen)).
  rewrite (proj2 (Z.ltb_lt _ _) Hlen).
  fold bytes. fold text. fold call. fold node.
  destruct (getCommandMode (_config w) =? 1);
    destruct w0; run; rewrite <- !app_assoc; reflexivity.
Qed.

End Display.

Lemma shown_not_acted_on_witness :
  exists w' w0 items,
    _process (D := Reference.decls) (-80) Reference.pong 28 Reference.node1
    = Some (tt, w')
    /\ w' = set_logger (logger w0 ++ items)
              (recordReport (D := Reference.decls) Reference.pong w0).
Proof.
  eassert (E : _process (D := Reference.decls) (-80) Reference.pong 28
                 Reference.node1 = Some (tt, _))
    by (vm_compute; reflexivity).
  destruct (shown_not_acted_on (D := Reference.decls) (-80) Reference.pong 28
              Reference.node1 _ eq_refl eq_refl eq_refl E)
    as (w0 & items & _ & Hw).
  eexists _, w0, items. split; [exact E | exact Hw].
Defined.

Lemma text_shown_witness :
  exists w0,
    _process (D := Reference.decls) 0 (Reference.textPacket 5) 33 Reference.node1
    = Some (tt,
        set_logger
          (logger w0 ++
             [LStr "MSG: ["; LStr "W1AW"; LStr ","; LNum 3; LStr "] ";
              LText [65; 65; 65; 65; 65]; LEndl])
          (recordReport (D := Reference.decls) (Reference.textPacket 5) w0)).
Proof.
  assert (Hlen : 33 - sizeofHeader (Decls := Reference.decls) < scratchSize)
    by reflexivity.
  destruct (text_shown (D := Reference.decls) Reference.node1 0
              (Reference.textPacket 5) 33 eq_refl eq_refl eq_refl Hlen)
    as (w0 & _ & Hrun & _).
  exists w0. exact Hrun.
Defined.

(** ** Forwarding without a way out *)

Section SelfRoute.

Context {D : Decls}.









End SelfRoute.

Section PumpSpins.

Context {D : Decls}.

Variable opmPump :
  Z -> OutboundPacketManager -> CircularBuffer
  -> OutboundPacketManager * CircularBuffer.


End PumpSpins.


Section DeadEnd.

Context {D : Decls}.

(** X20.  A dispatched packet for another node for whose final
    destination the routing table has no next hop is not forwarded: it is
    counted in [_badRouteCounter] and reported as "ERR: No route", no
    identifier is used up and nothing is queued for it beyond the ACK it
    may have asked for.  It has been reported to the duplicate ring all
    the same. *)
Theorem forward_dead_end (w : World) (rssi : Z) (p : Packet) (len : Z) :
  dispatched p len w = true ->
  getFinalDestAddr (header p) <> getAddr (_config w) ->
  relays p w = false ->
  exists w0,
    acknowledge p (noted rssi p w) = Some (tt, w0)
    /\ let w1 := recordReport p w0 in
       _process rssi p len w
       = Some (tt, set_logger (logger w1 ++ [LStr msg_no_route; LEndl])
                     (set_badRouteCounter (wrap16 (_badRouteCounter w + 1)) w1))
       /\ _idCounter w1 = _idCounter w
       /\ queuedPackets w1 = queuedPackets w0.
Proof.
  unfold dispatched, relays. intros Hdisp Hfd Hnone.
  apply andb_prop in Hdisp as [Hdisp Hfresh].
  apply andb_prop in Hdisp as [Hacc Hack].
  apply negb_true_iff in Hfresh. apply negb_true_iff in Hack.
  destruct (acknowledge_total p (noted rssi p w)) as (w0 & E0).
  destruct (acknowledge_frame _ _ _ _ E0) as (Hrt & _ & Hid & Hbr & _).
  exists w0. split; [exact E0|]. cbv zeta.
  split; [|split; [exact Hid | reflexivity]].
  rewrite (_process_to_forward _ _ _ _ _ Hacc Hack Hfresh Hfd E0).
  unfold _process_forward.
  unfold mbind at 1, M_bind at 1, gets at 1.
  unfold mbind at 1, M_bind at 1, gets at 1.
  change (_routingTable (recordReport p w0)) with (_routingTable w0).
  rewrite Hrt, Hnone, <- Hbr.
  destruct w0. run. reflexivity.
Qed.

End DeadEnd.

Lemma forward_dead_end_witness :
  exists w',
    _process (D := Reference.decls) 0
      (mkPacket (Reference.testHeader TYPE_TEXT false 100 2 1 2 9) [72; 105]) 30
      Reference.node1
    = Some (tt, w')
    /\ _badRouteCounter w' = 1.
Proof.
  destruct (forward_dead_end (D := Reference.decls) Reference.node1 0
              (mkPacket (Reference.testHeader TYPE_TEXT false 100 2 1 2 9) [72; 105])
              30 eq_refl)
    as (w0 & _ & Hrun & _).
  - vm_compute. discriminate.
  - reflexivity.
  - eexists. split; [exact Hrun | reflexivity].
Defined.

(** ** The diagnostic counters *)

Section Counters.

Context {D : Decls}.

Lemma forward_counters (p : Packet) (len : Z) (w w' : World) :
  _process_forward p len w = Some (tt, w') ->
  countersView w'
  = (_rxPacketCounter w, _badRxPacketCounter w,
     if relays p w then _badRouteCounter w
     else wrap16 (_badRouteCounter w + 1)).
Proof.
  unfold _process_forward, relays.
  unfold mbind at 1, M_bind at 1, gets at 1.
  unfold mbind at 1, M_bind at 1, gets at 1.
  destruct (negb (nextHop _ _ =? NO_ROUTE)); intros E.
  - change (countersView w' = countersView w).
    eapply preserves_apply; [|exact E]. frame.
  - revert E. destruct w. run. intros E. inversion E. reflexivity.
Qed.

Lemma local_counters (rssi : Z) (p : Packet) (len : Z) (w w' : World) :
  _process_local rssi p len w = Some (tt, w') ->
  countersView w'
  = if resetsCounters p len w then (0, 0, 0)
    else (_rxPacketCounter w, _badRxPacketCounter w,
          if routeBackMissing p w then wrap16 (_badRouteCounter w + 1)
          else _badRouteCounter w).
Proof.
  unfold resetsCounters, routeBackMissing, _process_local, _process_local_with.
  cbv zeta.
  unfold mbind at 1, M_bind at 1, gets at 1.
  unfold mbind at 1, M_bind at 1, gets at 1.
  destruct (isResponseRequired (header p) && _); cbn [negb andb].
  { destruct w. run. intros E. inversion E. reflexivity. }
  destruct (decide (getType (header p) = TYPE_RESET_COUNTERS)) as [Hty | Hne].
  - rewrite Hty. decide_types. cbn [orb]. cbv iota.
    unfold handleReset. unfold mbind at 1, M_bind at 1, gets at 1.
    rewrite Hty. decide_types.
    destruct (len <? sizeofHeader + sizeofResetReqPayload); cbn [negb andb].
    { intros E. inversion E. reflexivity. }
    destruct (checkPasscode _ _); cbn [negb]; cbv iota.
    + destruct w. run. intros E. inversion E. reflexivity.
    + intros E. inversion E. reflexivity.
  - rewrite (bool_decide_eq_false_2 _ Hne). cbn [andb].
    intros E. change (countersView w' = countersView w).
    eapply preserves_apply; [|exact E].
    unfold handleReset, secondReset.
    rewrite (bool_decide_eq_false_2 _ Hne). frame.
Qed.

(** X21.  What one call of [_process] does to the three diagnostic
    counters.  An authorized RESET_COUNTERS handled locally leaves all
    three at zero.  Otherwise [_rxPacketCounter] goes up by one exactly
    for an accepted frame (an ACK or a duplicate included),
    [_badRxPacketCounter] exactly for a frame that is too short or of
    another protocol version, and [_badRouteCounter] exactly for a
    dispatched packet with no route forward or, when an answer is owed,
    no route back; each within 16 bits.  A frame for another node moves
    none of them. *)
Theorem counters_ledger (rssi : Z) (p : Packet) (len : Z) (w w' : World) :
  _process rssi p len w = Some (tt, w') ->
  countersView w'
  = if handledLocally p len w && resetsCounters p len w then (0, 0, 0)
    else (if accepted (_config w) p len
          then wrap16 (_rxPacketCounter w + 1) else _rxPacketCounter w,
          if malformed p len
          then wrap16 (_badRxPacketCounter w + 1) else _badRxPacketCounter w,
          if deadEnd p len w
          then wrap16 (_badRouteCounter w + 1) else _badRouteCounter w).
Proof.
  intros E. unfold _process in E.
  change (handledLocally p len w)
    with (dispatched p len w
          && (getFinalDestAddr (header p) =? getAddr (_config w))).
  unfold deadEnd, dispatched, malformed.
  destruct (accepted (_config w) p len) eqn:Hacc; cbn [andb].
  - destruct (accepted_inv _ _ _ Hacc) as (Hlen & Hver & _).
    rewrite Hlen, Hver. cbn [negb orb].
    destruct (isAck (header p)) eqn:Hack; cbn [negb andb].
    + rewrite (_process_accepted _ _ _ _ _ Hacc) in E.
      rewrite (bind_Some _ _ _ _ _ (noteReception_eq rssi p w)), Hack in E.
      inversion E. reflexivity.
    + rewrite (_process_data _ _ _ _ _ Hacc Hack) in E.
      apply bind_inv in E as ([] & w0 & E0 & E1).
      pose proof (seenRecently_after_ack _ _ _ _ E0) as Hseen.
      destruct (acknowledge_frame _ _ _ _ E0) as (Hrt & Hcfg & _).
      pose proof (preserves_acknowledge countersView p
                    ltac:(view_side) ltac:(view_side) _ _ _ E0) as Hcount.
      change (countersView (noted rssi p w))
        with (wrap16 (_rxPacketCounter w + 1), _badRxPacketCounter w,
              _badRouteCounter w) in Hcount.
      unfold countersView in Hcount. injection Hcount as Hrx Hbrx Hbrt.
      rewrite <- Hseen.
      destruct (seenRecently p w0) eqn:Hdup; cbn [negb andb].
      * rewrite (_process_checked_duplicate _ _ _ _ _ Hdup) in E1.
        inversion E1. unfold countersView. cbn. now rewrite Hrx, Hbrx, Hbrt.
      * rewrite (_process_checked_fresh _ _ _ _ _ Hdup) in E1.
        rewrite Hcfg in E1.
        destruct (getFinalDestAddr (header p) =? getAddr (_config w));
          cbn [negb] in E1.
        -- rewrite (local_counters _ _ _ _ _ E1).
           unfold resetsCounters, routeBackMissing.
           change (_routingTable (recordReport p w0)) with (_routingTable w0).
           change (_config (recordReport p w0)) with (_config w0).
           change (_rxPacketCounter (recordReport p w0)) with (_rxPacketCounter w0).
           change (_badRxPacketCounter (recordReport p w0))
             with (_badRxPacketCounter w0).
           change (_badRouteCounter (recordReport p w0)) with (_badRouteCounter w0).
           now rewrite Hrt, Hcfg, Hrx, Hbrx, Hbrt.
        -- rewrite (forward_counters _ _ _ _ E1). unfold relays.
           change (_routingTable (recordReport p w0)) with (_routingTable w0).
           change (_rxPacketCounter (recordReport p w0)) with (_rxPacketCounter w0).
           change (_badRxPacketCounter (recordReport p w0))
             with (_badRxPacketCounter w0).
           change (_badRouteCounter (recordReport p w0)) with (_badRouteCounter w0).
           rewrite Hrt, Hrx, Hbrx, Hbrt.
           now destruct (negb (nextHop _ _ =? NO_ROUTE)).
  - revert E. unfold _process_with. unfold accepted in Hacc.
    destruct (len <? sizeofHeader); cbn [orb].
    { destruct w. run. intros E. inversion E. reflexivity. }
    destruct (getPacketVersion (header p) =? PACKET_VERSION); cbn [negb].
    2: { destruct w. run. intros E. inversion E. reflexivity. }
    cbn [negb andb] in Hacc.
    apply orb_false_elim in Hacc as [Hbc Hself].
    unfold mbind at 1, M_bind at 1, gets at 1. rewrite Hbc, Hself. cbn [negb andb].
    intros E. change (countersView w' = countersView w).
    eapply preserves_apply; [|exact E]. frame.
Qed.

End Counters.

Lemma counters_ledger_witness :
  exists w',
    _process (D := Reference.decls) 0 Reference.pingFrom9 28 Reference.node1
    = Some (tt, w')
    /\ countersView w' = (1, 0, 1).
Proof.
  eexists. split; [vm_compute; reflexivity|].
  refine (eq_trans
            (counters_ledger (D := Reference.decls) 0 Reference.pingFrom9 28
               Reference.node1 _ _) _).
  - vm_compute. reflexivity.
  - vm_compute. reflexivity.
Defined.
